(** * MCP2515 CAN controller driver (can.c / can.h): a shallow embedding

    The driver talks to one or two MCP2515 controllers through the SPI1 / SPI2
    peripherals of the Nucleo board (spi.c) and waits with the TIM3 microsecond
    delay (timer.c).  Both end in hardware registers, so they are modelled by
    what they do on the bus: every chip-select edge, every byte written on
    MOSI, every byte received on MISO and every delay is appended to a trace,
    and the bytes received come from an arbitrary input sequence per
    peripheral.  The polling loops of spi.c and timer.c on the peripherals'
    status flags are taken to end.

    Integers are unbounded [Z] values with the C conversions written out:
    [u8] is the conversion to [uint8_t], [u32] the one to [uint32_t]
    ([unsigned long] is 32 bits wide on the Cortex-M0 target of the makefile).
    A driver function is a state transformer over the board; its [hcan]
    argument is the handle object held by the board. *)

From Stdlib Require Import ZArith List Bool Lia.
Import ListNotations.
Local Open Scope Z_scope.

(** ** Fixed-width integers *)

Definition u8 (x : Z) : Z := x mod 256.
Definition u32 (x : Z) : Z := x mod 4294967296.

(** ** can.h: constants *)

Definition OSC1_FREQ : Z := 8000000.

Definition CAN_SPI1 : Z := 0x00.
Definition CAN_SPI2 : Z := 0x01.

(* #define GET_OST( osc_freq ) (128000000UL / osc_freq) *)
Definition GET_OST (osc_freq : Z) : Z := 128000000 / osc_freq.

Definition RESET_INS : Z := 0xC0.
Definition WRITE_INS : Z := 0x02.
Definition READ_INS : Z := 0x03.
Definition BIT_MODIFY_INS : Z := 0x05.

Definition CAN_BAUD_500_KBPS : Z := 500000.
Definition CAN_BAUD_250_KBPS : Z := 250000.
Definition CAN_BAUD_125_KBPS : Z := 125000.
Definition CAN_BAUD_100_KBPS : Z := 100000.
Definition CAN_BAUD_50_KBPS : Z := 50000.

Definition NORMAL_OP_MODE : Z := 0x00.
Definition SLEEP_OP_MODE : Z := 0x01.
Definition LOOPBACK_OP_MODE : Z := 0x02.
Definition LISTEN_ONLY_OP_MODE : Z := 0x03.
Definition CONFIGURATION_OP_MODE : Z := 0x04.

Definition RXB0_TURN_MASKS_FILTERS_OFF : Z := 0x01.
Definition RXB1_TURN_MASKS_FILTERS_OFF : Z := 0x02.
Definition RXB0_ROLLOVER_ENABLED : Z := 0x01.
Definition ROLLOVER_OCCURRED : Z := 0x01.
Definition ROLLOVER_NOT_OCCURRED : Z := 0x00.

Definition TXB0 : Z := 0x01.
Definition TXB1 : Z := 0x02.
Definition TXB2 : Z := 0x04.
Definition RXB0 : Z := 0x01.
Definition RXB1 : Z := 0x02.

Definition TX_STANDARD_DATA_FRAME : Z := 0x00.
Definition TX_EXTENDED_DATA_FRAME : Z := 0x01.
Definition TX_STANDARD_REMOTE_FRAME : Z := 0x02.
Definition TX_EXTENDED_REMOTE_FRAME : Z := 0x03.

Definition RX_STANDARD_DATA_FRAME : Z := 0x00.
Definition RX_EXTENDED_DATA_FRAME : Z := 0x01.
Definition RX_STANDARD_REMOTE_FRAME : Z := 0x02.
Definition RX_EXTENDED_REMOTE_FRAME : Z := 0x03.

Definition RXM0 : Z := 0x01.
Definition RXM1 : Z := 0x02.
Definition RXF0 : Z := 0x01.
Definition RXF1 : Z := 0x02.
Definition RXF2 : Z := 0x04.
Definition RXF3 : Z := 0x08.
Definition RXF4 : Z := 0x10.
Definition RXF5 : Z := 0x20.
Definition RXF0_EXTENDED_ID_ENABLED : Z := 0x01.
Definition RXF1_EXTENDED_ID_ENABLED : Z := 0x02.
Definition RXF2_EXTENDED_ID_ENABLED : Z := 0x04.
Definition RXF3_EXTENDED_ID_ENABLED : Z := 0x08.
Definition RXF4_EXTENDED_ID_ENABLED : Z := 0x10.
Definition RXF5_EXTENDED_ID_ENABLED : Z := 0x20.

Definition TX_PENDING : Z := 0x00.
Definition TX_LOST_ARBITRATION : Z := 0x01.
Definition TX_BUS_ERROR : Z := 0x02.
Definition TX_BUS_ERROR_AND_LOST_ARBITRATION : Z := 0x03.
Definition TX_ABORTED : Z := 0x04.
Definition TX_SUCCESS : Z := 0x05.

(* register addresses *)
Definition RXF0SIDH_REG : Z := 0x00.
Definition RXF1SIDH_REG : Z := 0x04.
Definition RXF2SIDH_REG : Z := 0x08.
Definition CANCTRL_REG : Z := 0x0F.
Definition RXF3SIDH_REG : Z := 0x10.
Definition RXF4SIDH_REG : Z := 0x14.
Definition RXF5SIDH_REG : Z := 0x18.
Definition RXM0SIDH_REG : Z := 0x20.
Definition RXM1SIDH_REG : Z := 0x24.
Definition CNF3_REG : Z := 0x28.
Definition CNF2_REG : Z := 0x29.
Definition CNF1_REG : Z := 0x2A.
Definition CANINTE_REG : Z := 0x2B.
Definition CANINTF_REG : Z := 0x2C.
Definition EFLG_REG : Z := 0x2D.
Definition TXB0CTRL_REG : Z := 0x30.
Definition TXB0SIDH_REG : Z := 0x31.
Definition TXB0D0_REG : Z := 0x36.
Definition TXB1CTRL_REG : Z := 0x40.
Definition TXB1SIDH_REG : Z := 0x41.
Definition TXB1D0_REG : Z := 0x46.
Definition TXB2CTRL_REG : Z := 0x50.
Definition TXB2SIDH_REG : Z := 0x51.
Definition TXB2D0_REG : Z := 0x56.
Definition RXB0CTRL_REG : Z := 0x60.
Definition RXB0D0_REG : Z := 0x66.
Definition RXB1CTRL_REG : Z := 0x70.
Definition RXB1D0_REG : Z := 0x76.
Definition RXB1D1_REG : Z := 0x77.

(* bit definitions *)
Definition SID_BIT_2 : Z := 0x80.
Definition SID_BIT_1 : Z := 0x40.
Definition SID_BIT_0 : Z := 0x20.
Definition SRR_RECEIVED_STANDARD_REMOTE_REQUEST : Z := 0x10.
Definition IDE_RECEIVED_EXTENDED_FRAME : Z := 0x08.
Definition EXIDE_MSG_TRANSMIT_EXTENDED_ID : Z := 0x08.
Definition EXIDE_FILTER_APPLY_ONLY_EXTENDED_FRAMES : Z := 0x08.
Definition EID_BIT_17 : Z := 0x02.
Definition EID_BIT_16 : Z := 0x01.

Definition RTR_TRANSMIT_REMOTE_FRAME_REQUEST : Z := 0x40.
Definition RTR_RECEIVED_REMOTE_FRAME_REQUEST : Z := 0x40.
Definition DLC_BIT_3 : Z := 0x08.
Definition DLC_BIT_2 : Z := 0x04.
Definition DLC_BIT_1 : Z := 0x02.
Definition DLC_BIT_0 : Z := 0x01.

Definition ABTF_MESSAGE_ABORTED : Z := 0x40.
Definition ABTF_TRANSMISSION_COMPLETE : Z := 0x00.
Definition MLOA_LOST_ARBITRATION : Z := 0x20.
Definition TXERR_BUS_ERROR : Z := 0x10.
Definition TXREQ_PENDING : Z := 0x08.
Definition TXREQ_NO_PENDING : Z := 0x00.
Definition TXP_BIT_1 : Z := 0x02.
Definition TXP_BIT_0 : Z := 0x01.

Definition RXM_RECEIVE_ANY_MESSAGE : Z := 0x60.
Definition ROLLOVER_ACCEPTANCE_FILTER_0 : Z := 0x06.
Definition BUKT_RXB0_ROLLOVER_ENABLED : Z := 0x04.
Definition BUKT1_RXB0_ROLLOVER_ENABLED : Z := 0x02.
Definition FILHIT_BIT_2 : Z := 0x04.
Definition FILHIT_BIT_1 : Z := 0x02.
Definition FILHIT_BIT_0 : Z := 0x01.

Definition REQOP_CONFIGURATION_MODE : Z := 0x80.
Definition REQOP_LISTEN_MODE : Z := 0x60.
Definition REQOP_LOOPBACK_MODE : Z := 0x40.
Definition REQOP_SLEEP_MODE : Z := 0x20.
Definition REQOP_NORMAL_MODE : Z := 0x00.
Definition ABAT_REQ_ABORT_TX : Z := 0x10.
Definition ABAT_TERMINATE_REQ_ABORT_TX : Z := 0x00.
Definition OSM_ENABLED : Z := 0x08.
Definition OSM_DISABLED : Z := 0x00.

Definition WAKFIL_ENABLED : Z := 0x40.
Definition WAKFIL_DISABLED : Z := 0x00.
Definition PHSEG2_3TQ : Z := 0x02.
Definition PHSEG2_6TQ : Z := 0x05.
Definition PHSEG2_7TQ : Z := 0x06.

Definition BTLMODE_PS2_PHSEG2_CNF3 : Z := 0x80.
Definition SAM_BUS_SAMPLED_THREE : Z := 0x40.
Definition SAM_BUS_SAMPLED_ONCE : Z := 0x00.
Definition PHSEG1_2TQ : Z := 0x08.
Definition PHSEG1_5TQ : Z := 0x20.
Definition PHSEG1_6TQ : Z := 0x28.
Definition PRSEG_2TQ : Z := 0x01.
Definition PRSEG_3TQ : Z := 0x02.
Definition PRSEG_4TQ : Z := 0x03.
Definition PRSEG_6TQ : Z := 0x05.

Definition SJW_1TQ : Z := 0x00.
Definition BRP_BIT_1 : Z := 0x02.
Definition BRP_BIT_0 : Z := 0x01.

(* EFLG: the two flags the MCU clears itself *)
Definition RX1OVR_RXB1_OVERFLOW : Z := 0x80.
Definition RX0OVR_RXB0_OVERFLOW : Z := 0x40.

(** ** can.h: structures

    C arrays are lists, read with [nth] and updated with [upd]. *)

Record CAN_Control_HandleTypeDef := mkHandle {
  spi : Z;
  opmode : Z;
  oneshot : Z;
  samplepoint : Z;
  wakeupfilter : Z;
  rxbufferopmode : Z;
  rxbuffer0rollover : Z;
  baudrate : Z
}.

Record CAN_Control_RX_Mask := mkMask {
  rxmasknmbr : Z;
  rxmaskvalue : list Z          (* uint32_t [2] *)
}.

Record CAN_Control_RX_Filter := mkFilter {
  rxfilternmbr : Z;
  extendedidenable : Z;
  rxfiltervalue : list Z        (* uint32_t [6] *)
}.

Record CAN_Control_TX := mkTX {
  txbuffernmbr : Z;
  txframetype : list Z;         (* uint8_t [3] *)
  tx_datalength : list Z;       (* uint8_t datalength[3] *)
  tx_data : list (list Z);      (* uint8_t data[3][8] *)
  txid : list Z;                (* uint32_t [3] *)
  tx_beyond : nat -> Z          (* the memory around it that the structure does
                                   not name: at 0 the padding byte between
                                   data[][] and txid[], from 1 on the bytes
                                   that follow the structure *)
}.

Record CAN_Control_RX := mkRX {
  rxbuffernmbr : Z;
  rxframetype : list Z;         (* uint8_t [2] *)
  rx_datalength : list Z;       (* uint8_t datalength[2] *)
  accfilter : list Z;           (* uint8_t [2] *)
  rolloverstatus : Z;
  rx_data : list (list Z);      (* uint8_t data[2][8] *)
  rxid : list Z                 (* uint32_t [2] *)
}.

Fixpoint upd {A : Type} (n : nat) (v : A) (l : list A) : list A :=
  match n, l with
  | O, _ :: t => v :: t
  | S k, x :: t => x :: upd k v t
  | _, [] => []
  end.

(** ** The board: SPI peripherals, TIM3 and the handle object *)

Inductive spi_periph := SPI1 | SPI2.

Inductive event :=
| EvInit (p : spi_periph)                       (* SPIx_Init *)
| EvCS_Enable (p : spi_periph)                  (* chip select driven low *)
| EvCS_Disable (p : spi_periph)                 (* chip select back high *)
| EvWrite (p : spi_periph) (bytes : list Z)     (* SPIx_Write: bytes sent on MOSI *)
| EvRead (p : spi_periph) (bytes : list Z)      (* SPIx_Read: bytes received on MISO *)
| EvDelay (us : Z).                             (* TIM3_Delay_us *)

Record board := mkBoard {
  hcan : CAN_Control_HandleTypeDef;   (* the object the [hcan] pointer refers to *)
  trace : list event;                 (* everything done so far, oldest first *)
  miso : spi_periph -> nat -> Z;      (* what each peripheral will receive *)
  rxcount : spi_periph -> nat         (* how many bytes it has received *)
}.

(** State passing, written as a small monad. *)

Definition M (A : Type) : Type := board -> A * board.

Definition ret {A : Type} (a : A) : M A := fun s => (a, s).

Definition bind {A B : Type} (m : M A) (f : A -> M B) : M B :=
  fun s => let (a, s') := m s in f a s'.

Declare Scope drv_scope.
Delimit Scope drv_scope with drv.
Notation "x <- m ;; k" := (bind m (fun x => k))
  (at level 61, m at next level, right associativity) : drv_scope.
Notation "m ;; k" := (bind m (fun _ => k))
  (at level 61, right associativity) : drv_scope.
Local Open Scope drv_scope.

Definition exec {A : Type} (m : M A) (s : board) : board := snd (m s).
Definition result {A : Type} (m : M A) (s : board) : A := fst (m s).

Definition get_hcan : M CAN_Control_HandleTypeDef := fun s => (hcan s, s).

Definition emit (e : event) : M unit :=
  fun s => (tt, mkBoard (hcan s) (trace s ++ [e]) (miso s) (rxcount s)).

Definition skip : M unit := ret tt.

Definition periph_eqb (p q : spi_periph) : bool :=
  match p, q with
  | SPI1, SPI1 | SPI2, SPI2 => true
  | _, _ => false
  end.

(** The next [n] bytes peripheral [p] receives, each one a [uint8_t]. *)
Definition incoming (s : board) (p : spi_periph) (n : nat) : list Z :=
  map (fun i => u8 (miso s p i)) (seq (rxcount s p) n).

(* SPI1_Write / SPI2_Write: data[0] .. data[size - 1] are sent one after the
   other; what arrives on MISO meanwhile is read and dropped *)
Definition SPI_Write (p : spi_periph) (data : list Z) (size : Z) : M unit :=
  emit (EvWrite p (firstn (Z.to_nat size) data)).

(* SPI1_Read / SPI2_Read: for each of [size] bytes a zero is sent and the
   byte received is stored, as a uint8_t, in the next array element *)
Definition SPI_Read (p : spi_periph) (size : Z) : M (list Z) :=
  fun s =>
    let n := Z.to_nat size in
    let bytes := incoming s p n in
    (bytes,
     mkBoard (hcan s) (trace s ++ [EvRead p bytes]) (miso s)
             (fun q => if periph_eqb p q then (rxcount s q + n)%nat else rxcount s q)).

Definition SPI1_Init : M unit := emit (EvInit SPI1).
Definition SPI2_Init : M unit := emit (EvInit SPI2).
Definition SPI1_CS_Enable : M unit := emit (EvCS_Enable SPI1).
Definition SPI2_CS_Enable : M unit := emit (EvCS_Enable SPI2).
Definition SPI1_CS_Disable : M unit := emit (EvCS_Disable SPI1).
Definition SPI2_CS_Disable : M unit := emit (EvCS_Disable SPI2).
Definition SPI1_Write := SPI_Write SPI1.
Definition SPI2_Write := SPI_Write SPI2.
Definition SPI1_Read := SPI_Read SPI1.
Definition SPI2_Read := SPI_Read SPI2.

(* timer.c: one timer overflow of 1 us is awaited [us] times *)
Definition TIM3_Delay_us (us : Z) : M unit := emit (EvDelay us).

(** ** can.c: register access *)

(* [data] is the memory the pointer refers to; the first [size] bytes go out. *)
Definition CAN_Control_Register_Write (reg_addr : Z) (data : list Z) (size : Z) : M unit :=
  let instruction := WRITE_INS in
  h <- get_hcan ;;
  (if spi h =? CAN_SPI1 then
     SPI1_CS_Enable ;;
     SPI1_Write [instruction] 1 ;;
     SPI1_Write [reg_addr] 1 ;;
     SPI1_Write data size ;;
     SPI1_CS_Disable
   else if spi h =? CAN_SPI2 then
     SPI2_CS_Enable ;;
     SPI2_Write [instruction] 1 ;;
     SPI2_Write [reg_addr] 1 ;;
     SPI2_Write data size ;;
     SPI2_CS_Disable
   else skip) ;;
  TIM3_Delay_us 50.

(* [data] is the previous content of the destination array; the result is its
   content afterwards: the [size] bytes received replace its first [size]
   elements, and nothing is stored when the handle names no peripheral. *)
Definition CAN_Control_Register_Read (reg_addr : Z) (data : list Z) (size : Z) : M (list Z) :=
  let instruction := READ_INS in
  h <- get_hcan ;;
  data' <- (if spi h =? CAN_SPI1 then
              SPI1_CS_Enable ;;
              SPI1_Write [instruction] 1 ;;
              SPI1_Write [reg_addr] 1 ;;
              r <- SPI1_Read size ;;
              SPI1_CS_Disable ;;
              ret (r ++ skipn (Z.to_nat size) data)
            else if spi h =? CAN_SPI2 then
              SPI2_CS_Enable ;;
              SPI2_Write [instruction] 1 ;;
              SPI2_Write [reg_addr] 1 ;;
              r <- SPI2_Read size ;;
              SPI2_CS_Disable ;;
              ret (r ++ skipn (Z.to_nat size) data)
            else ret data) ;;
  TIM3_Delay_us 50 ;;
  ret data'.

Definition CAN_Control_Register_Bit (reg_addr mask data : Z) : M unit :=
  let instruction := BIT_MODIFY_INS in
  h <- get_hcan ;;
  (if spi h =? CAN_SPI1 then
     SPI1_CS_Enable ;;
     SPI1_Write [instruction] 1 ;;
     SPI1_Write [reg_addr] 1 ;;
     SPI1_Write [mask] 1 ;;
     SPI1_Write [data] 1 ;;
     SPI1_CS_Disable
   else if spi h =? CAN_SPI2 then
     SPI2_CS_Enable ;;
     SPI2_Write [instruction] 1 ;;
     SPI2_Write [reg_addr] 1 ;;
     SPI2_Write [mask] 1 ;;
     SPI2_Write [data] 1 ;;
     SPI2_CS_Disable
   else skip) ;;
  TIM3_Delay_us 50.

(** ** can.c: reset, operation mode, bit timing *)

Definition CAN_Control_Reset : M unit :=
  let instruction := RESET_INS in
  let ost := u8 (GET_OST OSC1_FREQ) in          (* uint8_t ost *)
  h <- get_hcan ;;
  (if spi h =? CAN_SPI1 then
     SPI1_CS_Enable ;;
     SPI1_Write [instruction] 1 ;;
     SPI1_CS_Disable
   else if spi h =? CAN_SPI2 then
     SPI2_CS_Enable ;;
     SPI2_Write [instruction] 1 ;;
     SPI2_CS_Disable
   else skip) ;;
  TIM3_Delay_us 50 ;;
  TIM3_Delay_us ost.

Definition CAN_Control_Set_Op_Mode (opmode : Z) : M unit :=
  h <- get_hcan ;;
  let spi_write := oneshot h in
  if opmode =? NORMAL_OP_MODE then
    CAN_Control_Register_Write CANCTRL_REG [u8 (Z.lor spi_write REQOP_NORMAL_MODE)] 1
  else if opmode =? SLEEP_OP_MODE then
    CAN_Control_Register_Write CANCTRL_REG [u8 (Z.lor spi_write REQOP_SLEEP_MODE)] 1
  else if opmode =? LOOPBACK_OP_MODE then
    CAN_Control_Register_Write CANCTRL_REG [u8 (Z.lor spi_write REQOP_LOOPBACK_MODE)] 1
  else if opmode =? LISTEN_ONLY_OP_MODE then
    CAN_Control_Register_Write CANCTRL_REG [u8 (Z.lor spi_write REQOP_LISTEN_MODE)] 1
  else if opmode =? CONFIGURATION_OP_MODE then
    CAN_Control_Register_Write CANCTRL_REG [u8 (Z.lor spi_write REQOP_CONFIGURATION_MODE)] 1
  else skip.

Definition lor3 (a b c : Z) : Z := Z.lor (Z.lor a b) c.
Definition lor4 (a b c d : Z) : Z := Z.lor (Z.lor (Z.lor a b) c) d.

Definition CAN_Control_Set_Baud_Rate (baudrate : Z) : M unit :=
  h <- get_hcan ;;
  if baudrate =? CAN_BAUD_500_KBPS then
    let spi_write :=
      [ u8 (Z.lor (wakeupfilter h) PHSEG2_3TQ);
        u8 (lor4 BTLMODE_PS2_PHSEG2_CNF3 (samplepoint h) PHSEG1_2TQ PRSEG_2TQ);
        u8 SJW_1TQ ] in
    CAN_Control_Register_Write CNF3_REG spi_write 3
  else if baudrate =? CAN_BAUD_250_KBPS then
    let spi_write :=
      [ u8 (Z.lor (wakeupfilter h) PHSEG2_6TQ);
        u8 (lor4 BTLMODE_PS2_PHSEG2_CNF3 (samplepoint h) PHSEG1_5TQ PRSEG_4TQ);
        u8 SJW_1TQ ] in
    CAN_Control_Register_Write CNF3_REG spi_write 3
  else if baudrate =? CAN_BAUD_125_KBPS then
    let spi_write :=
      [ u8 (Z.lor (wakeupfilter h) PHSEG2_6TQ);
        u8 (lor4 BTLMODE_PS2_PHSEG2_CNF3 (samplepoint h) PHSEG1_6TQ PRSEG_3TQ);
        u8 (Z.lor SJW_1TQ BRP_BIT_0) ] in
    CAN_Control_Register_Write CNF3_REG spi_write 3
  else if baudrate =? CAN_BAUD_100_KBPS then
    let spi_write :=
      [ u8 (Z.lor (wakeupfilter h) PHSEG2_7TQ);
        u8 (lor4 BTLMODE_PS2_PHSEG2_CNF3 (samplepoint h) PHSEG1_6TQ PRSEG_6TQ);
        u8 (Z.lor SJW_1TQ BRP_BIT_0) ] in
    CAN_Control_Register_Write CNF3_REG spi_write 3
  else if baudrate =? CAN_BAUD_50_KBPS then
    let spi_write :=
      [ u8 (Z.lor (wakeupfilter h) PHSEG2_7TQ);
        u8 (lor4 BTLMODE_PS2_PHSEG2_CNF3 (samplepoint h) PHSEG1_6TQ PRSEG_6TQ);
        u8 (lor3 SJW_1TQ BRP_BIT_1 BRP_BIT_0) ] in
    CAN_Control_Register_Write CNF3_REG spi_write 3
  else skip.

(** ** can.c: masks and filters *)

(* The five assignments that split a 29-bit value over SIDH, SIDL, EID8 and
   EID0; the mask, filter and extended transmit paths all repeat them. *)
Definition id_registers (v : Z) : list Z :=
  let b0 := u8 (Z.shiftr v 21) in
  let b1 := u8 (Z.land (Z.shiftr v 13) 0xE0) in
  let b1 := u8 (Z.lor b1 (Z.land (Z.shiftr v 16) 0x03)) in
  let b2 := u8 (Z.shiftr v 8) in
  let b3 := u8 v in
  [b0; b1; b2; b3].

Definition selected (field flag : Z) : bool := Z.land field flag =? flag.

Definition CAN_Control_Set_RX_Mask (hmask : CAN_Control_RX_Mask) : M unit :=
  (if selected (rxmasknmbr hmask) RXM0 then
     CAN_Control_Register_Write RXM0SIDH_REG (id_registers (nth 0 (rxmaskvalue hmask) 0)) 4
   else skip) ;;
  (if selected (rxmasknmbr hmask) RXM1 then
     CAN_Control_Register_Write RXM1SIDH_REG (id_registers (nth 1 (rxmaskvalue hmask) 0)) 4
   else skip).

(* one filter block of CAN_Control_Set_RX_Filter *)
Definition set_filter (hfilter : CAN_Control_RX_Filter) (n : nat)
    (RXFn RXFn_EXTENDED_ID_ENABLED RXFnSIDH_REG : Z) : M unit :=
  if selected (rxfilternmbr hfilter) RXFn then
    let spi_write := id_registers (nth n (rxfiltervalue hfilter) 0) in
    let spi_write :=
      if selected (extendedidenable hfilter) RXFn_EXTENDED_ID_ENABLED
      then upd 1 (u8 (Z.lor (nth 1 spi_write 0) EXIDE_FILTER_APPLY_ONLY_EXTENDED_FRAMES)) spi_write
      else spi_write in
    CAN_Control_Register_Write RXFnSIDH_REG spi_write 4
  else skip.

Definition CAN_Control_Set_RX_Filter (hfilter : CAN_Control_RX_Filter) : M unit :=
  set_filter hfilter 0 RXF0 RXF0_EXTENDED_ID_ENABLED RXF0SIDH_REG ;;
  set_filter hfilter 1 RXF1 RXF1_EXTENDED_ID_ENABLED RXF1SIDH_REG ;;
  set_filter hfilter 2 RXF2 RXF2_EXTENDED_ID_ENABLED RXF2SIDH_REG ;;
  set_filter hfilter 3 RXF3 RXF3_EXTENDED_ID_ENABLED RXF3SIDH_REG ;;
  set_filter hfilter 4 RXF4 RXF4_EXTENDED_ID_ENABLED RXF4SIDH_REG ;;
  set_filter hfilter 5 RXF5 RXF5_EXTENDED_ID_ENABLED RXF5SIDH_REG.

(** ** can.c: initialisation *)

Definition CAN_Control_Init : M unit :=
  h <- get_hcan ;;
  if (spi h =? CAN_SPI1) || (spi h =? CAN_SPI2) then
    (if spi h =? CAN_SPI1 then SPI1_Init else SPI2_Init) ;;
    CAN_Control_Reset ;;
    CAN_Control_Set_Baud_Rate (baudrate h) ;;
    let spi_write := 0 in
    let spi_write :=
      if selected (rxbufferopmode h) RXB0_TURN_MASKS_FILTERS_OFF
      then Z.lor spi_write RXM_RECEIVE_ANY_MESSAGE else spi_write in
    let spi_write :=
      if selected (rxbuffer0rollover h) RXB0_ROLLOVER_ENABLED
      then Z.lor spi_write BUKT_RXB0_ROLLOVER_ENABLED else spi_write in
    (if negb (spi_write =? 0) then
       CAN_Control_Register_Write RXB0CTRL_REG [spi_write] 1
     else skip) ;;
    (if selected (rxbufferopmode h) RXB1_TURN_MASKS_FILTERS_OFF then
       CAN_Control_Register_Write RXB1CTRL_REG [RXM_RECEIVE_ANY_MESSAGE] 1
     else skip) ;;
    CAN_Control_Set_Op_Mode (opmode h)
  else skip.

(** ** can.c: transmission *)

(* can.h delay macros; every operand is [unsigned long].  A zero baud rate
   divides by zero in C and is outside this model. *)
Definition add32 (a b : Z) : Z := u32 (a + b).
Definition mul32 (a b : Z) : Z := u32 (a * b).

Definition WAIT_SEND_STANDARD_DATA_FRAME (d b : Z) : M unit :=
  TIM3_Delay_us
    (mul32 (add32 (add32 (mul32 8 d) 44) (add32 33 (mul32 8 d) / 4)) (1000000 / b)).

Definition WAIT_SEND_EXTENDED_DATA_FRAME (d b : Z) : M unit :=
  TIM3_Delay_us
    (mul32 (add32 (add32 (mul32 8 d) 64) (add32 53 (mul32 8 d) / 4)) (1000000 / b)).

Definition WAIT_SEND_STANDARD_REMOTE_FRAME (b : Z) : M unit :=
  TIM3_Delay_us (mul32 50 (1000000 / b)).

Definition WAIT_SEND_EXTENDED_REMOTE_FRAME (b : Z) : M unit :=
  TIM3_Delay_us (mul32 73 (1000000 / b)).

(* The four ID bytes a TX buffer is loaded with (spi_write[0..3]). *)
Definition tx_id_registers (frametype id : Z) : list Z :=
  if (frametype =? TX_EXTENDED_DATA_FRAME) || (frametype =? TX_EXTENDED_REMOTE_FRAME) then
    let spi_write := id_registers id in
    upd 1 (u8 (Z.lor (nth 1 spi_write 0) EXIDE_MSG_TRANSMIT_EXTENDED_ID)) spi_write
  else
    [ u8 (Z.shiftr id 3); u8 (u32 (Z.shiftl id 5)); 0; 0 ].

(* A 32-bit word as it lies in memory: least significant byte first, the
   byte order of the Cortex-M0. *)
Definition le32 (v : Z) : list Z :=
  [ u8 v; u8 (Z.shiftr v 8); u8 (Z.shiftr v 16); u8 (Z.shiftr v 24) ].

(* The memory the pointer txcan->data[n] refers to, as far as a transfer of
   [size] bytes can reach.  The rows of data[3][8] are contiguous and end at
   offset 31 of the structure; one padding byte aligns txid[] to offset 32;
   after txid[] the structure ends. *)
Definition tx_memory (txcan : CAN_Control_TX) (n size : nat) : list Z :=
  concat (skipn n (tx_data txcan)) ++
  [tx_beyond txcan 0] ++
  flat_map le32 (txid txcan) ++
  map (fun i => tx_beyond txcan (S i)) (seq 0 size).

(* The block of CAN_Control_Send_CAN_Frame for buffer TXBn, n = 0, 1, 2; the
   source repeats it three times with the index and the three register
   addresses changed.  The payload pointer is data[n] and the length is not
   checked: a length above 8 runs into the rows that follow, and past
   data[2][7] into the padding byte, txid[] and what follows the structure. *)
Definition send_TXBn (txcan : CAN_Control_TX) (n : nat)
    (TXBn TXBnSIDH_REG TXBnD0_REG TXBnCTRL_REG : Z) : M unit :=
  if selected (txbuffernmbr txcan) TXBn then
    let frametype := nth n (txframetype txcan) 0 in
    let datalength := nth n (tx_datalength txcan) 0 in
    let remote :=
      (frametype =? TX_STANDARD_REMOTE_FRAME) || (frametype =? TX_EXTENDED_REMOTE_FRAME) in
    let spi_write := tx_id_registers frametype (nth n (txid txcan) 0) ++ [datalength] in
    let spi_write :=
      if remote
      then upd 4 (u8 (Z.lor datalength RTR_TRANSMIT_REMOTE_FRAME_REQUEST)) spi_write
      else spi_write in
    (if remote then
       CAN_Control_Register_Write TXBnSIDH_REG spi_write 5
     else
       CAN_Control_Register_Write TXBnSIDH_REG spi_write 5 ;;
       CAN_Control_Register_Write TXBnD0_REG (tx_memory txcan n (Z.to_nat datalength))
                                  datalength) ;;
    let spi_write := upd 0 TXREQ_PENDING spi_write in
    CAN_Control_Register_Write TXBnCTRL_REG spi_write 1 ;;
    h <- get_hcan ;;
    if frametype =? TX_EXTENDED_DATA_FRAME then
      WAIT_SEND_EXTENDED_DATA_FRAME datalength (baudrate h)
    else if frametype =? TX_STANDARD_DATA_FRAME then
      WAIT_SEND_STANDARD_DATA_FRAME datalength (baudrate h)
    else if frametype =? TX_EXTENDED_REMOTE_FRAME then
      WAIT_SEND_EXTENDED_REMOTE_FRAME (baudrate h)
    else
      WAIT_SEND_STANDARD_REMOTE_FRAME (baudrate h)
  else skip.

Definition CAN_Control_Send_CAN_Frame (txcan : CAN_Control_TX) : M unit :=
  send_TXBn txcan 0 TXB0 TXB0SIDH_REG TXB0D0_REG TXB0CTRL_REG ;;
  send_TXBn txcan 1 TXB1 TXB1SIDH_REG TXB1D0_REG TXB1CTRL_REG ;;
  send_TXBn txcan 2 TXB2 TXB2SIDH_REG TXB2D0_REG TXB2CTRL_REG.

(** ** can.c: reception *)

Definition set_rxframetype (n : nat) (v : Z) (r : CAN_Control_RX) : CAN_Control_RX :=
  mkRX (rxbuffernmbr r) (upd n v (rxframetype r)) (rx_datalength r) (accfilter r)
       (rolloverstatus r) (rx_data r) (rxid r).
Definition set_rx_datalength (n : nat) (v : Z) (r : CAN_Control_RX) : CAN_Control_RX :=
  mkRX (rxbuffernmbr r) (rxframetype r) (upd n v (rx_datalength r)) (accfilter r)
       (rolloverstatus r) (rx_data r) (rxid r).
Definition set_accfilter (n : nat) (v : Z) (r : CAN_Control_RX) : CAN_Control_RX :=
  mkRX (rxbuffernmbr r) (rxframetype r) (rx_datalength r) (upd n v (accfilter r))
       (rolloverstatus r) (rx_data r) (rxid r).
Definition set_rolloverstatus (v : Z) (r : CAN_Control_RX) : CAN_Control_RX :=
  mkRX (rxbuffernmbr r) (rxframetype r) (rx_datalength r) (accfilter r)
       v (rx_data r) (rxid r).
Definition set_rx_data (n : nat) (v : list Z) (r : CAN_Control_RX) : CAN_Control_RX :=
  mkRX (rxbuffernmbr r) (rxframetype r) (rx_datalength r) (accfilter r)
       (rolloverstatus r) (upd n v (rx_data r)) (rxid r).
Definition set_rxid (n : nat) (v : Z) (r : CAN_Control_RX) : CAN_Control_RX :=
  mkRX (rxbuffernmbr r) (rxframetype r) (rx_datalength r) (accfilter r)
       (rolloverstatus r) (rx_data r) (upd n v (rxid r)).

(* rxid[n] of an extended frame, from spi_read[1..4] = SIDH, SIDL, EID8, EID0 *)
Definition rx_extended_id (spi_read : list Z) : Z :=
  let id := u32 (Z.shiftl (nth 1 spi_read 0) 21) in
  let id := Z.lor id (u32 (Z.shiftl (Z.land (nth 2 spi_read 0)
                                            (lor3 SID_BIT_2 SID_BIT_1 SID_BIT_0)) 18)) in
  let id := Z.lor id (u32 (Z.shiftl (Z.land (nth 2 spi_read 0)
                                            (Z.lor EID_BIT_17 EID_BIT_16)) 16)) in
  let id := Z.lor id (u32 (Z.shiftl (nth 3 spi_read 0) 8)) in
  let id := Z.lor id (nth 4 spi_read 0) in
  id.

(* rxid[n] of a standard frame, from spi_read[1..2] = SIDH, SIDL *)
Definition rx_standard_id (spi_read : list Z) : Z :=
  let id := u32 (Z.shiftl (nth 1 spi_read 0) 3) in
  let id := Z.lor id (Z.shiftr (nth 2 spi_read 0) 5) in
  id.

Definition DLC_BITS : Z := lor4 DLC_BIT_3 DLC_BIT_2 DLC_BIT_1 DLC_BIT_0.

(* A 32-bit word from its four bytes in memory, and the word with byte [k]
   (0 for the least significant) replaced. *)
Definition of_le32 (bytes : list Z) : Z :=
  nth 0 bytes 0 + 256 * nth 1 bytes 0 + 65536 * nth 2 bytes 0 + 16777216 * nth 3 bytes 0.

Definition set_byte (k : nat) (b v : Z) : Z := of_le32 (upd k (u8 b) (le32 v)).

(* Storing the byte [b] at offset [off] from data[0][0].  data[2][8] is at
   offsets 8 .. 23 of the structure and rxid[2] follows it at 24 .. 31 with
   no padding in between, so counted from data[0][0] the rows take 0 .. 15,
   rxid[0] takes 16 .. 19 and rxid[1] takes 20 .. 23, where the structure
   ends. *)
Definition poke_rx (off : nat) (b : Z) (r : CAN_Control_RX) : CAN_Control_RX :=
  if (off <? 16)%nat then
    set_rx_data (off / 8) (upd (off mod 8) b (nth (off / 8) (rx_data r) [])) r
  else
    set_rxid ((off - 16) / 4)
             (set_byte ((off - 16) mod 4) b (nth ((off - 16) / 4) (rxid r) 0)) r.

(* [bytes] is the memory from data[n][0] on after a transfer: each byte is
   put where it lies.  The first eight are data[n]; what comes after them
   lands in the row that follows or, past data[1][7], in rxid[]. *)
Definition store_rx_data (n : nat) (bytes : list Z) (r : CAN_Control_RX) : CAN_Control_RX :=
  fold_left (fun acc kb => poke_rx (8 * n + fst kb) (snd kb) acc)
            (combine (seq 0 (length bytes)) bytes) r.

(* Data bytes of buffer n: [size] bytes are received through the pointer
   data[n].  The size is the DLC nibble, which can be as large as 15. *)
Definition read_data (reg_addr : Z) (n : nat) (rxcan : CAN_Control_RX) : M CAN_Control_RX :=
  row <- CAN_Control_Register_Read reg_addr (nth n (rx_data rxcan) [])
                                   (nth n (rx_datalength rxcan) 0) ;;
  ret (store_rx_data n row rxcan).

(* RXB0 block; [spi_read] is the local array, whatever it held on entry *)
Definition read_RXB0 (spi_read : list Z) (rxcan : CAN_Control_RX)
    : M (list Z * CAN_Control_RX) :=
  if selected (rxbuffernmbr rxcan) RXB0 then
    spi_read <- CAN_Control_Register_Read RXB0CTRL_REG spi_read 6 ;;
    let rxcan := set_accfilter 0 (Z.land (nth 0 spi_read 0) FILHIT_BIT_0) rxcan in
    let rxcan := set_rx_datalength 0 (Z.land (nth 5 spi_read 0) DLC_BITS) rxcan in
    let rollover :=
      ROLLOVER_ACCEPTANCE_FILTER_0 <=?
      Z.land (nth 0 spi_read 0)
             (lor3 BUKT_RXB0_ROLLOVER_ENABLED BUKT1_RXB0_ROLLOVER_ENABLED FILHIT_BIT_0) in
    if selected (nth 2 spi_read 0) IDE_RECEIVED_EXTENDED_FRAME then
      let rxcan := set_rxid 0 (rx_extended_id spi_read) rxcan in
      if selected (nth 5 spi_read 0) RTR_RECEIVED_REMOTE_FRAME_REQUEST then
        ret (spi_read, set_rxframetype 0 RX_EXTENDED_REMOTE_FRAME rxcan)
      else
        let rxcan := set_rxframetype 0 RX_EXTENDED_DATA_FRAME rxcan in
        if rollover then
          rxcan <- read_data RXB1D0_REG 0 (set_rolloverstatus ROLLOVER_OCCURRED rxcan) ;;
          ret (spi_read, rxcan)
        else
          rxcan <- read_data RXB0D0_REG 0 (set_rolloverstatus ROLLOVER_NOT_OCCURRED rxcan) ;;
          ret (spi_read, rxcan)
    else
      let rxcan := set_rxid 0 (rx_standard_id spi_read) rxcan in
      if selected (nth 2 spi_read 0) SRR_RECEIVED_STANDARD_REMOTE_REQUEST then
        ret (spi_read, set_rxframetype 0 RX_STANDARD_REMOTE_FRAME rxcan)
      else
        let rxcan := set_rxframetype 0 RX_STANDARD_DATA_FRAME rxcan in
        if rollover then
          rxcan <- read_data RXB1D0_REG 0 (set_rolloverstatus ROLLOVER_OCCURRED rxcan) ;;
          ret (spi_read, rxcan)
        else
          rxcan <- read_data RXB0D0_REG 0 (set_rolloverstatus ROLLOVER_NOT_OCCURRED rxcan) ;;
          ret (spi_read, rxcan)
  else ret (spi_read, rxcan).

(* RXB1 block *)
Definition read_RXB1 (spi_read : list Z) (rxcan : CAN_Control_RX)
    : M (list Z * CAN_Control_RX) :=
  if selected (rxbuffernmbr rxcan) RXB1 then
    spi_read <- CAN_Control_Register_Read RXB1CTRL_REG spi_read 6 ;;
    let rxcan :=
      set_accfilter 1 (Z.land (nth 0 spi_read 0)
                              (lor3 FILHIT_BIT_2 FILHIT_BIT_1 FILHIT_BIT_0)) rxcan in
    let rxcan := set_rx_datalength 1 (Z.land (nth 5 spi_read 0) DLC_BITS) rxcan in
    if selected (nth 2 spi_read 0) IDE_RECEIVED_EXTENDED_FRAME then
      let rxcan := set_rxid 1 (rx_extended_id spi_read) rxcan in
      if selected (nth 5 spi_read 0) RTR_RECEIVED_REMOTE_FRAME_REQUEST then
        ret (spi_read, set_rxframetype 1 RX_EXTENDED_REMOTE_FRAME rxcan)
      else
        rxcan <- read_data RXB1D0_REG 1 (set_rxframetype 1 RX_EXTENDED_DATA_FRAME rxcan) ;;
        ret (spi_read, rxcan)
    else
      let rxcan := set_rxid 1 (rx_standard_id spi_read) rxcan in
      if selected (nth 2 spi_read 0) SRR_RECEIVED_STANDARD_REMOTE_REQUEST then
        ret (spi_read, set_rxframetype 1 RX_STANDARD_REMOTE_FRAME rxcan)
      else
        rxcan <- read_data RXB1D1_REG 1 (set_rxframetype 1 RX_STANDARD_DATA_FRAME rxcan) ;;
        ret (spi_read, rxcan)
  else ret (spi_read, rxcan).

(* [spi_read] stands for the content of the uninitialised local spi_read[6] *)
Definition CAN_Control_Read_CAN_Frame (spi_read : list Z) (rxcan : CAN_Control_RX)
    : M CAN_Control_RX :=
  r0 <- read_RXB0 spi_read rxcan ;;
  r1 <- read_RXB1 (fst r0) (snd r0) ;;
  ret (snd r1).

(** ** can.c: transmit status and abort *)

(* the if / else-if ladder of CAN_Control_TX_CAN_Status on the TXBnCTRL byte *)
Definition tx_state_of (spi_read : Z) : Z :=
  if (Z.land spi_read TXREQ_PENDING =? TXREQ_PENDING)
     && (Z.land spi_read ABTF_MESSAGE_ABORTED =? ABTF_TRANSMISSION_COMPLETE)
  then
    if Z.land spi_read (Z.lor TXERR_BUS_ERROR MLOA_LOST_ARBITRATION)
       =? Z.lor TXERR_BUS_ERROR MLOA_LOST_ARBITRATION
    then TX_BUS_ERROR_AND_LOST_ARBITRATION
    else if Z.land spi_read TXERR_BUS_ERROR =? TXERR_BUS_ERROR
    then TX_BUS_ERROR
    else if Z.land spi_read MLOA_LOST_ARBITRATION =? MLOA_LOST_ARBITRATION
    then TX_LOST_ARBITRATION
    else TX_PENDING
  else if Z.land spi_read ABTF_MESSAGE_ABORTED =? ABTF_MESSAGE_ABORTED
  then TX_ABORTED
  else TX_SUCCESS.

(* [spi_read] stands for the content of the uninitialised local on entry *)
Definition CAN_Control_TX_CAN_Status (spi_read : Z) (tx_buffer : Z) : M Z :=
  let tx_state := TX_PENDING in
  tx_state <-
    (if tx_buffer <=? TXB2 then
       spi_read <-
         (if tx_buffer =? TXB0 then
            r <- CAN_Control_Register_Read TXB0CTRL_REG [spi_read] 1 ;; ret (nth 0 r 0)
          else if tx_buffer =? TXB1 then
            r <- CAN_Control_Register_Read TXB1CTRL_REG [spi_read] 1 ;; ret (nth 0 r 0)
          else if tx_buffer =? TXB2 then
            r <- CAN_Control_Register_Read TXB2CTRL_REG [spi_read] 1 ;; ret (nth 0 r 0)
          else ret spi_read) ;;
       ret (tx_state_of spi_read)
     else ret tx_state) ;;
  ret tx_state.

Definition CAN_Control_TX_CAN_Abort (tx_buffer : Z) : M unit :=
  (if selected tx_buffer TXB0 then
     CAN_Control_Register_Bit TXB0CTRL_REG TXREQ_PENDING TXREQ_NO_PENDING
   else skip) ;;
  (if selected tx_buffer TXB1 then
     CAN_Control_Register_Bit TXB1CTRL_REG TXREQ_PENDING TXREQ_NO_PENDING
   else skip) ;;
  (if selected tx_buffer TXB2 then
     CAN_Control_Register_Bit TXB2CTRL_REG TXREQ_PENDING TXREQ_NO_PENDING
   else skip).

Definition CAN_Control_TX_CAN_Abort_All : M unit :=
  CAN_Control_Register_Bit CANCTRL_REG ABAT_REQ_ABORT_TX ABAT_REQ_ABORT_TX ;;
  CAN_Control_Register_Bit CANCTRL_REG ABAT_REQ_ABORT_TX ABAT_TERMINATE_REQ_ABORT_TX.

(** ** can.c: interrupt and error flags *)

Definition CAN_Control_Enable_INT (interrupts : Z) : M unit :=
  CAN_Control_Register_Write CANINTE_REG [interrupts] 1.

Definition CAN_Control_INT_Status (spi_read : Z) : M Z :=
  r <- CAN_Control_Register_Read CANINTF_REG [spi_read] 1 ;;
  ret (nth 0 r 0).

Definition CAN_Control_Clear_INT_Status (interrupts : Z) : M unit :=
  CAN_Control_Register_Bit CANINTF_REG interrupts 0.

Definition CAN_Control_ERR_Status (spi_read : Z) : M Z :=
  r <- CAN_Control_Register_Read EFLG_REG [spi_read] 1 ;;
  ret (nth 0 r 0).

Definition CAN_Control_Clear_ERR_Status (errors : Z) : M unit :=
  CAN_Control_Register_Bit EFLG_REG errors 0.

(** * Vocabulary of the statements *)

Definition periph_of (h : CAN_Control_HandleTypeDef) : option spi_periph :=
  if spi h =? CAN_SPI1 then Some SPI1
  else if spi h =? CAN_SPI2 then Some SPI2
  else None.

(* the board after the events [evs] *)
Definition log (s : board) (evs : list event) : board :=
  mkBoard (hcan s) (trace s ++ evs) (miso s) (rxcount s).

(* the board after peripheral [p] has received [n] more bytes *)
Definition consume (s : board) (p : spi_periph) (n : nat) : board :=
  mkBoard (hcan s) (trace s) (miso s)
          (fun q => if periph_eqb p q then (rxcount s q + n)%nat else rxcount s q).

(* one chip-select frame on [p] followed by the 50 us settling delay; only
   the delay when the handle names no peripheral *)
Definition framed (o : option spi_periph) (body : spi_periph -> list event) : list event :=
  match o with
  | Some p => EvCS_Enable p :: body p ++ [EvCS_Disable p; EvDelay 50]
  | None => [EvDelay 50]
  end.

Definition write_frame (o : option spi_periph) (reg_addr : Z) (bytes : list Z) : list event :=
  framed o (fun p => [EvWrite p [WRITE_INS]; EvWrite p [reg_addr]; EvWrite p bytes]).

Definition read_frame (o : option spi_periph) (reg_addr : Z) (bytes : list Z) : list event :=
  framed o (fun p => [EvWrite p [READ_INS]; EvWrite p [reg_addr]; EvRead p bytes]).

Definition bit_frame (o : option spi_periph) (reg_addr mask data : Z) : list event :=
  framed o (fun p => [EvWrite p [BIT_MODIFY_INS]; EvWrite p [reg_addr];
                      EvWrite p [mask]; EvWrite p [data]]).

(* what a register read stores and leaves behind *)
Definition read_result (s : board) (data : list Z) (size : Z) : list Z :=
  match periph_of (hcan s) with
  | Some p => incoming s p (Z.to_nat size) ++ skipn (Z.to_nat size) data
  | None => data
  end.

Definition read_board (s : board) (reg_addr size : Z) : board :=
  match periph_of (hcan s) with
  | Some p => log (consume s p (Z.to_nat size))
                  (read_frame (Some p) reg_addr (incoming s p (Z.to_nat size)))
  | None => log s (read_frame None reg_addr [])
  end.

Fixpoint all_below (n : nat) (P : Z -> bool) : bool :=
  match n with
  | O => true
  | S k => P (Z.of_nat k) && all_below k P
  end.

(* What CAN_Control_Read_CAN_Frame makes of the four ID registers SIDH, SIDL,
   EID8, EID0 of a receive buffer: whether it takes the frame for an extended
   one (IDE) and the identifier it stores in rxid[n]. *)
Definition rx_id_of_registers (regs : list Z) : bool * Z :=
  let spi_read := 0 :: regs in
  if selected (nth 2 spi_read 0) IDE_RECEIVED_EXTENDED_FRAME
  then (true, rx_extended_id spi_read)
  else (false, rx_standard_id spi_read).

(* CAN1_Handler of main.c: MCP2515 #1 on SPI1 at 125 kbit/s *)
Definition CAN1_Handler : CAN_Control_HandleTypeDef :=
  mkHandle CAN_SPI1 NORMAL_OP_MODE OSM_DISABLED SAM_BUS_SAMPLED_ONCE WAKFIL_DISABLED
           RXB1_TURN_MASKS_FILTERS_OFF 0 CAN_BAUD_125_KBPS.

(* a board with that handle, nothing done yet and [rx] as the bytes SPI1 receives *)
Definition board_with (rx : list Z) : board :=
  mkBoard CAN1_Handler [] (fun _ i => nth i rx 0) (fun _ => 0%nat).

(* TXBnCTRL of the buffer a status query names *)
Definition TXBnCTRL_REG_of (tx_buffer : Z) : Z :=
  if tx_buffer =? TXB0 then TXB0CTRL_REG
  else if tx_buffer =? TXB1 then TXB1CTRL_REG
  else TXB2CTRL_REG.

(* The decoding of TXBnCTRL in the words of the specification: ABTF is bit 6,
   MLOA bit 5, TXERR bit 4 and TXREQ bit 3. *)
Definition tx_state_table (ctrl : Z) : Z :=
  let ABTF := Z.testbit ctrl 6 in
  let MLOA := Z.testbit ctrl 5 in
  let TXERR := Z.testbit ctrl 4 in
  let TXREQ := Z.testbit ctrl 3 in
  if ABTF then TX_ABORTED
  else if TXREQ then
    if TXERR && MLOA then TX_BUS_ERROR_AND_LOST_ARBITRATION
    else if TXERR then TX_BUS_ERROR
    else if MLOA then TX_LOST_ARBITRATION
    else TX_PENDING
  else TX_SUCCESS.

(* The reset sequence of the specification on peripheral [p]: the RESET opcode
   alone in a chip-select frame, 50 us, then [ost_us] microseconds for the
   oscillator. *)
Definition reset_sequence (p : spi_periph) (ost_us : Z) : list event :=
  [EvCS_Enable p; EvWrite p [RESET_INS]; EvCS_Disable p; EvDelay 50; EvDelay ost_us].

(* The planner table of the specification, lengths in time quanta. *)
Record bit_timing := mkTiming { BRP : Z; PropSeg : Z; PS1 : Z; PS2 : Z; SJW : Z }.

Definition planner (baud : Z) : option bit_timing :=
  if baud =? 500000 then Some (mkTiming 0 2 2 3 1)
  else if baud =? 250000 then Some (mkTiming 0 4 5 6 1)
  else if baud =? 125000 then Some (mkTiming 1 3 6 6 1)
  else if baud =? 100000 then Some (mkTiming 1 6 6 7 1)
  else if baud =? 50000 then Some (mkTiming 3 6 6 7 1)
  else None.

(* Register encoding of a bit timing.  CNF1 holds SJW - 1 in bits 7:6 and BRP
   in bits 5:0; CNF2 holds BTLMODE in bit 7, the sample-point selector SAM in
   bit 6, PS1 - 1 in bits 5:3 and PropSeg - 1 in bits 2:0; CNF3 holds the
   wake-up filter WAKFIL in bit 6 and PS2 - 1 in bits 2:0.  [sam] and
   [wakfil] are the handle's fields, already in register position. *)
Definition CNF1_of (t : bit_timing) : Z :=
  Z.lor (Z.shiftl (SJW t - 1) 6) (BRP t).
Definition CNF2_of (t : bit_timing) (sam : Z) : Z :=
  lor4 BTLMODE_PS2_PHSEG2_CNF3 sam (Z.shiftl (PS1 t - 1) 3) (PropSeg t - 1).
Definition CNF3_of (t : bit_timing) (wakfil : Z) : Z :=
  Z.lor wakfil (PS2 t - 1).

(* bit rate a timing yields: one bit is 1 + PropSeg + PS1 + PS2 quanta of
   2 (BRP + 1) oscillator periods each *)
Definition bit_rate (osc_hz : Z) (t : bit_timing) : Z :=
  osc_hz / (2 * (BRP t + 1) * (1 + PropSeg t + PS1 t + PS2 t)).

(* TX1 of main.c: a standard data frame, an extended data frame and an
   extended remote frame in TXB0, TXB1 and TXB2 *)
Definition CAN1_TX : CAN_Control_TX :=
  mkTX (Z.lor (Z.lor TXB0 TXB1) TXB2)
       [TX_STANDARD_DATA_FRAME; TX_EXTENDED_DATA_FRAME; TX_EXTENDED_REMOTE_FRAME]
       [2; 5; 8]
       [ [0x0D; 0xD0; 0; 0; 0; 0; 0; 0];
         [0x01; 0x02; 0x03; 0x04; 0x05; 0; 0; 0];
         [0; 0; 0; 0; 0; 0; 0; 0] ]
       [0x555; 0x1D0CAFC8; 0x34D]
       (fun _ => 0).

(* Worst-case time on the bus in microseconds, as the specification gives it,
   in unbounded integer arithmetic. *)
Definition on_bus_us (frametype dlc baud : Z) : Z :=
  if frametype =? TX_STANDARD_DATA_FRAME then
    (8 * dlc + 44 + (33 + 8 * dlc) / 4) * (1000000 / baud)
  else if frametype =? TX_EXTENDED_DATA_FRAME then
    (8 * dlc + 64 + (53 + 8 * dlc) / 4) * (1000000 / baud)
  else if frametype =? TX_STANDARD_REMOTE_FRAME then
    50 * (1000000 / baud)
  else
    73 * (1000000 / baud).

Definition is_remote (frametype : Z) : bool :=
  (frametype =? TX_STANDARD_REMOTE_FRAME) || (frametype =? TX_EXTENDED_REMOTE_FRAME).

(* the DLC register byte: the length, with the RTR bit for a remote frame *)
Definition dlc_register (frametype dlc : Z) : Z :=
  if is_remote frametype then u8 (Z.lor dlc RTR_TRANSMIT_REMOTE_FRAME_REQUEST) else dlc.

(* What one TX buffer contributes to the trace: the five-byte ID and DLC
   burst, the payload of a data frame, the byte 0x08 written to TXBnCTRL and
   the wait. *)
Definition tx_buffer_events (o : option spi_periph) (txcan : CAN_Control_TX) (baud : Z)
    (n : nat) (TXBn TXBnSIDH_REG TXBnD0_REG TXBnCTRL_REG : Z) : list event :=
  if selected (txbuffernmbr txcan) TXBn then
    let frametype := nth n (txframetype txcan) 0 in
    let dlc := nth n (tx_datalength txcan) 0 in
    write_frame o TXBnSIDH_REG
      (tx_id_registers frametype (nth n (txid txcan) 0) ++ [dlc_register frametype dlc]) ++
    (if is_remote frametype then []
     else write_frame o TXBnD0_REG
            (firstn (Z.to_nat dlc) (tx_memory txcan n (Z.to_nat dlc)))) ++
    write_frame o TXBnCTRL_REG [TXREQ_PENDING] ++
    [EvDelay (on_bus_us frametype dlc baud)]
  else [].

Definition send_events (o : option spi_periph) (txcan : CAN_Control_TX) (baud : Z)
    : list event :=
  tx_buffer_events o txcan baud 0 TXB0 TXB0SIDH_REG TXB0D0_REG TXB0CTRL_REG ++
  tx_buffer_events o txcan baud 1 TXB1 TXB1SIDH_REG TXB1D0_REG TXB1CTRL_REG ++
  tx_buffer_events o txcan baud 2 TXB2 TXB2SIDH_REG TXB2D0_REG TXB2CTRL_REG.

(* buffer n, if selected, holds one of the four frame types and a uint8_t
   length *)
Definition tx_buffer_ok (txcan : CAN_Control_TX) (n : nat) (TXBn : Z) : Prop :=
  selected (txbuffernmbr txcan) TXBn = true ->
  0 <= nth n (txframetype txcan) 0 <= 3 /\
  0 <= nth n (tx_datalength txcan) 0 < 256.

Definition tx_ok (txcan : CAN_Control_TX) : Prop :=
  tx_buffer_ok txcan 0 TXB0 /\ tx_buffer_ok txcan 1 TXB1 /\ tx_buffer_ok txcan 2 TXB2.

(* The MOSI bytes of each chip-select frame peripheral [p] sees in a trace;
   [cur] holds the bytes of the frame that is open, if one is. *)
Fixpoint mosi_frames_from (p : spi_periph) (cur : option (list Z)) (evs : list event)
    : list (list Z) :=
  match evs with
  | [] => []
  | EvCS_Enable q :: t =>
      mosi_frames_from p (if periph_eqb p q then Some [] else cur) t
  | EvWrite q bytes :: t =>
      mosi_frames_from p (if periph_eqb p q then option_map (fun c => c ++ bytes) cur
                          else cur) t
  | EvCS_Disable q :: t =>
      if periph_eqb p q then
        match cur with
        | Some c => c :: mosi_frames_from p None t
        | None => mosi_frames_from p None t
        end
      else mosi_frames_from p cur t
  | _ :: t => mosi_frames_from p cur t
  end.

Definition mosi_frames (p : spi_periph) (evs : list event) : list (list Z) :=
  mosi_frames_from p None evs.

(* What the controller does with the bytes of one frame, as the comments of
   CAN_Control_Register_Write and CAN_Control_Register_Bit describe it: WRITE
   stores the data bytes at successive addresses; BIT MODIFY changes the bits
   the mask selects to those of the data byte and leaves the others.  [regs]
   gives the content of each register.  This is the instruction alone, for
   registers and bits that take what is sent to them.  The controller's own
   rules are not part of it: mask and filter registers are modifiable in
   configuration mode only, the EFLG flags other than RX1OVR and RX0OVR
   cannot be written, and the controller sets and clears flags on its own
   as frames are sent, received or aborted. *)
Fixpoint store_bytes (addr : Z) (bytes : list Z) (regs : Z -> Z) : Z -> Z :=
  match bytes with
  | [] => regs
  | b :: t => store_bytes (addr + 1) t (fun a => if a =? addr then b else regs a)
  end.

Definition mcp2515_frame (mosi : list Z) (regs : Z -> Z) : Z -> Z :=
  match mosi with
  | ins :: addr :: rest =>
      if ins =? WRITE_INS then store_bytes addr rest regs
      else if ins =? BIT_MODIFY_INS then
        match rest with
        | mask :: data :: _ =>
            fun a => if a =? addr
                     then Z.lor (Z.ldiff (regs a) mask) (Z.land data mask)
                     else regs a
        | _ => regs
        end
      else regs
  | _ => regs
  end.

Definition mcp2515_frames (frames : list (list Z)) (regs : Z -> Z) : Z -> Z :=
  fold_left (fun r f => mcp2515_frame f r) frames regs.

(* the frames of one TX buffer *)
Definition tx_buffer_frames (txcan : CAN_Control_TX)
    (n : nat) (TXBn TXBnSIDH_REG TXBnD0_REG TXBnCTRL_REG : Z) : list (list Z) :=
  if selected (txbuffernmbr txcan) TXBn then
    let frametype := nth n (txframetype txcan) 0 in
    let dlc := nth n (tx_datalength txcan) 0 in
    [WRITE_INS :: TXBnSIDH_REG
       :: tx_id_registers frametype (nth n (txid txcan) 0) ++ [dlc_register frametype dlc]] ++
    (if is_remote frametype then []
     else [WRITE_INS :: TXBnD0_REG
             :: firstn (Z.to_nat dlc) (tx_memory txcan n (Z.to_nat dlc))]) ++
    [[WRITE_INS; TXBnCTRL_REG; TXREQ_PENDING]]
  else [].

(* TXB0 selected alone, a standard data frame with a DLC of 9 *)
Definition TX_dlc9 : CAN_Control_TX :=
  mkTX TXB0 [TX_STANDARD_DATA_FRAME; 0; 0] [9; 0; 0]
       [ [1; 2; 3; 4; 5; 6; 7; 8]; [0; 0; 0; 0; 0; 0; 0; 0]; [0; 0; 0; 0; 0; 0; 0; 0] ]
       [0x555; 0; 0]
       (fun _ => 0).

(* TXB2 selected alone, a standard data frame with a DLC of 10: the payload
   pointer data[2] has eight bytes left in data[][] *)
Definition TX_dlc10 : CAN_Control_TX :=
  mkTX TXB2 [0; 0; TX_STANDARD_DATA_FRAME] [0; 0; 10]
       [ [0; 0; 0; 0; 0; 0; 0; 0]; [0; 0; 0; 0; 0; 0; 0; 0]; [1; 2; 3; 4; 5; 6; 7; 8] ]
       [0x1D0CAFC8; 0; 0x555]
       (fun _ => 0xEE).

(* a handle whose transport selector is neither CAN_SPI1 nor CAN_SPI2 *)
Definition no_transport : board :=
  mkBoard (mkHandle 0x02 NORMAL_OP_MODE OSM_DISABLED SAM_BUS_SAMPLED_ONCE WAKFIL_DISABLED
                    0 0 CAN_BAUD_125_KBPS)
          [] (fun _ _ => 0) (fun _ => 0%nat).

(* The calls of the driver's interface (can.h), with their arguments; the
   handle argument is the one on the board.  Where the C function has an
   uninitialised local, its content on entry is the argument [spi_read]. *)
Inductive driver_call :=
| Init
| Reset
| Set_Op_Mode (opmode : Z)
| Set_Baud_Rate (baudrate : Z)
| Set_RX_Mask (hmask : CAN_Control_RX_Mask)
| Set_RX_Filter (hfilter : CAN_Control_RX_Filter)
| Register_Write (reg_addr : Z) (data : list Z) (size : Z)
| Register_Read (reg_addr : Z) (data : list Z) (size : Z)
| Register_Bit (reg_addr mask data : Z)
| Send_CAN_Frame (txcan : CAN_Control_TX)
| Read_CAN_Frame (spi_read : list Z) (rxcan : CAN_Control_RX)
| TX_CAN_Status (spi_read tx_buffer : Z)
| TX_CAN_Abort (tx_buffer : Z)
| TX_CAN_Abort_All
| Enable_INT (interrupts : Z)
| INT_Status (spi_read : Z)
| Clear_INT_Status (interrupts : Z)
| ERR_Status (spi_read : Z)
| Clear_ERR_Status (errors : Z).

Definition run_call (c : driver_call) (s : board) : board :=
  match c with
  | Init => exec CAN_Control_Init s
  | Reset => exec CAN_Control_Reset s
  | Set_Op_Mode m => exec (CAN_Control_Set_Op_Mode m) s
  | Set_Baud_Rate b => exec (CAN_Control_Set_Baud_Rate b) s
  | Set_RX_Mask hmask => exec (CAN_Control_Set_RX_Mask hmask) s
  | Set_RX_Filter hfilter => exec (CAN_Control_Set_RX_Filter hfilter) s
  | Register_Write a d n => exec (CAN_Control_Register_Write a d n) s
  | Register_Read a d n => exec (CAN_Control_Register_Read a d n) s
  | Register_Bit a m d => exec (CAN_Control_Register_Bit a m d) s
  | Send_CAN_Frame txcan => exec (CAN_Control_Send_CAN_Frame txcan) s
  | Read_CAN_Frame j rxcan => exec (CAN_Control_Read_CAN_Frame j rxcan) s
  | TX_CAN_Status j b => exec (CAN_Control_TX_CAN_Status j b) s
  | TX_CAN_Abort b => exec (CAN_Control_TX_CAN_Abort b) s
  | TX_CAN_Abort_All => exec CAN_Control_TX_CAN_Abort_All s
  | Enable_INT i => exec (CAN_Control_Enable_INT i) s
  | INT_Status j => exec (CAN_Control_INT_Status j) s
  | Clear_INT_Status i => exec (CAN_Control_Clear_INT_Status i) s
  | ERR_Status j => exec (CAN_Control_ERR_Status j) s
  | Clear_ERR_Status e => exec (CAN_Control_Clear_ERR_Status e) s
  end.

(* a program of calls, run in order *)
Definition run_calls (cs : list driver_call) (s : board) : board :=
  fold_left (fun s c => run_call c s) cs s.

(* a computation that leaves the handle object as it found it *)
Definition keeps_handle {A : Type} (m : M A) : Prop :=
  forall s, hcan (snd (m s)) = hcan s.

(* CAN2_RX of main.c before the read: both buffers selected, all else zero *)
Definition CAN2_RX : CAN_Control_RX :=
  mkRX (Z.lor RXB0 RXB1) [0; 0] [0; 0] [0; 0] 0
       [ [0; 0; 0; 0; 0; 0; 0; 0]; [0; 0; 0; 0; 0; 0; 0; 0] ] [0; 0].

(* Bytes received while both buffers are read: RXB0 holds the standard data
   frame 0x555 with payload 0D D0, RXB1 a standard data frame 0x123 with a DLC
   of 2, answered from RXB1D1 on. *)
Definition two_standard_frames : list Z :=
  [ 0x00; 0xAA; 0xA0; 0x00; 0x00; 0x02;   0x0D; 0xD0;
    0x00; 0x24; 0x60; 0x00; 0x00; 0x02;   0xBB; 0xCC ].

(* [P] at each of 0, 1, ..., n - 1 *)
Fixpoint each_below (n : nat) (P : Z -> Prop) : Prop :=
  match n with
  | O => True
  | S k => P (Z.of_nat k) /\ each_below k P
  end.

(** ** Vocabulary of the further properties *)

(* an SPI transfer on peripheral [p] *)
Definition transfer_on (p : spi_periph) (e : event) : Prop :=
  match e with
  | EvWrite q _ | EvRead q _ => q = p
  | _ => False
  end.

(* A trace of a handle whose peripheral is [o]: delays, bring-ups of that
   peripheral, and chip-select frames on it, each holding transfers only,
   closed by the release of chip select and followed by the 50 us pause. *)
Inductive well_framed (o : option spi_periph) : list event -> Prop :=
| wf_nil : well_framed o []
| wf_delay us rest :
    well_framed o rest -> well_framed o (EvDelay us :: rest)
| wf_init p rest :
    o = Some p -> well_framed o rest -> well_framed o (EvInit p :: rest)
| wf_frame p body rest :
    o = Some p -> Forall (transfer_on p) body -> well_framed o rest ->
    well_framed o (EvCS_Enable p :: body ++ EvCS_Disable p :: EvDelay 50 :: rest).

Definition is_delay (e : event) : Prop := exists us, e = EvDelay us.

(* a trace made of READ frames and delays only *)
Inductive reads_only (o : option spi_periph) : list event -> Prop :=
| ro_nil : reads_only o []
| ro_read reg_addr bytes rest :
    reads_only o rest -> reads_only o (read_frame o reg_addr bytes ++ rest).

(* the calls that return something read from the controller *)
Definition is_query (c : driver_call) : bool :=
  match c with
  | Register_Read _ _ _ | Read_CAN_Frame _ _ | TX_CAN_Status _ _
  | INT_Status _ | ERR_Status _ => true
  | _ => false
  end.

(* a computation that keeps the handle and extends the trace by events that
   satisfy [A] for the handle's peripheral *)
Definition emits (A : option spi_periph -> list event -> Prop) {T : Type} (m : M T) : Prop :=
  forall s,
    hcan (snd (m s)) = hcan s /\
    exists evs, trace (snd (m s)) = trace s ++ evs /\ A (periph_of (hcan s)) evs.

(* what CAN_Control_Set_Baud_Rate and CAN_Control_Set_Op_Mode put on the bus,
   whatever their argument *)
Definition baud_rate_events (o : option spi_periph) (h : CAN_Control_HandleTypeDef)
    (baud : Z) : list event :=
  match planner baud with
  | Some t => write_frame o CNF3_REG [ u8 (CNF3_of t (wakeupfilter h));
                                       u8 (CNF2_of t (samplepoint h));
                                       u8 (CNF1_of t) ]
  | None => []
  end.

Definition op_mode_events (o : option spi_periph) (h : CAN_Control_HandleTypeDef)
    (mode : Z) : list event :=
  if (0 <=? mode) && (mode <=? 4)
  then write_frame o CANCTRL_REG [u8 (Z.lor (oneshot h) (Z.shiftl mode 5))]
  else [].

(* the byte CAN_Control_Init computes for RXB0CTRL *)
Definition rxb0ctrl_of (h : CAN_Control_HandleTypeDef) : Z :=
  Z.lor (if selected (rxbufferopmode h) RXB0_TURN_MASKS_FILTERS_OFF
         then RXM_RECEIVE_ANY_MESSAGE else 0)
        (if selected (rxbuffer0rollover h) RXB0_ROLLOVER_ENABLED
         then BUKT_RXB0_ROLLOVER_ENABLED else 0).

Definition init_events (p : spi_periph) (h : CAN_Control_HandleTypeDef) : list event :=
  EvInit p :: reset_sequence p 16 ++
  baud_rate_events (Some p) h (baudrate h) ++
  (if rxb0ctrl_of h =? 0 then [] else write_frame (Some p) RXB0CTRL_REG [rxb0ctrl_of h]) ++
  (if selected (rxbufferopmode h) RXB1_TURN_MASKS_FILTERS_OFF
   then write_frame (Some p) RXB1CTRL_REG [RXM_RECEIVE_ANY_MESSAGE] else []) ++
  op_mode_events (Some p) h (opmode h).

(* The identifier four ID registers stand for, by the bit definitions of
   can.h: SIDH is SID[10:3], SIDL bits 7:5 are SID[2:0] and bits 1:0 are
   EID[17:16], EID8 and EID0 are EID[15:0]; SID sits above the 18 EID bits. *)
Definition id_of_registers (regs : list Z) : Z :=
  Z.lor (Z.shiftl (nth 0 regs 0) 21)
   (Z.lor (Z.shiftl (Z.shiftr (nth 1 regs 0) 5) 18)
     (Z.lor (Z.shiftl (Z.land (nth 1 regs 0) 3) 16)
       (Z.lor (Z.shiftl (nth 2 regs 0) 8) (nth 3 regs 0)))).

(* the four bytes CAN_Control_Set_RX_Filter writes for one filter *)
Definition filter_registers (v : Z) (extended : bool) : list Z :=
  let spi_write := id_registers v in
  if extended
  then upd 1 (u8 (Z.lor (nth 1 spi_write 0) EXIDE_FILTER_APPLY_ONLY_EXTENDED_FRAMES)) spi_write
  else spi_write.

Definition filter_events (o : option spi_periph) (hfilter : CAN_Control_RX_Filter)
    (n : nat) (RXFn RXFn_EXTENDED_ID_ENABLED RXFnSIDH_REG : Z) : list event :=
  if selected (rxfilternmbr hfilter) RXFn
  then write_frame o RXFnSIDH_REG
         (filter_registers (nth n (rxfiltervalue hfilter) 0)
                           (selected (extendedidenable hfilter) RXFn_EXTENDED_ID_ENABLED))
  else [].

Definition mask_events (o : option spi_periph) (hmask : CAN_Control_RX_Mask)
    (n : nat) (RXMn RXMnSIDH_REG : Z) : list event :=
  if selected (rxmasknmbr hmask) RXMn
  then write_frame o RXMnSIDH_REG (id_registers (nth n (rxmaskvalue hmask) 0))
  else [].

(* CAN2_Masks and CAN2_Filters of main.c *)
Definition CAN2_Masks : CAN_Control_RX_Mask :=
  mkMask (Z.lor RXM0 RXM1) [0x1FFC0000; 0x1FFFFFFF].

Definition CAN2_Filters : CAN_Control_RX_Filter :=
  mkFilter (Z.lor RXF0 RXF2) RXF2_EXTENDED_ID_ENABLED [0x15540000; 0; 0x1D0CAFC8; 0; 0; 0].

(* the masks and the filters the two functions go through, in their order:
   index into the value array, selection flag, (extended flag,) first register *)
Definition mask_table : list (nat * Z * Z) :=
  [ (0%nat, RXM0, RXM0SIDH_REG); (1%nat, RXM1, RXM1SIDH_REG) ].

Definition filter_table : list (nat * Z * Z * Z) :=
  [ (0%nat, RXF0, RXF0_EXTENDED_ID_ENABLED, RXF0SIDH_REG);
    (1%nat, RXF1, RXF1_EXTENDED_ID_ENABLED, RXF1SIDH_REG);
    (2%nat, RXF2, RXF2_EXTENDED_ID_ENABLED, RXF2SIDH_REG);
    (3%nat, RXF3, RXF3_EXTENDED_ID_ENABLED, RXF3SIDH_REG);
    (4%nat, RXF4, RXF4_EXTENDED_ID_ENABLED, RXF4SIDH_REG);
    (5%nat, RXF5, RXF5_EXTENDED_ID_ENABLED, RXF5SIDH_REG) ].

Definition masks_events (o : option spi_periph) (hmask : CAN_Control_RX_Mask) : list event :=
  flat_map (fun '(n, RXMn, reg) => mask_events o hmask n RXMn reg) mask_table.

Definition filters_events (o : option spi_periph) (hfilter : CAN_Control_RX_Filter)
    : list event :=
  flat_map (fun '(n, RXFn, ext, reg) => filter_events o hfilter n RXFn ext reg) filter_table.

(* registers addr .. addr + 3 of the controller *)
Definition four_registers (regs : Z -> Z) (addr : Z) : list Z :=
  map regs [addr; addr + 1; addr + 2; addr + 3].

(* a WRITE frame that is sent or not; the addresses a write of [n] bytes
   from [r] on covers *)
Definition opt_write (b : bool) (r : Z) (bytes : list Z) : list (list Z) :=
  if b then [WRITE_INS :: r :: bytes] else [].

Definition between (r : Z) (n : nat) (a : Z) : bool :=
  (r <=? a) && (a <? r + Z.of_nat n).

(* What the six bytes RXBnCTRL, SIDH, SIDL, EID8, EID0, DLC of a receive
   buffer make of the frame in it, by the tests of CAN_Control_Read_CAN_Frame *)
Definition rx_frametype_of (hdr : list Z) : Z :=
  if selected (nth 2 hdr 0) IDE_RECEIVED_EXTENDED_FRAME then
    if selected (nth 5 hdr 0) RTR_RECEIVED_REMOTE_FRAME_REQUEST
    then RX_EXTENDED_REMOTE_FRAME else RX_EXTENDED_DATA_FRAME
  else
    if selected (nth 2 hdr 0) SRR_RECEIVED_STANDARD_REMOTE_REQUEST
    then RX_STANDARD_REMOTE_FRAME else RX_STANDARD_DATA_FRAME.

Definition rx_is_data (hdr : list Z) : bool :=
  if selected (nth 2 hdr 0) IDE_RECEIVED_EXTENDED_FRAME
  then negb (selected (nth 5 hdr 0) RTR_RECEIVED_REMOTE_FRAME_REQUEST)
  else negb (selected (nth 2 hdr 0) SRR_RECEIVED_STANDARD_REMOTE_REQUEST).

Definition rx_id_of (hdr : list Z) : Z :=
  if selected (nth 2 hdr 0) IDE_RECEIVED_EXTENDED_FRAME
  then rx_extended_id hdr else rx_standard_id hdr.

(* BUKT and its read-only copy BUKT1 both set in RXB0CTRL *)
Definition rollover_bits (ctrl : Z) : bool := Z.testbit ctrl 2 && Z.testbit ctrl 1.

(* the arrays of a CAN_Control_RX have two entries each, and each row of
   data[2][8] has eight bytes *)
Definition rx_shaped (rxcan : CAN_Control_RX) : Prop :=
  length (rxframetype rxcan) = 2%nat /\ length (rx_datalength rxcan) = 2%nat /\
  length (accfilter rxcan) = 2%nat /\ length (rx_data rxcan) = 2%nat /\
  length (rxid rxcan) = 2%nat /\
  length (nth 0 (rx_data rxcan) []) = 8%nat /\ length (nth 1 (rx_data rxcan) []) = 8%nat.

(* entry [n] of every per-buffer array of a CAN_Control_RX *)
Definition rx_entry (n : nat) (rxcan : CAN_Control_RX) : Z * Z * Z * list Z * Z :=
  (nth n (rxframetype rxcan) 0, nth n (rx_datalength rxcan) 0, nth n (accfilter rxcan) 0,
   nth n (rx_data rxcan) [], nth n (rxid rxcan) 0).

(* RXB0 holds the extended data frame 0x1D0CAFC8 of CAN1_TX with a DLC of 3,
   rollover is enabled: the payload is fetched from RXB1D0 *)
Definition rollover_frame : list Z :=
  [ 0x06; 0xE8; 0x68; 0xAF; 0xC8; 0x03;   0x11; 0x22; 0x33 ].

Definition RXB0_only : CAN_Control_RX :=
  mkRX RXB0 [0; 0] [0; 0] [0; 0] 0
       [ [0; 0; 0; 0; 0; 0; 0; 0]; [0; 0; 0; 0; 0; 0; 0; 0] ] [0; 0].

(* RXB1 alone, holding the standard remote frame 0x123 with a DLC of 5 *)
Definition RXB1_only : CAN_Control_RX :=
  mkRX RXB1 [0; 0] [0; 0] [0; 0] 0
       [ [0; 0; 0; 0; 0; 0; 0; 0]; [1; 2; 3; 4; 5; 6; 7; 8] ] [0; 0].

Definition remote_frame : list Z := [ 0x03; 0x24; 0x70; 0x00; 0x00; 0x05 ].

(* the TX buffers CAN_Control_TX_CAN_Abort goes through, with their control
   registers *)
Definition abort_table : list (Z * Z) :=
  [ (TXB0, TXB0CTRL_REG); (TXB1, TXB1CTRL_REG); (TXB2, TXB2CTRL_REG) ].

Definition abort_events (o : option spi_periph) (tx_buffer : Z) : list event :=
  flat_map (fun '(TXBn, reg) =>
              if selected tx_buffer TXBn
              then bit_frame o reg TXREQ_PENDING TXREQ_NO_PENDING else [])
           abort_table.

(* is [a] the control register of a buffer selected in [tx_buffer]? *)
Definition aborted (tx_buffer a : Z) : bool :=
  existsb (fun '(TXBn, reg) => selected tx_buffer TXBn && (a =? reg)) abort_table.

(* a BIT MODIFY frame that is sent or not *)
Definition opt_bit (b : bool) (r mask data : Z) : list (list Z) :=
  if b then [[BIT_MODIFY_INS; r; mask; data]] else [].

(* the controller's registers after the bus traffic [evs] on [p] *)
Definition registers_after (p : spi_periph) (evs : list event) (regs : Z -> Z) : Z -> Z :=
  mcp2515_frames (mosi_frames p evs) regs.

(* the TX buffers CAN_Control_Send_CAN_Frame goes through: index, selection
   flag and the registers TXBnSIDH, TXBnD0 and TXBnCTRL *)
Definition tx_table : list (nat * Z * Z * Z * Z) :=
  [ (0%nat, TXB0, TXB0SIDH_REG, TXB0D0_REG, TXB0CTRL_REG);
    (1%nat, TXB1, TXB1SIDH_REG, TXB1D0_REG, TXB1CTRL_REG);
    (2%nat, TXB2, TXB2SIDH_REG, TXB2D0_REG, TXB2CTRL_REG) ].

(* the five bytes loaded from TXBnSIDH on and the payload loaded from TXBnD0 on *)
Definition tx_header (txcan : CAN_Control_TX) (n : nat) : list Z :=
  tx_id_registers (nth n (txframetype txcan) 0) (nth n (txid txcan) 0) ++
  [dlc_register (nth n (txframetype txcan) 0) (nth n (tx_datalength txcan) 0)].

Definition tx_payload (txcan : CAN_Control_TX) (n : nat) : list Z :=
  firstn (Z.to_nat (nth n (tx_datalength txcan) 0))
         (tx_memory txcan n (Z.to_nat (nth n (tx_datalength txcan) 0))).

(* every selected buffer has a length of at most 8 *)
Definition tx_fits (txcan : CAN_Control_TX) : bool :=
  forallb (fun '(n, TXBn, _, _, _) =>
             negb (selected (txbuffernmbr txcan) TXBn)
             || (nth n (tx_datalength txcan) 0 <=? 8))
          tx_table.

(* the time a trace spends in TIM3 delays, in microseconds *)
Fixpoint delay_total (evs : list event) : Z :=
  match evs with
  | [] => 0
  | EvDelay us :: t => us + delay_total t
  | _ :: t => delay_total t
  end.

(* what one TX buffer adds to it: 50 us after each of its two or three
   register writes and the wait for the frame *)
Definition tx_buffer_us (txcan : CAN_Control_TX) (baud : Z) (n : nat) (TXBn : Z) : Z :=
  if selected (txbuffernmbr txcan) TXBn then
    (if is_remote (nth n (txframetype txcan) 0) then 100 else 150) +
    on_bus_us (nth n (txframetype txcan) 0) (nth n (tx_datalength txcan) 0) baud
  else 0.

(* RXB0 answers a standard data frame whose DLC nibble is 15 *)
Definition long_frame : list Z :=
  [ 0x00; 0xAA; 0xA0; 0x00; 0x00; 0x0F;
    1; 2; 3; 4; 5; 6; 7; 8; 9; 10; 11; 12; 13; 14; 15 ].

(* a trace made of the four kinds of frame the register-access layer and
   CAN_Control_Reset produce, of delays and of peripheral initialisations *)
Inductive driver_frames (o : option spi_periph) : list event -> Prop :=
| df_nil : driver_frames o []
| df_delay us rest : driver_frames o rest -> driver_frames o (EvDelay us :: rest)
| df_init p rest : driver_frames o rest -> driver_frames o (EvInit p :: rest)
| df_reset rest :
    driver_frames o rest ->
    driver_frames o (framed o (fun p => [EvWrite p [RESET_INS]]) ++ rest)
| df_write reg_addr bytes rest :
    driver_frames o rest -> driver_frames o (write_frame o reg_addr bytes ++ rest)
| df_read reg_addr bytes rest :
    driver_frames o rest -> driver_frames o (read_frame o reg_addr bytes ++ rest)
| df_bit reg_addr mask data rest :
    driver_frames o rest -> driver_frames o (bit_frame o reg_addr mask data ++ rest).

(* the MOSI bytes of a frame are those of a RESET, a READ, a WRITE or a BIT
   MODIFY instruction *)
Definition driver_instruction (f : list Z) : Prop :=
  f = [RESET_INS] \/
  (exists reg_addr, f = [READ_INS; reg_addr]) \/
  (exists reg_addr bytes, f = WRITE_INS :: reg_addr :: bytes) \/
  (exists reg_addr mask data, f = [BIT_MODIFY_INS; reg_addr; mask; data]).

(* is [o] the peripheral [p]? *)
Definition on_periph (p : spi_periph) (o : option spi_periph) : bool :=
  match o with Some q => periph_eqb p q | None => false end.

(* CAN1_TX with a buffer selector that names none of TXB0, TXB1, TXB2 *)
Definition TX_none : CAN_Control_TX :=
  mkTX 0x08 (txframetype CAN1_TX) (tx_datalength CAN1_TX) (tx_data CAN1_TX) (txid CAN1_TX)
       (tx_beyond CAN1_TX).

(* What a receive block stores before any payload is read: filter hit, DLC
   nibble, identifier and frame type of buffer [n], from the six bytes read
   at RXBnCTRL; [filhit] is the mask of the filter-hit bits. *)
Definition rx_header_stored (n : nat) (filhit : Z) (hdr : list Z) (rxcan : CAN_Control_RX)
    : CAN_Control_RX :=
  set_rxframetype n (rx_frametype_of hdr)
    (set_rxid n (rx_id_of hdr)
      (set_rx_datalength n (Z.land (nth 5 hdr 0) 0x0F)
        (set_accfilter n (Z.land (nth 0 hdr 0) filhit) rxcan))).

(* the structure after the RXB0 block and after the RXB1 block, given the
   header and the payload bytes received *)
Definition RXB0_stored (hdr payload : list Z) (rxcan : CAN_Control_RX) : CAN_Control_RX :=
  if rx_is_data hdr then
    store_rx_data 0 (payload ++ skipn (length payload) (nth 0 (rx_data rxcan) []))
      (set_rolloverstatus (if rollover_bits (nth 0 hdr 0)
                           then ROLLOVER_OCCURRED else ROLLOVER_NOT_OCCURRED)
                          (rx_header_stored 0 FILHIT_BIT_0 hdr rxcan))
  else rx_header_stored 0 FILHIT_BIT_0 hdr rxcan.

Definition RXB1_stored (hdr payload : list Z) (rxcan : CAN_Control_RX) : CAN_Control_RX :=
  if rx_is_data hdr then
    store_rx_data 1 (payload ++ skipn (length payload) (nth 1 (rx_data rxcan) []))
      (rx_header_stored 1 0x07 hdr rxcan)
  else rx_header_stored 1 0x07 hdr rxcan.

(* a frame whose payload, if it has one, fits the eight bytes of a row *)
Definition rx_fits (hdr : list Z) : bool :=
  negb (rx_is_data hdr) || (Z.land (nth 5 hdr 0) 0x0F <=? 8).

(* RXB1 answers the standard data frame 0x123 with a DLC nibble of 15 *)
Definition long_frame_RXB1 : list Z :=
  [ 0x03; 0x24; 0x60; 0x00; 0x00; 0x0F;
    1; 2; 3; 4; 5; 6; 7; 8; 9; 10; 11; 12; 13; 14; 15 ].

(* What the bus carries to the registers.  A WRITE frame names an address
   and carries data bytes for it and for the addresses that follow; a frame
   of another instruction carries no byte for any register.  [written] is
   the byte last sent for an address in a trace, if one was: it says what
   the driver asked a register to take, not what the controller made of
   it. *)
Fixpoint addressed (addr : Z) (bytes : list Z) : list (Z * Z) :=
  match bytes with
  | [] => []
  | b :: t => (addr, b) :: addressed (addr + 1) t
  end.

Definition frame_writes (mosi : list Z) : list (Z * Z) :=
  match mosi with
  | ins :: addr :: rest => if ins =? WRITE_INS then addressed addr rest else []
  | _ => []
  end.

Fixpoint last_written (writes : list (Z * Z)) (a : Z) : option Z :=
  match writes with
  | [] => None
  | (addr, b) :: t =>
      match last_written t a with
      | Some v => Some v
      | None => if a =? addr then Some b else None
      end
  end.

Definition bus_writes (p : spi_periph) (evs : list event) : list (Z * Z) :=
  flat_map frame_writes (mosi_frames p evs).

Definition written (p : spi_periph) (evs : list event) (a : Z) : option Z :=
  last_written (bus_writes p evs) a.

(** * Properties *)

(** ** Traces of the register-access layer *)

Lemma log_nil s : log s [] = s.
Proof. destruct s; unfold log; simpl; now rewrite app_nil_r. Qed.

Lemma log_log s a b : log (log s a) b = log s (a ++ b).
Proof. unfold log; simpl; now rewrite app_assoc. Qed.

Lemma hcan_log s a : hcan (log s a) = hcan s.
Proof. reflexivity. Qed.

Lemma trace_log s a : trace (log s a) = trace s ++ a.
Proof. reflexivity. Qed.

Lemma bind_run {A B} (m : M A) (f : A -> M B) s :
  bind m f s = f (fst (m s)) (snd (m s)).
Proof. unfold bind; now destruct (m s). Qed.

Lemma periph_of_cases h :
  (spi h = CAN_SPI1 /\ periph_of h = Some SPI1) \/
  (spi h <> CAN_SPI1 /\ spi h = CAN_SPI2 /\ periph_of h = Some SPI2) \/
  (spi h <> CAN_SPI1 /\ spi h <> CAN_SPI2 /\ periph_of h = None).
Proof.
  unfold periph_of.
  destruct (Z.eqb_spec (spi h) CAN_SPI1); [now left|].
  destruct (Z.eqb_spec (spi h) CAN_SPI2); [right; left | right; right]; auto.
Qed.

Ltac by_periph s :=
  let H1 := fresh "Hspi" in let H2 := fresh "Hspi" in let Hp := fresh "Hp" in
  destruct (periph_of_cases (hcan s)) as [[H1 Hp] | [[H1 [H2 Hp]] | [H1 [H2 Hp]]]];
  rewrite Hp;
  [ apply Z.eqb_eq in H1
  | apply Z.eqb_neq in H1; apply Z.eqb_eq in H2
  | apply Z.eqb_neq in H1; apply Z.eqb_neq in H2 ].

Lemma emit_run e s : emit e s = (tt, log s [e]).
Proof. reflexivity. Qed.

Lemma SPI_Write_run p data size s :
  SPI_Write p data size s = (tt, log s [EvWrite p (firstn (Z.to_nat size) data)]).
Proof. reflexivity. Qed.

Lemma SPI_Read_run p size s :
  SPI_Read p size s =
  (incoming s p (Z.to_nat size),
   log (consume s p (Z.to_nat size)) [EvRead p (incoming s p (Z.to_nat size))]).
Proof. reflexivity. Qed.

Lemma firstn_one (x : Z) : firstn (Z.to_nat 1) [x] = [x].
Proof. reflexivity. Qed.

Lemma consume_log s a p n : consume (log s a) p n = log (consume s p n) a.
Proof. reflexivity. Qed.

Lemma incoming_log s a p n : incoming (log s a) p n = incoming s p n.
Proof. reflexivity. Qed.

(* symbolic execution of straight-line driver code *)
Ltac run :=
  repeat first
    [ rewrite bind_run
    | rewrite emit_run
    | rewrite SPI_Write_run
    | rewrite SPI_Read_run
    | rewrite firstn_one
    | rewrite log_log
    | rewrite consume_log
    | rewrite incoming_log
    | progress unfold SPI1_CS_Enable, SPI2_CS_Enable, SPI1_CS_Disable, SPI2_CS_Disable,
                      SPI1_Write, SPI2_Write, SPI1_Read, SPI2_Read, SPI1_Init, SPI2_Init,
                      TIM3_Delay_us, skip, ret, get_hcan
    | progress cbn [fst snd hcan log app] ].

Lemma Register_Write_run reg_addr data size s :
  CAN_Control_Register_Write reg_addr data size s =
  (tt, log s (write_frame (periph_of (hcan s)) reg_addr (firstn (Z.to_nat size) data))).
Proof.
  unfold CAN_Control_Register_Write, write_frame, framed.
  rewrite bind_run; cbn [get_hcan fst snd].
  by_periph s.
  - rewrite Hspi. now run.
  - rewrite Hspi, Hspi0. now run.
  - rewrite Hspi, Hspi0. now run.
Qed.

Lemma Register_Bit_run reg_addr mask data s :
  CAN_Control_Register_Bit reg_addr mask data s =
  (tt, log s (bit_frame (periph_of (hcan s)) reg_addr mask data)).
Proof.
  unfold CAN_Control_Register_Bit, bit_frame, framed.
  rewrite bind_run; cbn [get_hcan fst snd].
  by_periph s.
  - rewrite Hspi. now run.
  - rewrite Hspi, Hspi0. now run.
  - rewrite Hspi, Hspi0. now run.
Qed.

Lemma Register_Read_run reg_addr data size s :
  CAN_Control_Register_Read reg_addr data size s =
  (read_result s data size, read_board s reg_addr size).
Proof.
  unfold CAN_Control_Register_Read, read_result, read_board, read_frame, framed.
  rewrite bind_run; cbn [get_hcan fst snd].
  by_periph s.
  - rewrite Hspi. now run.
  - rewrite Hspi, Hspi0. now run.
  - rewrite Hspi, Hspi0. now run.
Qed.

Lemma hcan_read_board s reg_addr size : hcan (read_board s reg_addr size) = hcan s.
Proof. unfold read_board; destruct (periph_of (hcan s)); reflexivity. Qed.

Lemma trace_read_board s reg_addr size p :
  periph_of (hcan s) = Some p ->
  trace (read_board s reg_addr size) =
  trace s ++ read_frame (Some p) reg_addr (incoming s p (Z.to_nat size)).
Proof. unfold read_board; intros ->; reflexivity. Qed.

(** ** Exhaustive checks over a byte or an 11-bit identifier *)

Lemma all_below_spec n P :
  all_below n P = true -> forall x, 0 <= x < Z.of_nat n -> P x = true.
Proof.
  induction n as [|k IH]; intros H x Hx.
  - simpl in Hx; lia.
  - cbn [all_below] in H. apply andb_true_iff in H as [Hk Hrest].
    destruct (Z.eq_dec x (Z.of_nat k)) as [->|Hne]; [assumption|].
    apply IH; [assumption | lia].
Qed.

Lemma each_below_spec n P :
  each_below n P -> forall x, 0 <= x < Z.of_nat n -> P x.
Proof.
  induction n as [|k IH]; intros H x Hx.
  - simpl in Hx; lia.
  - destruct H as [Hk Hrest].
    destruct (Z.eq_dec x (Z.of_nat k)) as [->|Hne]; [assumption|].
    apply IH; [assumption | lia].
Qed.

Lemma u8_range x : 0 <= u8 x < 256.
Proof. unfold u8; apply Z.mod_pos_bound; lia. Qed.

Lemma u8_small x : 0 <= x < 256 -> u8 x = x.
Proof. unfold u8; apply Z.mod_small. Qed.

(** ** The identifier codec (claim C1) *)

Lemma set_rx_data_rxid n v r : rxid (set_rx_data n v r) = rxid r.
Proof. reflexivity. Qed.

(* Standard frames: the 11-bit identifier survives for every one of the 2048
   values, and the frame is recognised as standard. *)
Lemma standard_id_round_trip id :
  0 <= id < 2048 ->
  rx_id_of_registers (tx_id_registers TX_STANDARD_DATA_FRAME id) = (false, id) /\
  rx_id_of_registers (tx_id_registers TX_STANDARD_REMOTE_FRAME id) = (false, id).
Proof.
  intros Hid.
  pose (P := fun x =>
    let a := rx_id_of_registers (tx_id_registers TX_STANDARD_DATA_FRAME x) in
    let b := rx_id_of_registers (tx_id_registers TX_STANDARD_REMOTE_FRAME x) in
    negb (fst a) && (snd a =? x) && negb (fst b) && (snd b =? x)).
  assert (HP : P id = true)
    by (apply (all_below_spec 2048); [vm_compute; reflexivity | exact Hid]).
  unfold P in HP; cbv zeta in HP.
  destruct (rx_id_of_registers (tx_id_registers TX_STANDARD_DATA_FRAME id)) as [e1 v1].
  destruct (rx_id_of_registers (tx_id_registers TX_STANDARD_REMOTE_FRAME id)) as [e2 v2].
  cbn [fst snd] in HP.
  repeat (apply andb_true_iff in HP; destruct HP as [HP ?]).
  destruct e1, e2; try discriminate.
  repeat match goal with H : (_ =? _) = true |- _ => apply Z.eqb_eq in H end.
  subst; split; reflexivity.
Qed.

(** ** Extended identifiers in general *)

Lemma testbit_u32 y k : 0 <= k < 32 -> Z.testbit (u32 y) k = Z.testbit y k.
Proof.
  intros Hk. unfold u32. change 4294967296 with (2 ^ 32).
  apply Z.mod_pow2_bits_low. lia.
Qed.

Lemma testbit_u8_high y k : 8 <= k -> Z.testbit (u8 y) k = false.
Proof.
  intros Hk. unfold u8. change 256 with (2 ^ 8).
  apply Z.mod_pow2_bits_high. lia.
Qed.

Lemma testbit_u8_low y k : 0 <= k < 8 -> Z.testbit (u8 y) k = Z.testbit y k.
Proof.
  intros Hk. unfold u8. change 256 with (2 ^ 8).
  apply Z.mod_pow2_bits_low. lia.
Qed.

Lemma testbit_u32_high y k : 32 <= k -> Z.testbit (u32 y) k = false.
Proof.
  intros Hk. unfold u32. change 4294967296 with (2 ^ 32).
  apply Z.mod_pow2_bits_high. lia.
Qed.

Ltac bit_step :=
  first
    [ rewrite Z.lor_spec
    | rewrite Z.land_spec
    | rewrite testbit_u32 by lia
    | rewrite Z.shiftl_spec_low by lia
    | rewrite Z.shiftl_spec by lia
    | rewrite Z.shiftr_spec by lia
    | rewrite testbit_u8_high by lia
    | rewrite testbit_u8_low by lia ].

Ltac bit_norm :=
  repeat match goal with
  | |- context [Z.testbit ?x ?e] =>
      lazymatch e with
      | Zpos _ => fail
      | Z0 => fail
      | _ => let v := eval vm_compute in e in change e with v
      end
  end;
  repeat match goal with
  | |- context [Z.testbit ?x ?e] =>
      let v := eval vm_compute in (Z.testbit x e) in
      lazymatch v with
      | true => change (Z.testbit x e) with true
      | false => change (Z.testbit x e) with false
      end
  end.

(* the transmit path always marks an extended frame, and the receive path
   always recognises the mark *)
Lemma extended_frame_recognised id :
  rx_id_of_registers (tx_id_registers TX_EXTENDED_DATA_FRAME id) =
  (true, rx_extended_id (0 :: tx_id_registers TX_EXTENDED_DATA_FRAME id)).
Proof.
  unfold rx_id_of_registers, tx_id_registers.
  change ((TX_EXTENDED_DATA_FRAME =? TX_EXTENDED_DATA_FRAME)
          || (TX_EXTENDED_DATA_FRAME =? TX_EXTENDED_REMOTE_FRAME)) with true.
  cbv iota. unfold id_registers. cbn [upd nth].
  set (x := u8 (Z.lor (u8 (Z.land (Z.shiftr id 13) 224)) (Z.land (Z.shiftr id 16) 3))).
  assert (Hx : selected (u8 (Z.lor x EXIDE_MSG_TRANSMIT_EXTENDED_ID))
                        IDE_RECEIVED_EXTENDED_FRAME = true).
  { apply (all_below_spec 256
             (fun x => selected (u8 (Z.lor x EXIDE_MSG_TRANSMIT_EXTENDED_ID))
                                IDE_RECEIVED_EXTENDED_FRAME));
      [vm_compute; reflexivity | apply u8_range]. }
  now rewrite Hx.
Qed.

(* whatever was sent, bits 20:18 of the identifier read back are 0 *)
Lemma rx_extended_id_bits_20_18 id k :
  18 <= k <= 20 ->
  Z.testbit (rx_extended_id (0 :: tx_id_registers TX_EXTENDED_DATA_FRAME id)) k = false.
Proof.
  intros Hk. unfold tx_id_registers.
  change ((TX_EXTENDED_DATA_FRAME =? TX_EXTENDED_DATA_FRAME)
          || (TX_EXTENDED_DATA_FRAME =? TX_EXTENDED_REMOTE_FRAME)) with true.
  cbv iota. unfold id_registers, rx_extended_id. cbn [upd nth].
  rewrite !Z.lor_spec, !testbit_u32 by lia.
  rewrite (Z.shiftl_spec_low _ 21) by lia.
  rewrite !Z.shiftl_spec by lia.
  rewrite !Z.land_spec.
  rewrite (testbit_u8_high _ (k - 8)) by lia.
  rewrite (testbit_u8_high _ k) by lia.
  assert (H1 : Z.testbit (lor3 SID_BIT_2 SID_BIT_1 SID_BIT_0) (k - 18) = false)
    by (assert (k = 18 \/ k = 19 \/ k = 20) as [-> | [-> | ->]] by lia; reflexivity).
  assert (H2 : Z.testbit (Z.lor EID_BIT_17 EID_BIT_16) (k - 16) = false)
    by (assert (k = 18 \/ k = 19 \/ k = 20) as [-> | [-> | ->]] by lia; reflexivity).
  rewrite H1, H2. now rewrite !andb_false_r.
Qed.

(* so every extended identifier with SID[2:0] (bits 20:18) not all zero comes
   back as a different number *)
Lemma extended_id_garbled id k :
  18 <= k <= 20 ->
  Z.testbit id k = true ->
  exists id', rx_id_of_registers (tx_id_registers TX_EXTENDED_DATA_FRAME id) = (true, id')
              /\ id' <> id.
Proof.
  intros Hk Hbit. rewrite extended_frame_recognised. eexists. split; [reflexivity|].
  intros Heq. pose proof (rx_extended_id_bits_20_18 id k Hk) as H0.
  rewrite Heq in H0. congruence.
Qed.

(* with SID[2:0] all zero the other 26 bits do come back in place: bit by
   bit, for each of the 32 positions *)
Lemma extended_id_round_trip id :
  0 <= id < 2 ^ 29 ->
  Z.land id 0x1C0000 = 0 ->
  rx_extended_id (0 :: tx_id_registers TX_EXTENDED_DATA_FRAME id) = id.
Proof.
  intros Hid Hsid.
  assert (H18 : Z.testbit id 18 = false)
    by (pose proof (f_equal (fun x => Z.testbit x 18) Hsid) as H; cbv beta in H;
        rewrite Z.land_spec in H; change (Z.testbit 0x1C0000 18) with true in H;
        now rewrite andb_true_r in H).
  assert (H19 : Z.testbit id 19 = false)
    by (pose proof (f_equal (fun x => Z.testbit x 19) Hsid) as H; cbv beta in H;
        rewrite Z.land_spec in H; change (Z.testbit 0x1C0000 19) with true in H;
        now rewrite andb_true_r in H).
  assert (H20 : Z.testbit id 20 = false)
    by (pose proof (f_equal (fun x => Z.testbit x 20) Hsid) as H; cbv beta in H;
        rewrite Z.land_spec in H; change (Z.testbit 0x1C0000 20) with true in H;
        now rewrite andb_true_r in H).
  assert (Hhigh : forall n, 29 <= n -> Z.testbit id n = false).
  { intros n Hn. rewrite <- (Z.mod_small id (2 ^ 29)) by lia.
    apply Z.mod_pow2_bits_high; lia. }
  unfold tx_id_registers.
  change ((TX_EXTENDED_DATA_FRAME =? TX_EXTENDED_DATA_FRAME)
          || (TX_EXTENDED_DATA_FRAME =? TX_EXTENDED_REMOTE_FRAME)) with true.
  cbv iota. unfold id_registers, rx_extended_id. cbn [upd nth].
  unfold lor3, SID_BIT_2, SID_BIT_1, SID_BIT_0, EID_BIT_17, EID_BIT_16,
         EXIDE_MSG_TRANSMIT_EXTENDED_ID.
  apply Z.bits_inj'. intros n Hn.
  destruct (Z_lt_le_dec n 32) as [Hlt | Hge].
  - revert n Hn Hlt.
    match goal with
    | |- forall n, _ -> _ -> @?P n =>
        intros n Hn Hlt; apply (each_below_spec 32 P); [|lia]
    end.
    cbn [each_below Z.of_nat Pos.of_succ_nat Pos.succ]. cbv beta.
    repeat split;
      repeat bit_step; bit_norm;
      rewrite ?H18, ?H19, ?H20, ?(Hhigh 29), ?(Hhigh 30), ?(Hhigh 31) by lia;
      cbn [orb andb];
      repeat first [ rewrite orb_false_r | rewrite orb_false_l | rewrite andb_true_r
                   | rewrite andb_false_r ];
      reflexivity.
  - rewrite !Z.lor_spec, !testbit_u32_high by lia.
    rewrite testbit_u8_high by lia. rewrite Hhigh by lia. reflexivity.
Qed.

Lemma mask_20_18_bits n : Z.testbit 0x1C0000 n = true -> 18 <= n <= 20.
Proof.
  change 0x1C0000 with (Z.shiftl 7 18). intros H.
  destruct (Z_lt_le_dec n 18) as [Hlt | Hge];
    [rewrite Z.shiftl_spec_low in H by lia; discriminate|].
  rewrite Z.shiftl_spec in H by lia.
  destruct (Z_lt_le_dec (n - 18) 3) as [Hlt | Hge3]; [lia|].
  change 7 with (7 mod 2 ^ 3) in H.
  rewrite Z.mod_pow2_bits_high in H by lia. discriminate.
Qed.

(* An extended identifier survives the trip through the ID registers exactly
   when SID[2:0], its bits 20:18, are all zero. *)
Lemma extended_id_round_trip_iff id :
  0 <= id < 2 ^ 29 ->
  rx_id_of_registers (tx_id_registers TX_EXTENDED_DATA_FRAME id) = (true, id)
  <-> Z.land id 0x1C0000 = 0.
Proof.
  intros Hid. rewrite extended_frame_recognised. split.
  - intros Heq. injection Heq as Heq.
    apply Z.bits_inj'. intros n Hn. rewrite Z.land_spec, Z.bits_0.
    destruct (Z.testbit 0x1C0000 n) eqn:Hm; [|apply andb_false_r].
    apply mask_20_18_bits in Hm.
    rewrite <- Heq, rx_extended_id_bits_20_18 by exact Hm. reflexivity.
  - intros Hsid. now rewrite extended_id_round_trip.
Qed.

(** C1 (the code breaks the round trip): packing an extended identifier in
    CAN_Control_Send_CAN_Frame and unpacking it in CAN_Control_Read_CAN_Frame
    does not return the identifier.  For 0x1D0CAFC8, the extended identifier
    main.c transmits, the frame is recognised as extended but the identifier
    read back is 0x1D80AFC8: the receive path shifts SIDL.SID[2:0] left by 18,
    to bits 25:23, where the transmit path had taken it from bits 20:18 with
    a right shift by 13. *)
Theorem C1_extended_id_round_trip_fails :
  tx_id_registers TX_EXTENDED_DATA_FRAME 0x1D0CAFC8 = [0xE8; 0x68; 0xAF; 0xC8] /\
  rx_id_of_registers (tx_id_registers TX_EXTENDED_DATA_FRAME 0x1D0CAFC8)
  = (true, 0x1D80AFC8) /\
  rx_id_of_registers (tx_id_registers TX_EXTENDED_DATA_FRAME 0x1D0CAFC8)
  <> (true, 0x1D0CAFC8).
Proof.
  split; [reflexivity|]. split; [reflexivity|]. vm_compute. discriminate.
Qed.

(** ** Transmit status (claims C2 and C10) *)

Lemma tx_state_of_table v : 0 <= v < 256 -> tx_state_of v = tx_state_table v.
Proof.
  intros Hv. apply Z.eqb_eq.
  apply (all_below_spec 256 (fun x => tx_state_of x =? tx_state_table x));
    [vm_compute; reflexivity | exact Hv].
Qed.

Lemma incoming_one s p : incoming s p (Z.to_nat 1) = [u8 (miso s p (rxcount s p))].
Proof. reflexivity. Qed.

(* a query that names one of the three buffers *)
Lemma tx_status_run s spi_read tx_buffer p :
  periph_of (hcan s) = Some p ->
  tx_buffer = TXB0 \/ tx_buffer = TXB1 \/ tx_buffer = TXB2 ->
  CAN_Control_TX_CAN_Status spi_read tx_buffer s =
  (tx_state_table (u8 (miso s p (rxcount s p))),
   read_board s (TXBnCTRL_REG_of tx_buffer) 1).
Proof.
  intros Hp Hb.
  assert (Hdec : forall r, nth 0 (read_result s [spi_read] 1) r = u8 (miso s p (rxcount s p)))
    by (intros r; unfold read_result; rewrite Hp, incoming_one; reflexivity).
  unfold CAN_Control_TX_CAN_Status.
  destruct Hb as [-> | [-> | ->]].
  - change (TXB0 <=? TXB2) with true. change (TXB0 =? TXB0) with true. cbv iota.
    run. rewrite Register_Read_run. cbn [fst snd]. rewrite Hdec.
    now rewrite tx_state_of_table by apply u8_range.
  - change (TXB1 <=? TXB2) with true. change (TXB1 =? TXB0) with false.
    change (TXB1 =? TXB1) with true. cbv iota.
    run. rewrite Register_Read_run. cbn [fst snd]. rewrite Hdec.
    now rewrite tx_state_of_table by apply u8_range.
  - change (TXB2 <=? TXB2) with true. change (TXB2 =? TXB0) with false.
    change (TXB2 =? TXB1) with false. change (TXB2 =? TXB2) with true. cbv iota.
    run. rewrite Register_Read_run. cbn [fst snd]. rewrite Hdec.
    now rewrite tx_state_of_table by apply u8_range.
Qed.

(** C2: with TXB0, TXB1 or TXB2 as the buffer, CAN_Control_TX_CAN_Status reads
    the one byte TXBnCTRL of that buffer in a single READ frame and returns
    what the specification's table gives for it: aborted when ABTF is set;
    otherwise, when TXREQ is set, bus error and lost arbitration when TXERR
    and MLOA are both set, bus error for TXERR alone, lost arbitration for
    MLOA alone, pending for neither; success in every other case. *)
Theorem C2_tx_status_decodes_TXBnCTRL s spi_read tx_buffer p :
  periph_of (hcan s) = Some p ->
  tx_buffer = TXB0 \/ tx_buffer = TXB1 \/ tx_buffer = TXB2 ->
  let ctrl := u8 (miso s p (rxcount s p)) in
  trace (exec (CAN_Control_TX_CAN_Status spi_read tx_buffer) s) =
    trace s ++ read_frame (Some p) (TXBnCTRL_REG_of tx_buffer) [ctrl] /\
  result (CAN_Control_TX_CAN_Status spi_read tx_buffer) s = tx_state_table ctrl.
Proof.
  intros Hp Hb ctrl. unfold exec, result.
  rewrite (tx_status_run s spi_read tx_buffer p Hp Hb). cbn [fst snd].
  split; [|reflexivity].
  now rewrite (trace_read_board s _ 1 p Hp), incoming_one.
Qed.

(* TXB1CTRL reads 0x38: TXREQ, TXERR and MLOA set, ABTF clear *)
Lemma C2_witness :
  result (CAN_Control_TX_CAN_Status 0 TXB1) (board_with [0x38])
  = TX_BUS_ERROR_AND_LOST_ARBITRATION.
Proof.
  apply (proj2 (C2_tx_status_decodes_TXBnCTRL (board_with [0x38]) 0 TXB1 SPI1
                  eq_refl (or_intror (or_introl eq_refl)))).
Defined.

(** C10: CAN_Control_TX_CAN_Status has a result fixed by the controller only
    for TXB0 (0x01), TXB1 (0x02) and TXB2 (0x04).  For tx_buffer 0x00 or 0x03
    the guard tx_buffer <= TXB2 passes, no case of the switch reads a
    register, nothing is sent or awaited, and the state returned is decoded
    from whatever the uninitialised local spi_read held: success for 0x00,
    aborted for 0x40, pending for 0x08.  For every tx_buffer above 0x04
    there is no SPI access either and TX_PENDING (0x00) is returned. *)
Theorem C10_tx_status_buffer_precondition s spi_read tx_buffer :
  0 <= spi_read < 256 ->
  (tx_buffer = TXB0 \/ tx_buffer = TXB1 \/ tx_buffer = TXB2 ->
   forall p other, periph_of (hcan s) = Some p ->
     result (CAN_Control_TX_CAN_Status spi_read tx_buffer) s =
     result (CAN_Control_TX_CAN_Status other tx_buffer) s) /\
  (tx_buffer = 0x00 \/ tx_buffer = 0x03 ->
   CAN_Control_TX_CAN_Status spi_read tx_buffer s = (tx_state_table spi_read, s)) /\
  (0x04 < tx_buffer ->
   CAN_Control_TX_CAN_Status spi_read tx_buffer s = (TX_PENDING, s)) /\
  tx_state_table 0x00 = TX_SUCCESS /\
  tx_state_table 0x40 = TX_ABORTED /\
  tx_state_table 0x08 = TX_PENDING.
Proof.
  intros Hr. repeat split.
  - intros Hb p other Hp. unfold result.
    now rewrite !(tx_status_run s _ tx_buffer p Hp Hb).
  - intros [-> | ->]; unfold CAN_Control_TX_CAN_Status.
    + change (0x00 <=? TXB2) with true. change (0x00 =? TXB0) with false.
      change (0x00 =? TXB1) with false. change (0x00 =? TXB2) with false. cbv iota.
      run. now rewrite tx_state_of_table.
    + change (0x03 <=? TXB2) with true. change (0x03 =? TXB0) with false.
      change (0x03 =? TXB1) with false. change (0x03 =? TXB2) with false. cbv iota.
      run. now rewrite tx_state_of_table.
  - intros Hgt. unfold CAN_Control_TX_CAN_Status.
    replace (tx_buffer <=? TXB2) with false
      by (symmetry; apply Z.leb_gt; unfold TXB2; lia).
    now run.
Qed.

(* tx_buffer 0x03 (TXB0 | TXB1) with 0x40 left in the local: "aborted",
   although nothing was read *)
Lemma C10_witness :
  CAN_Control_TX_CAN_Status 0x40 0x03 (board_with []) = (TX_ABORTED, board_with []).
Proof.
  apply (proj1 (proj2 (C10_tx_status_buffer_precondition (board_with []) 0x40 0x03
                         ltac:(lia)))).
  right; reflexivity.
Defined.

(** ** Reset (claim C8) *)

Lemma Reset_run s :
  CAN_Control_Reset s =
  (tt, log s (framed (periph_of (hcan s)) (fun p => [EvWrite p [RESET_INS]]) ++ [EvDelay 16])).
Proof.
  unfold CAN_Control_Reset, framed.
  change (u8 (GET_OST OSC1_FREQ)) with 16.
  rewrite bind_run; cbn [get_hcan fst snd].
  by_periph s.
  - rewrite Hspi. now run.
  - rewrite Hspi, Hspi0. now run.
  - rewrite Hspi, Hspi0. now run.
Qed.

(** C8 as stated fails: with the handle of main.c the last delay of
    CAN_Control_Reset is not the 16 ms (16000 us) the specification states
    for 8 MHz. *)
Lemma C8_counterexample :
  trace (exec CAN_Control_Reset (board_with [])) <> reset_sequence SPI1 16000.
Proof. vm_compute. discriminate. Qed.

(** C8, amended: for a handle on CAN_SPI1 or CAN_SPI2, CAN_Control_Reset
    writes the single byte RESET (0xC0) in one chip-select frame, delays
    50 us, then delays OST = 128_000_000 / osc_hz us, which for the 8 MHz of
    OSC1_FREQ is 16 us. *)
Theorem C8_reset_sequence s p :
  periph_of (hcan s) = Some p ->
  trace (exec CAN_Control_Reset s) = trace s ++ reset_sequence p (GET_OST OSC1_FREQ) /\
  RESET_INS = 0xC0 /\
  GET_OST OSC1_FREQ = 128000000 / 8000000 /\
  GET_OST OSC1_FREQ = 16.
Proof.
  intros Hp. unfold exec. rewrite Reset_run, Hp. repeat split.
Qed.

Lemma C8_witness :
  trace (exec CAN_Control_Reset (board_with [])) = reset_sequence SPI1 16.
Proof.
  apply (proj1 (C8_reset_sequence (board_with []) SPI1 eq_refl)).
Defined.

(** ** Bit timing (claim C6) *)

(** C6: for each of the five supported rates CAN_Control_Set_Baud_Rate writes
    exactly three bytes, CNF3, CNF2, CNF1 in that order, in one WRITE frame at
    the CNF3 address.  They encode the planner's row for the rate (500k: BRP 0,
    PropSeg 2, PS1 2, PS2 3; 250k: 0, 4, 5, 6; 125k: 1, 3, 6, 6; 100k: 1, 6, 6,
    7; 50k: 3, 6, 6, 7; SJW 1 throughout): CNF3 carries the handle's wake-up
    filter bit beside PS2, CNF2 carries BTLMODE = 1 and the handle's sample
    point selector beside PS1 and PropSeg, CNF1 holds SJW and BRP.  Each row
    gives its nominal rate on an 8 MHz oscillator. *)
Theorem C6_baud_rate_registers s baud t p :
  periph_of (hcan s) = Some p ->
  planner baud = Some t ->
  trace (exec (CAN_Control_Set_Baud_Rate baud) s) =
    trace s ++ write_frame (Some p) CNF3_REG
                 [ u8 (CNF3_of t (wakeupfilter (hcan s)));
                   u8 (CNF2_of t (samplepoint (hcan s)));
                   u8 (CNF1_of t) ] /\
  SJW t = 1 /\
  bit_rate 8000000 t = baud.
Proof.
  intros Hp Ht. unfold planner in Ht.
  destruct (Z.eqb_spec baud 500000) as [->|_];
  [|destruct (Z.eqb_spec baud 250000) as [->|_];
  [|destruct (Z.eqb_spec baud 125000) as [->|_];
  [|destruct (Z.eqb_spec baud 100000) as [->|_];
  [|destruct (Z.eqb_spec baud 50000) as [->|_]; [|discriminate]]]]];
  injection Ht as <-;
  (split; [|split; reflexivity]);
  unfold exec, CAN_Control_Set_Baud_Rate;
  rewrite bind_run; cbn [get_hcan fst snd].
  - change (500000 =? CAN_BAUD_500_KBPS) with true. cbv iota.
    rewrite Register_Write_run, Hp. reflexivity.
  - change (250000 =? CAN_BAUD_500_KBPS) with false.
    change (250000 =? CAN_BAUD_250_KBPS) with true. cbv iota.
    rewrite Register_Write_run, Hp. reflexivity.
  - change (125000 =? CAN_BAUD_500_KBPS) with false.
    change (125000 =? CAN_BAUD_250_KBPS) with false.
    change (125000 =? CAN_BAUD_125_KBPS) with true. cbv iota.
    rewrite Register_Write_run, Hp. reflexivity.
  - change (100000 =? CAN_BAUD_500_KBPS) with false.
    change (100000 =? CAN_BAUD_250_KBPS) with false.
    change (100000 =? CAN_BAUD_125_KBPS) with false.
    change (100000 =? CAN_BAUD_100_KBPS) with true. cbv iota.
    rewrite Register_Write_run, Hp. reflexivity.
  - change (50000 =? CAN_BAUD_500_KBPS) with false.
    change (50000 =? CAN_BAUD_250_KBPS) with false.
    change (50000 =? CAN_BAUD_125_KBPS) with false.
    change (50000 =? CAN_BAUD_100_KBPS) with false.
    change (50000 =? CAN_BAUD_50_KBPS) with true. cbv iota.
    rewrite Register_Write_run, Hp. reflexivity.
Qed.

(* 125 kbit/s with the handle of main.c: CNF3 = 0x05, CNF2 = 0xAA, CNF1 = 0x01 *)
Lemma C6_witness :
  trace (exec (CAN_Control_Set_Baud_Rate 125000) (board_with [])) =
  [EvCS_Enable SPI1; EvWrite SPI1 [0x02]; EvWrite SPI1 [0x28];
   EvWrite SPI1 [0x05; 0xAA; 0x01]; EvCS_Disable SPI1; EvDelay 50].
Proof.
  apply (proj1 (C6_baud_rate_registers (board_with []) 125000 (mkTiming 1 3 6 6 1) SPI1
                  eq_refl eq_refl)).
Defined.

(** ** Transmission (claims C3, C5 and C7) *)

Lemma u32_small x : 0 <= x < 4294967296 -> u32 x = x.
Proof. unfold u32; apply Z.mod_small. Qed.

Lemma bit_time_bounds b : 0 < b -> 0 <= 1000000 / b <= 1000000.
Proof.
  intros Hb. split.
  - apply Z.div_pos; lia.
  - apply Z.div_le_upper_bound; nia.
Qed.

(* the macros of can.h compute the specification's formulas without wrapping *)
Lemma wait_standard_data d b :
  0 <= d < 256 -> 0 < b ->
  mul32 (add32 (add32 (mul32 8 d) 44) (add32 33 (mul32 8 d) / 4)) (1000000 / b)
  = (8 * d + 44 + (33 + 8 * d) / 4) * (1000000 / b).
Proof.
  intros Hd Hb. pose proof (bit_time_bounds b Hb) as Hq.
  unfold mul32, add32.
  rewrite (u32_small (8 * d)) by lia.
  rewrite (u32_small (8 * d + 44)) by lia.
  rewrite (u32_small (33 + 8 * d)) by lia.
  assert (0 <= (33 + 8 * d) / 4 <= 518) by (Z.div_mod_to_equations; lia).
  rewrite (u32_small (8 * d + 44 + _)) by lia.
  apply u32_small. nia.
Qed.

Lemma wait_extended_data d b :
  0 <= d < 256 -> 0 < b ->
  mul32 (add32 (add32 (mul32 8 d) 64) (add32 53 (mul32 8 d) / 4)) (1000000 / b)
  = (8 * d + 64 + (53 + 8 * d) / 4) * (1000000 / b).
Proof.
  intros Hd Hb. pose proof (bit_time_bounds b Hb) as Hq.
  unfold mul32, add32.
  rewrite (u32_small (8 * d)) by lia.
  rewrite (u32_small (8 * d + 64)) by lia.
  rewrite (u32_small (53 + 8 * d)) by lia.
  assert (0 <= (53 + 8 * d) / 4 <= 523) by (Z.div_mod_to_equations; lia).
  rewrite (u32_small (8 * d + 64 + _)) by lia.
  apply u32_small. nia.
Qed.

Lemma wait_remote k b :
  0 <= k <= 73 -> 0 < b -> mul32 k (1000000 / b) = k * (1000000 / b).
Proof.
  intros Hk Hb. pose proof (bit_time_bounds b Hb) as Hq.
  unfold mul32. apply u32_small. nia.
Qed.

Lemma tx_id_registers_shape frametype id :
  exists a b c d, tx_id_registers frametype id = [a; b; c; d].
Proof.
  unfold tx_id_registers, id_registers.
  destruct ((frametype =? TX_EXTENDED_DATA_FRAME) || (frametype =? TX_EXTENDED_REMOTE_FRAME));
    cbn [upd nth]; repeat eexists.
Qed.

Lemma frametype_cases ft :
  0 <= ft <= 3 ->
  ft = TX_STANDARD_DATA_FRAME \/ ft = TX_EXTENDED_DATA_FRAME \/
  ft = TX_STANDARD_REMOTE_FRAME \/ ft = TX_EXTENDED_REMOTE_FRAME.
Proof.
  unfold TX_STANDARD_DATA_FRAME, TX_EXTENDED_DATA_FRAME,
         TX_STANDARD_REMOTE_FRAME, TX_EXTENDED_REMOTE_FRAME. lia.
Qed.

(* one TX block, whatever the peripheral *)
Lemma send_TXBn_run txcan n TXBn SIDH D0 CTRL s :
  tx_buffer_ok txcan n TXBn ->
  0 < baudrate (hcan s) ->
  send_TXBn txcan n TXBn SIDH D0 CTRL s =
  (tt, log s (tx_buffer_events (periph_of (hcan s)) txcan (baudrate (hcan s))
                               n TXBn SIDH D0 CTRL)).
Proof.
  intros Hok Hb. unfold send_TXBn, tx_buffer_events.
  destruct (selected (txbuffernmbr txcan) TXBn) eqn:Hsel; [|now rewrite log_nil].
  destruct (Hok Hsel) as [Hft Hdl]. clear Hok.
  set (ft := nth n (txframetype txcan) 0) in *.
  set (dl := nth n (tx_datalength txcan) 0) in *.
  destruct (tx_id_registers_shape ft (nth n (txid txcan) 0)) as (a & b & c & d & Hid).
  rewrite Hid. unfold dlc_register, is_remote, on_bus_us.
  destruct (frametype_cases ft Hft) as [-> | [-> | [-> | ->]]];
    cbn [Z.eqb TX_STANDARD_DATA_FRAME TX_EXTENDED_DATA_FRAME TX_STANDARD_REMOTE_FRAME
         TX_EXTENDED_REMOTE_FRAME Pos.eqb orb app upd];
    repeat first
      [ rewrite bind_run | rewrite Register_Write_run | rewrite emit_run | rewrite log_log
      | progress cbn [fst snd hcan log]
      | progress unfold WAIT_SEND_STANDARD_DATA_FRAME, WAIT_SEND_EXTENDED_DATA_FRAME,
                        WAIT_SEND_STANDARD_REMOTE_FRAME, WAIT_SEND_EXTENDED_REMOTE_FRAME,
                        TIM3_Delay_us, get_hcan ];
    change (Z.to_nat 5) with 5%nat; change (Z.to_nat 1) with 1%nat; cbn [firstn];
    rewrite ?(wait_standard_data dl _ Hdl Hb), ?(wait_extended_data dl _ Hdl Hb),
            ?(wait_remote 50 _ ltac:(lia) Hb), ?(wait_remote 73 _ ltac:(lia) Hb);
    repeat rewrite <- app_assoc; reflexivity.
Qed.

Lemma Send_run txcan s :
  tx_ok txcan ->
  0 < baudrate (hcan s) ->
  CAN_Control_Send_CAN_Frame txcan s =
  (tt, log s (send_events (periph_of (hcan s)) txcan (baudrate (hcan s)))).
Proof.
  intros (H0 & H1 & H2) Hb. unfold CAN_Control_Send_CAN_Frame, send_events.
  rewrite bind_run, (send_TXBn_run txcan 0) by auto. cbn [fst snd].
  rewrite bind_run, (send_TXBn_run txcan 1) by auto. cbn [fst snd].
  rewrite (send_TXBn_run txcan 2) by auto.
  now rewrite !log_log, !hcan_log.
Qed.

(** C7: for every selected TX buffer the last thing its block does, right
    after the write that sets TXREQ, is to wait the worst-case time on the
    bus: (8 dlc + 44 + (33 + 8 dlc) / 4) (1000000 / baud) us for a standard
    data frame, (8 dlc + 64 + (53 + 8 dlc) / 4) (1000000 / baud) us for an
    extended data frame, 50 (1000000 / baud) us for a standard remote frame
    and 73 (1000000 / baud) us for an extended remote frame; the 32-bit
    arithmetic of the macros never wraps, so these are exact integers. *)
Theorem C7_worst_case_wait s txcan p :
  periph_of (hcan s) = Some p ->
  tx_ok txcan ->
  0 < baudrate (hcan s) ->
  let baud := baudrate (hcan s) in
  exec (CAN_Control_Send_CAN_Frame txcan) s = log s (send_events (Some p) txcan baud) /\
  (forall n TXBn SIDH D0 CTRL,
     selected (txbuffernmbr txcan) TXBn = true ->
     exists load,
       tx_buffer_events (Some p) txcan baud n TXBn SIDH D0 CTRL =
       load ++ write_frame (Some p) CTRL [TXREQ_PENDING] ++
       [EvDelay (on_bus_us (nth n (txframetype txcan) 0)
                           (nth n (tx_datalength txcan) 0) baud)]) /\
  (forall d,
     on_bus_us TX_STANDARD_DATA_FRAME d baud = (8 * d + 44 + (33 + 8 * d) / 4) * (1000000 / baud) /\
     on_bus_us TX_EXTENDED_DATA_FRAME d baud = (8 * d + 64 + (53 + 8 * d) / 4) * (1000000 / baud) /\
     on_bus_us TX_STANDARD_REMOTE_FRAME d baud = 50 * (1000000 / baud) /\
     on_bus_us TX_EXTENDED_REMOTE_FRAME d baud = 73 * (1000000 / baud)).
Proof.
  intros Hp Hok Hb baud. split; [|split].
  - unfold exec. rewrite Send_run by assumption. now rewrite Hp.
  - intros n TXBn SIDH D0 CTRL Hsel. unfold tx_buffer_events. rewrite Hsel.
    eexists. rewrite app_assoc. reflexivity.
  - intros d. repeat split.
Qed.

(* main.c at 125 kbit/s: 576 us for TXB0, 1016 us for TXB1, 584 us for TXB2;
   and a length of 10 in TXB2: ten payload bytes are sent and the wait is
   that of the formula at dlc = 10, 1216 us *)
Lemma C7_witness :
  exec (CAN_Control_Send_CAN_Frame CAN1_TX) (board_with []) =
  log (board_with []) (send_events (Some SPI1) CAN1_TX 125000) /\
  on_bus_us TX_STANDARD_DATA_FRAME 2 125000 = 576 /\
  on_bus_us TX_EXTENDED_DATA_FRAME 5 125000 = 1016 /\
  on_bus_us TX_EXTENDED_REMOTE_FRAME 8 125000 = 584 /\
  trace (exec (CAN_Control_Send_CAN_Frame TX_dlc10) (board_with [])) =
  [ EvCS_Enable SPI1; EvWrite SPI1 [0x02]; EvWrite SPI1 [0x51];
    EvWrite SPI1 [0xAA; 0xA0; 0; 0; 10]; EvCS_Disable SPI1; EvDelay 50;
    EvCS_Enable SPI1; EvWrite SPI1 [0x02]; EvWrite SPI1 [0x56];
    EvWrite SPI1 [1; 2; 3; 4; 5; 6; 7; 8; 0xEE; 0xC8]; EvCS_Disable SPI1; EvDelay 50;
    EvCS_Enable SPI1; EvWrite SPI1 [0x02]; EvWrite SPI1 [0x50];
    EvWrite SPI1 [0x08]; EvCS_Disable SPI1; EvDelay 50;
    EvDelay 1216 ].
Proof.
  split; [|split; [reflexivity|split; [reflexivity|split; [reflexivity|]]]].
  - apply (proj1 (C7_worst_case_wait (board_with []) CAN1_TX SPI1 eq_refl
                    ltac:(cbv - [Z.le Z.lt]; lia) ltac:(reflexivity))).
  - exact (f_equal trace
             (proj1 (C7_worst_case_wait (board_with []) TX_dlc10 SPI1 eq_refl
                       ltac:(cbv - [Z.le Z.lt]; lia) ltac:(reflexivity)))).
Defined.

(* frames of a trace made of WRITE frames and delays *)
Lemma mosi_frames_write_frame p reg_addr bytes rest :
  mosi_frames p (write_frame (Some p) reg_addr bytes ++ rest) =
  (WRITE_INS :: reg_addr :: bytes) :: mosi_frames p rest.
Proof. destruct p; reflexivity. Qed.

Lemma mosi_frames_delay p us rest :
  mosi_frames p (EvDelay us :: rest) = mosi_frames p rest.
Proof. reflexivity. Qed.

Lemma mosi_frames_tx_buffer p txcan baud n TXBn SIDH D0 CTRL rest :
  mosi_frames p (tx_buffer_events (Some p) txcan baud n TXBn SIDH D0 CTRL ++ rest) =
  tx_buffer_frames txcan n TXBn SIDH D0 CTRL ++ mosi_frames p rest.
Proof.
  unfold tx_buffer_events, tx_buffer_frames.
  destruct (selected (txbuffernmbr txcan) TXBn); [|reflexivity].
  destruct (is_remote (nth n (txframetype txcan) 0));
    repeat first [ rewrite mosi_frames_write_frame | rewrite mosi_frames_delay
                 | rewrite <- app_assoc | progress cbn [app] ];
    reflexivity.
Qed.

Lemma mosi_frames_send p txcan baud :
  mosi_frames p (send_events (Some p) txcan baud) =
  tx_buffer_frames txcan 0 TXB0 TXB0SIDH_REG TXB0D0_REG TXB0CTRL_REG ++
  tx_buffer_frames txcan 1 TXB1 TXB1SIDH_REG TXB1D0_REG TXB1CTRL_REG ++
  tx_buffer_frames txcan 2 TXB2 TXB2SIDH_REG TXB2D0_REG TXB2CTRL_REG.
Proof.
  unfold send_events.
  rewrite !mosi_frames_tx_buffer.
  rewrite <- (app_nil_r (tx_buffer_events _ _ _ 2 _ _ _ _)), mosi_frames_tx_buffer.
  now rewrite app_nil_r.
Qed.

Lemma tx_buffer_frames_are_writes txcan n TXBn SIDH D0 CTRL f :
  In f (tx_buffer_frames txcan n TXBn SIDH D0 CTRL) -> hd 0 f = WRITE_INS.
Proof.
  unfold tx_buffer_frames.
  destruct (selected (txbuffernmbr txcan) TXBn); [|intros []].
  destruct (is_remote (nth n (txframetype txcan) 0)); cbn [app In];
    intuition (subst; reflexivity).
Qed.

Lemma tx_buffer_frames_request txcan n TXBn SIDH D0 CTRL :
  selected (txbuffernmbr txcan) TXBn = true ->
  In [WRITE_INS; CTRL; TXREQ_PENDING] (tx_buffer_frames txcan n TXBn SIDH D0 CTRL).
Proof.
  intros Hsel. unfold tx_buffer_frames. rewrite Hsel.
  rewrite !in_app_iff. right; right. now left.
Qed.

(** C3 as stated fails: sending the three frames of main.c issues no BIT
    MODIFY frame on TXB0CTRL, and a controller whose TXB0CTRL held the
    priority bits TXP = 3 before holds TXP = 0 afterwards. *)
Lemma C3_counterexample :
  ~ In [BIT_MODIFY_INS; TXB0CTRL_REG; TXREQ_PENDING; TXREQ_PENDING]
       (mosi_frames SPI1 (trace (exec (CAN_Control_Send_CAN_Frame CAN1_TX) (board_with [])))) /\
  Z.land
    (mcp2515_frames
       (mosi_frames SPI1 (trace (exec (CAN_Control_Send_CAN_Frame CAN1_TX) (board_with []))))
       (fun a => if a =? TXB0CTRL_REG then 0x03 else 0)
       TXB0CTRL_REG)
    (Z.lor TXP_BIT_1 TXP_BIT_0)
  <> 0x03.
Proof.
  split.
  - intros H. vm_compute in H. intuition discriminate.
  - vm_compute. discriminate.
Qed.

(** C3, amended: for every selected TX buffer CAN_Control_Send_CAN_Frame
    requests transmission with a register WRITE (opcode 0x02) of the single
    byte TXREQ_PENDING (0x08) to TXBnCTRL.  Every frame the function sends
    is a WRITE, none a BIT MODIFY; the write sets TXREQ and stores 0 in every
    other bit of TXBnCTRL, the TXP priority bits among them. *)
Theorem C3_txreq_by_register_write s txcan p :
  periph_of (hcan s) = Some p ->
  tx_ok txcan ->
  0 < baudrate (hcan s) ->
  exists evs,
    trace (exec (CAN_Control_Send_CAN_Frame txcan) s) = trace s ++ evs /\
    (forall f, In f (mosi_frames p evs) -> hd 0 f = WRITE_INS) /\
    (selected (txbuffernmbr txcan) TXB0 = true ->
     In [WRITE_INS; TXB0CTRL_REG; TXREQ_PENDING] (mosi_frames p evs)) /\
    (selected (txbuffernmbr txcan) TXB1 = true ->
     In [WRITE_INS; TXB1CTRL_REG; TXREQ_PENDING] (mosi_frames p evs)) /\
    (selected (txbuffernmbr txcan) TXB2 = true ->
     In [WRITE_INS; TXB2CTRL_REG; TXREQ_PENDING] (mosi_frames p evs)) /\
    (forall regs CTRL,
       mcp2515_frame [WRITE_INS; CTRL; TXREQ_PENDING] regs CTRL = TXREQ_PENDING) /\
    Z.land TXREQ_PENDING (Z.lor TXP_BIT_1 TXP_BIT_0) = 0.
Proof.
  intros Hp Hok Hb.
  exists (send_events (Some p) txcan (baudrate (hcan s))).
  split; [unfold exec; rewrite Send_run by assumption; now rewrite Hp|].
  rewrite mosi_frames_send.
  split; [|split; [|split; [|split; [|split]]]].
  - intros f Hf. rewrite !in_app_iff in Hf.
    destruct Hf as [Hf | [Hf | Hf]]; eapply tx_buffer_frames_are_writes; eassumption.
  - intros Hsel. rewrite !in_app_iff. left. now apply tx_buffer_frames_request.
  - intros Hsel. rewrite !in_app_iff. right; left. now apply tx_buffer_frames_request.
  - intros Hsel. rewrite !in_app_iff. right; right. now apply tx_buffer_frames_request.
  - intros regs CTRL. cbn. now rewrite Z.eqb_refl.
  - reflexivity.
Qed.

Lemma C3_witness :
  exists evs,
    trace (exec (CAN_Control_Send_CAN_Frame CAN1_TX) (board_with [])) = [] ++ evs /\
    In [0x02; 0x30; 0x08] (mosi_frames SPI1 evs).
Proof.
  destruct (C3_txreq_by_register_write (board_with []) CAN1_TX SPI1 eq_refl
              ltac:(cbv - [Z.le Z.lt]; lia) ltac:(reflexivity))
    as (evs & Htr & _ & H0 & _).
  exists evs. split; [exact Htr | exact (H0 eq_refl)].
Defined.

(** ** Invalid configurations (claim C5) *)

Lemma log_changes s evs : evs <> [] -> log s evs <> s.
Proof.
  intros Hne Heq. apply (f_equal trace) in Heq. cbn [trace log] in Heq.
  rewrite <- (app_nil_r (trace s)) in Heq at 2.
  apply app_inv_head in Heq. contradiction.
Qed.

Lemma write_frame_not_nil o reg_addr bytes rest : write_frame o reg_addr bytes ++ rest <> [].
Proof. destruct o; discriminate. Qed.

Lemma length_tx_memory txcan n size : (size <= length (tx_memory txcan n size))%nat.
Proof.
  unfold tx_memory. rewrite !length_app, length_map, length_seq. lia.
Qed.

Lemma length_tx_payload txcan n :
  length (tx_payload txcan n) = Z.to_nat (nth n (tx_datalength txcan) 0).
Proof.
  unfold tx_payload. rewrite length_firstn.
  pose proof (length_tx_memory txcan n (Z.to_nat (nth n (tx_datalength txcan) 0))). lia.
Qed.

(* the events of each buffer of the table are a segment of the events of the
   call *)
Lemma send_events_segment o txcan baud n TXBn SIDH D0 CTRL :
  In (n, TXBn, SIDH, D0, CTRL) tx_table ->
  exists before after,
    send_events o txcan baud =
    before ++ tx_buffer_events o txcan baud n TXBn SIDH D0 CTRL ++ after.
Proof.
  intros Hin. cbn [In tx_table] in Hin. unfold send_events.
  destruct Hin as [H | [H | [H | []]]]; injection H as <- <- <- <- <-.
  - exists [], (tx_buffer_events o txcan baud 1 TXB1 TXB1SIDH_REG TXB1D0_REG TXB1CTRL_REG ++
                tx_buffer_events o txcan baud 2 TXB2 TXB2SIDH_REG TXB2D0_REG TXB2CTRL_REG).
    reflexivity.
  - exists (tx_buffer_events o txcan baud 0 TXB0 TXB0SIDH_REG TXB0D0_REG TXB0CTRL_REG),
           (tx_buffer_events o txcan baud 2 TXB2 TXB2SIDH_REG TXB2D0_REG TXB2CTRL_REG).
    reflexivity.
  - exists (tx_buffer_events o txcan baud 0 TXB0 TXB0SIDH_REG TXB0D0_REG TXB0CTRL_REG ++
            tx_buffer_events o txcan baud 1 TXB1 TXB1SIDH_REG TXB1D0_REG TXB1CTRL_REG), [].
    now rewrite app_nil_r, app_assoc.
Qed.

(** C5 as stated fails: with TXB0 selected and a DLC of 9,
    CAN_Control_Send_CAN_Frame is no no-op; it writes the DLC byte 9 with the
    identifier, nine payload bytes (one of them from data[1]), sets TXREQ and
    waits. *)
Lemma C5_counterexample :
  trace (exec (CAN_Control_Send_CAN_Frame TX_dlc9) (board_with [])) =
  [ EvCS_Enable SPI1; EvWrite SPI1 [0x02]; EvWrite SPI1 [0x31];
    EvWrite SPI1 [0xAA; 0xA0; 0; 0; 9]; EvCS_Disable SPI1; EvDelay 50;
    EvCS_Enable SPI1; EvWrite SPI1 [0x02]; EvWrite SPI1 [0x36];
    EvWrite SPI1 [1; 2; 3; 4; 5; 6; 7; 8; 0]; EvCS_Disable SPI1; EvDelay 50;
    EvCS_Enable SPI1; EvWrite SPI1 [0x02]; EvWrite SPI1 [0x30];
    EvWrite SPI1 [0x08]; EvCS_Disable SPI1; EvDelay 50;
    EvDelay 1136 ] /\
  exec (CAN_Control_Send_CAN_Frame TX_dlc9) (board_with []) <> board_with [].
Proof.
  split; [vm_compute; reflexivity|].
  intros H. apply (f_equal trace) in H. vm_compute in H. discriminate.
Qed.

(** C5, amended: CAN_Control_Init with a transport selector other than
    CAN_SPI1 / CAN_SPI2, CAN_Control_Set_Baud_Rate with a rate outside
    {50, 100, 125, 250, 500} kbit/s and CAN_Control_Set_Op_Mode with a mode
    outside the five enumerated values leave the board as it was: no SPI
    traffic, no delay.  CAN_Control_Send_CAN_Frame does not check the DLC:
    each of the three buffers, if selected, is loaded, requested and waited
    for whatever its length.  With a DLC above 8 the buffer's events are in
    the trace of the call as for any other length: the ID and DLC burst
    with the DLC byte as given, for a data frame a payload of DLC bytes read
    from data[n][0] on (past the row, and for the last buffer past data[][]
    itself), the TXREQ write and the wait; so the call does have an
    effect. *)
Theorem C5_invalid_configuration s :
  (periph_of (hcan s) = None -> exec CAN_Control_Init s = s) /\
  (forall baud, planner baud = None -> exec (CAN_Control_Set_Baud_Rate baud) s = s) /\
  (forall mode, ~ 0 <= mode <= 4 -> exec (CAN_Control_Set_Op_Mode mode) s = s) /\
  (forall txcan n TXBn TXBnSIDH_REG TXBnD0_REG TXBnCTRL_REG,
     In (n, TXBn, TXBnSIDH_REG, TXBnD0_REG, TXBnCTRL_REG) tx_table ->
     tx_ok txcan -> 0 < baudrate (hcan s) ->
     selected (txbuffernmbr txcan) TXBn = true ->
     8 < nth n (tx_datalength txcan) 0 ->
     let o := periph_of (hcan s) in
     let frametype := nth n (txframetype txcan) 0 in
     let dlc := nth n (tx_datalength txcan) 0 in
     exec (CAN_Control_Send_CAN_Frame txcan) s =
       log s (send_events o txcan (baudrate (hcan s))) /\
     (exists before after,
        send_events o txcan (baudrate (hcan s)) =
        before ++
        write_frame o TXBnSIDH_REG
          (tx_id_registers frametype (nth n (txid txcan) 0) ++ [dlc_register frametype dlc]) ++
        (if is_remote frametype then [] else write_frame o TXBnD0_REG (tx_payload txcan n)) ++
        write_frame o TXBnCTRL_REG [TXREQ_PENDING] ++
        [EvDelay (on_bus_us frametype dlc (baudrate (hcan s)))] ++ after) /\
     length (tx_payload txcan n) = Z.to_nat dlc /\
     exec (CAN_Control_Send_CAN_Frame txcan) s <> s).
Proof.
  split; [|split; [|split]].
  - intros Hnone. unfold exec, CAN_Control_Init.
    rewrite bind_run; cbn [get_hcan fst snd].
    destruct (periph_of_cases (hcan s)) as [[_ Hp] | [[_ [_ Hp]] | [H1 [H2 _]]]];
      try congruence.
    apply Z.eqb_neq in H1, H2. now rewrite H1, H2.
  - intros baud Hnone. unfold planner in Hnone.
    unfold exec, CAN_Control_Set_Baud_Rate.
    rewrite bind_run; cbn [get_hcan fst snd].
    change CAN_BAUD_500_KBPS with 500000. change CAN_BAUD_250_KBPS with 250000.
    change CAN_BAUD_125_KBPS with 125000. change CAN_BAUD_100_KBPS with 100000.
    change CAN_BAUD_50_KBPS with 50000.
    destruct (baud =? 500000); [discriminate|].
    destruct (baud =? 250000); [discriminate|].
    destruct (baud =? 125000); [discriminate|].
    destruct (baud =? 100000); [discriminate|].
    destruct (baud =? 50000); [discriminate|].
    reflexivity.
  - intros mode Hmode. unfold exec, CAN_Control_Set_Op_Mode.
    rewrite bind_run; cbn [get_hcan fst snd].
    replace (mode =? NORMAL_OP_MODE) with false
      by (symmetry; apply Z.eqb_neq; unfold NORMAL_OP_MODE; lia).
    replace (mode =? SLEEP_OP_MODE) with false
      by (symmetry; apply Z.eqb_neq; unfold SLEEP_OP_MODE; lia).
    replace (mode =? LOOPBACK_OP_MODE) with false
      by (symmetry; apply Z.eqb_neq; unfold LOOPBACK_OP_MODE; lia).
    replace (mode =? LISTEN_ONLY_OP_MODE) with false
      by (symmetry; apply Z.eqb_neq; unfold LISTEN_ONLY_OP_MODE; lia).
    replace (mode =? CONFIGURATION_OP_MODE) with false
      by (symmetry; apply Z.eqb_neq; unfold CONFIGURATION_OP_MODE; lia).
    reflexivity.
  - intros txcan n TXBn SIDH D0 CTRL Hin Hok Hb Hsel Hdlc o frametype dlc. unfold exec.
    rewrite Send_run by assumption. cbn [snd]. split; [reflexivity|].
    destruct (send_events_segment o txcan (baudrate (hcan s)) n TXBn SIDH D0 CTRL Hin)
      as (before & after & Hseg).
    unfold tx_buffer_events in Hseg. rewrite Hsel in Hseg.
    fold frametype dlc in Hseg. fold (tx_payload txcan n) in Hseg.
    split; [|split; [apply length_tx_payload|]].
    + exists before, after. rewrite Hseg. now rewrite <- !app_assoc.
    + apply log_changes. fold o. rewrite Hseg. rewrite <- !app_assoc.
      intros Hnil. apply app_eq_nil in Hnil. destruct Hnil as [_ Hnil].
      revert Hnil. apply write_frame_not_nil.
Qed.

(* a handle without transport, an unsupported 1 Mbit/s, mode 5, the DLC of 9
   in TXB0 once more, and a DLC of 10 in TXB2: after the eight bytes of
   data[2] come the padding byte and the low byte of txid[0] *)
Lemma C5_witness :
  exec CAN_Control_Init no_transport = no_transport /\
  exec (CAN_Control_Set_Baud_Rate 1000000) (board_with []) = board_with [] /\
  exec (CAN_Control_Set_Op_Mode 5) (board_with []) = board_with [] /\
  exec (CAN_Control_Send_CAN_Frame TX_dlc9) (board_with []) <> board_with [] /\
  exec (CAN_Control_Send_CAN_Frame TX_dlc10) (board_with []) <> board_with [] /\
  length (tx_payload TX_dlc10 2) = 10%nat /\
  tx_payload TX_dlc10 2 = [1; 2; 3; 4; 5; 6; 7; 8; 0xEE; 0xC8].
Proof.
  split; [|split; [|split; [|split; [|split; [|split]]]]].
  - apply (proj1 (C5_invalid_configuration no_transport)). reflexivity.
  - apply (proj1 (proj2 (C5_invalid_configuration (board_with [])))). reflexivity.
  - apply (proj1 (proj2 (proj2 (C5_invalid_configuration (board_with []))))). lia.
  - apply (proj2 (proj2 (proj2 (C5_invalid_configuration (board_with []))))
             TX_dlc9 0%nat TXB0 TXB0SIDH_REG TXB0D0_REG TXB0CTRL_REG).
    + left; reflexivity.
    + cbv - [Z.le Z.lt]; lia.
    + reflexivity.
    + reflexivity.
    + cbv - [Z.lt]; lia.
  - apply (proj2 (proj2 (proj2 (C5_invalid_configuration (board_with []))))
             TX_dlc10 2%nat TXB2 TXB2SIDH_REG TXB2D0_REG TXB2CTRL_REG).
    + right; right; left; reflexivity.
    + cbv - [Z.le Z.lt]; lia.
    + reflexivity.
    + reflexivity.
    + cbv - [Z.lt]; lia.
  - apply (proj2 (proj2 (proj2 (C5_invalid_configuration (board_with []))))
             TX_dlc10 2%nat TXB2 TXB2SIDH_REG TXB2D0_REG TXB2CTRL_REG).
    + right; right; left; reflexivity.
    + cbv - [Z.le Z.lt]; lia.
    + reflexivity.
    + reflexivity.
    + cbv - [Z.lt]; lia.
  - reflexivity.
Defined.

(** ** The handle is never written (claim C9) *)

Lemma keeps_ret {A} (a : A) : keeps_handle (ret a).
Proof. intros s; reflexivity. Qed.

Lemma keeps_bind {A B} (m : M A) (f : A -> M B) :
  keeps_handle m -> (forall a, keeps_handle (f a)) -> keeps_handle (bind m f).
Proof.
  intros Hm Hf s. rewrite bind_run. now rewrite Hf, Hm.
Qed.

Lemma keeps_get_hcan : keeps_handle get_hcan.
Proof. intros s; reflexivity. Qed.

Lemma keeps_emit e : keeps_handle (emit e).
Proof. intros s; reflexivity. Qed.

Lemma keeps_SPI_Write p data size : keeps_handle (SPI_Write p data size).
Proof. intros s; reflexivity. Qed.

Lemma keeps_SPI_Read p size : keeps_handle (SPI_Read p size).
Proof. intros s; reflexivity. Qed.

Create HintDb handle.
#[local] Hint Resolve keeps_get_hcan keeps_emit keeps_SPI_Write keeps_SPI_Read : handle.
#[local] Hint Extern 1 (keeps_handle (ret _)) => apply keeps_ret : handle.
#[local] Hint Extern 1 (keeps_handle skip) => apply keeps_ret : handle.

(* follow the structure of a driver function down to calls already covered *)
Ltac keeps :=
  cbv zeta;
  repeat match goal with
  | |- keeps_handle (bind _ _) => apply keeps_bind; [|intros]
  | |- keeps_handle (if ?b then _ else _) => destruct b
  | |- keeps_handle _ => solve [auto with handle]
  end.

Lemma keeps_Register_Write a d n : keeps_handle (CAN_Control_Register_Write a d n).
Proof.
  unfold CAN_Control_Register_Write, SPI1_CS_Enable, SPI2_CS_Enable, SPI1_CS_Disable,
         SPI2_CS_Disable, SPI1_Write, SPI2_Write, TIM3_Delay_us. keeps.
Qed.

Lemma keeps_Register_Read a d n : keeps_handle (CAN_Control_Register_Read a d n).
Proof.
  unfold CAN_Control_Register_Read, SPI1_CS_Enable, SPI2_CS_Enable, SPI1_CS_Disable,
         SPI2_CS_Disable, SPI1_Write, SPI2_Write, SPI1_Read, SPI2_Read, TIM3_Delay_us. keeps.
Qed.

Lemma keeps_Register_Bit a m d : keeps_handle (CAN_Control_Register_Bit a m d).
Proof.
  unfold CAN_Control_Register_Bit, SPI1_CS_Enable, SPI2_CS_Enable, SPI1_CS_Disable,
         SPI2_CS_Disable, SPI1_Write, SPI2_Write, TIM3_Delay_us. keeps.
Qed.

#[local] Hint Resolve keeps_Register_Write keeps_Register_Read keeps_Register_Bit : handle.

Lemma keeps_Reset : keeps_handle CAN_Control_Reset.
Proof.
  unfold CAN_Control_Reset, SPI1_CS_Enable, SPI2_CS_Enable, SPI1_CS_Disable,
         SPI2_CS_Disable, SPI1_Write, SPI2_Write, TIM3_Delay_us. keeps.
Qed.

Lemma keeps_Set_Op_Mode m : keeps_handle (CAN_Control_Set_Op_Mode m).
Proof. unfold CAN_Control_Set_Op_Mode. keeps. Qed.

Lemma keeps_Set_Baud_Rate b : keeps_handle (CAN_Control_Set_Baud_Rate b).
Proof. unfold CAN_Control_Set_Baud_Rate. keeps. Qed.

#[local] Hint Resolve keeps_Reset keeps_Set_Op_Mode keeps_Set_Baud_Rate : handle.

Lemma keeps_Set_RX_Mask hmask : keeps_handle (CAN_Control_Set_RX_Mask hmask).
Proof. unfold CAN_Control_Set_RX_Mask. keeps. Qed.

Lemma keeps_set_filter hfilter n a b c : keeps_handle (set_filter hfilter n a b c).
Proof. unfold set_filter. keeps. Qed.

#[local] Hint Resolve keeps_set_filter : handle.

Lemma keeps_Set_RX_Filter hfilter : keeps_handle (CAN_Control_Set_RX_Filter hfilter).
Proof. unfold CAN_Control_Set_RX_Filter. keeps. Qed.

Lemma keeps_Init : keeps_handle CAN_Control_Init.
Proof. unfold CAN_Control_Init, SPI1_Init, SPI2_Init. keeps. Qed.

Lemma keeps_send_TXBn txcan n a b c d : keeps_handle (send_TXBn txcan n a b c d).
Proof.
  unfold send_TXBn, WAIT_SEND_STANDARD_DATA_FRAME, WAIT_SEND_EXTENDED_DATA_FRAME,
         WAIT_SEND_STANDARD_REMOTE_FRAME, WAIT_SEND_EXTENDED_REMOTE_FRAME, TIM3_Delay_us.
  keeps.
Qed.

#[local] Hint Resolve keeps_send_TXBn : handle.

Lemma keeps_Send txcan : keeps_handle (CAN_Control_Send_CAN_Frame txcan).
Proof. unfold CAN_Control_Send_CAN_Frame. keeps. Qed.

Lemma keeps_read_data a n rxcan : keeps_handle (read_data a n rxcan).
Proof. unfold read_data. keeps. Qed.

#[local] Hint Resolve keeps_read_data : handle.

Lemma keeps_read_RXB0 spi_read rxcan : keeps_handle (read_RXB0 spi_read rxcan).
Proof. unfold read_RXB0. keeps. Qed.

Lemma keeps_read_RXB1 spi_read rxcan : keeps_handle (read_RXB1 spi_read rxcan).
Proof. unfold read_RXB1. keeps. Qed.

#[local] Hint Resolve keeps_read_RXB0 keeps_read_RXB1 : handle.

Lemma keeps_Read spi_read rxcan : keeps_handle (CAN_Control_Read_CAN_Frame spi_read rxcan).
Proof. unfold CAN_Control_Read_CAN_Frame. keeps. Qed.

Lemma keeps_TX_Status spi_read b : keeps_handle (CAN_Control_TX_CAN_Status spi_read b).
Proof. unfold CAN_Control_TX_CAN_Status. keeps. Qed.

Lemma keeps_TX_Abort b : keeps_handle (CAN_Control_TX_CAN_Abort b).
Proof. unfold CAN_Control_TX_CAN_Abort. keeps. Qed.

Lemma keeps_TX_Abort_All : keeps_handle CAN_Control_TX_CAN_Abort_All.
Proof. unfold CAN_Control_TX_CAN_Abort_All. keeps. Qed.

Lemma keeps_INT_Status j : keeps_handle (CAN_Control_INT_Status j).
Proof. unfold CAN_Control_INT_Status. keeps. Qed.

Lemma keeps_ERR_Status j : keeps_handle (CAN_Control_ERR_Status j).
Proof. unfold CAN_Control_ERR_Status. keeps. Qed.

Lemma keeps_Enable_INT i : keeps_handle (CAN_Control_Enable_INT i).
Proof. unfold CAN_Control_Enable_INT. keeps. Qed.

Lemma keeps_Clear_INT_Status i : keeps_handle (CAN_Control_Clear_INT_Status i).
Proof. unfold CAN_Control_Clear_INT_Status. keeps. Qed.

Lemma keeps_Clear_ERR_Status e : keeps_handle (CAN_Control_Clear_ERR_Status e).
Proof. unfold CAN_Control_Clear_ERR_Status. keeps. Qed.

Lemma run_call_hcan c s : hcan (run_call c s) = hcan s.
Proof.
  destruct c; cbn [run_call]; unfold exec.
  - exact (keeps_Init s).
  - exact (keeps_Reset s).
  - exact (keeps_Set_Op_Mode _ s).
  - exact (keeps_Set_Baud_Rate _ s).
  - exact (keeps_Set_RX_Mask _ s).
  - exact (keeps_Set_RX_Filter _ s).
  - exact (keeps_Register_Write _ _ _ s).
  - exact (keeps_Register_Read _ _ _ s).
  - exact (keeps_Register_Bit _ _ _ s).
  - exact (keeps_Send _ s).
  - exact (keeps_Read _ _ s).
  - exact (keeps_TX_Status _ _ s).
  - exact (keeps_TX_Abort _ s).
  - exact (keeps_TX_Abort_All s).
  - exact (keeps_Enable_INT _ s).
  - exact (keeps_INT_Status _ s).
  - exact (keeps_Clear_INT_Status _ s).
  - exact (keeps_ERR_Status _ s).
  - exact (keeps_Clear_ERR_Status _ s).
Qed.

(** C9: every driver operation leaves every field of the handle as it was,
    and so does any sequence of them, CAN_Control_Init included.  No call
    changes the opmode field; CAN_Control_Set_Op_Mode itself only writes
    CANCTRL and leaves opmode alone as well. *)
Theorem C9_handle_preserved (calls : list driver_call) (s : board) :
  hcan (run_calls calls s) = hcan s /\
  opmode (hcan (run_calls calls s)) = opmode (hcan s) /\
  (forall c, hcan (run_call c s) = hcan s) /\
  (forall m, opmode (hcan (run_call (Set_Op_Mode m) s)) = opmode (hcan s)).
Proof.
  assert (Hall : forall cs s0, hcan (run_calls cs s0) = hcan s0).
  { induction cs as [|c cs IH]; intros s0; [reflexivity|].
    unfold run_calls in *. cbn [fold_left]. now rewrite IH, run_call_hcan. }
  split; [apply Hall|]. split; [now rewrite Hall|].
  split; intros; now rewrite run_call_hcan.
Qed.

(** ** Reception from RXB1 (claim C4) *)

Lemma length_upd {A} n (v : A) l : length (upd n v l) = length l.
Proof.
  revert n; induction l as [|x l IH]; intros [|n]; cbn [upd length]; auto.
Qed.

Lemma nth_upd {A} n (v d : A) l : (n < length l)%nat -> nth n (upd n v l) d = v.
Proof.
  revert n; induction l as [|x l IH]; intros [|n] Hn; cbn [upd nth length] in *;
    try lia; auto.
  apply IH; lia.
Qed.

(** ** Where received bytes are stored *)

Lemma poke_rx_fields off b r :
  rxbuffernmbr (poke_rx off b r) = rxbuffernmbr r /\
  rxframetype (poke_rx off b r) = rxframetype r /\
  rx_datalength (poke_rx off b r) = rx_datalength r /\
  accfilter (poke_rx off b r) = accfilter r /\
  rolloverstatus (poke_rx off b r) = rolloverstatus r.
Proof. unfold poke_rx. destruct (off <? 16)%nat; repeat split. Qed.

Lemma store_rx_data_fields n bytes r :
  rxbuffernmbr (store_rx_data n bytes r) = rxbuffernmbr r /\
  rxframetype (store_rx_data n bytes r) = rxframetype r /\
  rx_datalength (store_rx_data n bytes r) = rx_datalength r /\
  accfilter (store_rx_data n bytes r) = accfilter r /\
  rolloverstatus (store_rx_data n bytes r) = rolloverstatus r.
Proof.
  unfold store_rx_data. generalize (combine (seq 0 (length bytes)) bytes).
  intros l. revert r.
  induction l as [|kb l IH]; intros r; cbn [fold_left]; [repeat split|].
  destruct (IH (poke_rx (8 * n + fst kb) (snd kb) r)) as (H1 & H2 & H3 & H4 & H5).
  destruct (poke_rx_fields (8 * n + fst kb) (snd kb) r) as (P1 & P2 & P3 & P4 & P5).
  repeat split; congruence.
Qed.

Lemma store_rx_data_nmbr n bytes r :
  rxbuffernmbr (store_rx_data n bytes r) = rxbuffernmbr r.
Proof. apply store_rx_data_fields. Qed.

Lemma store_rx_data_frametype n bytes r :
  rxframetype (store_rx_data n bytes r) = rxframetype r.
Proof. apply store_rx_data_fields. Qed.

Lemma store_rx_data_datalength n bytes r :
  rx_datalength (store_rx_data n bytes r) = rx_datalength r.
Proof. apply store_rx_data_fields. Qed.

Lemma store_rx_data_accfilter n bytes r :
  accfilter (store_rx_data n bytes r) = accfilter r.
Proof. apply store_rx_data_fields. Qed.

Lemma store_rx_data_rollover n bytes r :
  rolloverstatus (store_rx_data n bytes r) = rolloverstatus r.
Proof. apply store_rx_data_fields. Qed.

Lemma le32_of_le32 c0 c1 c2 c3 :
  0 <= c0 < 256 -> 0 <= c1 < 256 -> 0 <= c2 < 256 -> 0 <= c3 < 256 ->
  le32 (of_le32 [c0; c1; c2; c3]) = [c0; c1; c2; c3].
Proof.
  intros H0 H1 H2 H3. unfold le32, of_le32, u8. cbn [nth].
  rewrite !Z.shiftr_div_pow2 by lia.
  change (2 ^ 8) with 256. change (2 ^ 16) with 65536. change (2 ^ 24) with 16777216.
  repeat f_equal; Z.div_mod_to_equations; lia.
Qed.

Lemma le32_set_byte k b v :
  (k < 4)%nat -> le32 (set_byte k b v) = upd k (u8 b) (le32 v).
Proof.
  intros Hk. unfold set_byte.
  destruct k as [|[|[|[|k]]]]; try lia; unfold le32 at 2 3; cbn [upd];
    apply le32_of_le32; apply u8_range.
Qed.

Ltac enumerate l H :=
  repeat (destruct l as [|? l]; cbn [length] in H; try lia).

Ltac rx_memory_step :=
  cbv [store_rx_data fold_left combine seq length poke_rx Nat.ltb Nat.leb Nat.div Nat.modulo
       Nat.divmod Nat.sub Nat.add Nat.mul fst snd set_rx_data set_rxid rx_data rxid
       rxbuffernmbr rxframetype rx_datalength accfilter rolloverstatus upd nth firstn skipn app].

Lemma store_rx_data_fits n bytes r :
  rx_shaped r -> (n < 2)%nat -> length bytes = 8%nat ->
  store_rx_data n bytes r = set_rx_data n bytes r.
Proof.
  intros (_ & _ & _ & Hd & _ & H0 & H1) Hn Hb.
  destruct r as [nm ft dl af ro data ids]. cbn [rx_data] in *.
  destruct data as [|row0 [|row1 [|? ?]]]; try discriminate Hd. cbn [nth] in H0, H1.
  enumerate bytes Hb.
  destruct n as [|[|n]]; try lia.
  - enumerate row0 H0. rx_memory_step. reflexivity.
  - enumerate row1 H1. rx_memory_step. reflexivity.
Qed.

(* a transfer through data[0] that runs past the row goes on in data[1] *)
Lemma store_rx_data_0 bytes r :
  rx_shaped r -> (8 <= length bytes <= 16)%nat ->
  store_rx_data 0 bytes r =
  set_rx_data 1 (skipn 8 bytes ++ skipn (length bytes - 8) (nth 1 (rx_data r) []))
              (set_rx_data 0 (firstn 8 bytes) r).
Proof.
  intros (_ & _ & _ & Hd & _ & H0 & H1) Hb.
  destruct r as [nm ft dl af ro data ids]. cbn [rx_data] in *.
  destruct data as [|row0 [|row1 [|? ?]]]; try discriminate Hd. cbn [nth] in H0, H1.
  enumerate row0 H0. enumerate row1 H1.
  enumerate bytes Hb; rx_memory_step; reflexivity.
Qed.

(* a transfer through data[1] that runs past the row goes on in rxid[0] and
   rxid[1], byte by byte *)
Lemma store_rx_data_1 bytes r :
  rx_shaped r -> (8 <= length bytes <= 16)%nat ->
  rx_data (store_rx_data 1 bytes r) = upd 1 (firstn 8 bytes) (rx_data r) /\
  flat_map le32 (rxid (store_rx_data 1 bytes r)) =
  map u8 (skipn 8 bytes) ++ skipn (length bytes - 8) (flat_map le32 (rxid r)).
Proof.
  intros (_ & _ & _ & Hd & Hi & H0 & H1) Hb.
  destruct r as [nm ft dl af ro data ids]. cbn [rx_data rxid] in *.
  destruct data as [|row0 [|row1 [|? ?]]]; try discriminate Hd. cbn [nth] in H0, H1.
  destruct ids as [|id0 [|id1 [|? ?]]]; try discriminate Hi.
  enumerate row1 H1.
  enumerate bytes Hb; rx_memory_step; (split; [reflexivity|]);
    cbn [flat_map map app]; rewrite ?le32_set_byte by lia;
    unfold le32; cbn [upd app skipn Nat.sub length]; reflexivity.
Qed.


Lemma poke_rx_shaped off b r : rx_shaped r -> rx_shaped (poke_rx off b r).
Proof.
  intros (Hf & Hl & Ha & Hd & Hi & H0 & H1). unfold poke_rx, rx_shaped.
  destruct (off <? 16)%nat;
    cbn [set_rx_data set_rxid rxframetype rx_datalength accfilter rx_data rxid];
    rewrite ?length_upd; repeat split; try assumption.
  - destruct (rx_data r) as [|row0 [|row1 rest]]; try discriminate Hd.
    destruct (off / 8)%nat as [|[|k]]; cbn [upd nth] in *; now rewrite ?length_upd.
  - destruct (rx_data r) as [|row0 [|row1 rest]]; try discriminate Hd.
    destruct (off / 8)%nat as [|[|k]]; cbn [upd nth] in *; now rewrite ?length_upd.
Qed.

Lemma store_rx_data_shaped n bytes r : rx_shaped r -> rx_shaped (store_rx_data n bytes r).
Proof.
  unfold store_rx_data. generalize (combine (seq 0 (length bytes)) bytes).
  intros l. revert r.
  induction l as [|kb l IH]; intros r Hr; cbn [fold_left]; [exact Hr|].
  apply IH. now apply poke_rx_shaped.
Qed.

Lemma read_data_run reg_addr n rxcan s :
  read_data reg_addr n rxcan s =
  (store_rx_data n (read_result s (nth n (rx_data rxcan) []) (nth n (rx_datalength rxcan) 0))
                 rxcan,
   read_board s reg_addr (nth n (rx_datalength rxcan) 0)).
Proof. unfold read_data. now rewrite bind_run, Register_Read_run. Qed.

(* the RXB0 block changes neither the selection nor the shape of datalength[] *)
Lemma read_RXB0_shape spi_read rxcan s :
  rxbuffernmbr (snd (fst (read_RXB0 spi_read rxcan s))) = rxbuffernmbr rxcan /\
  length (rx_datalength (snd (fst (read_RXB0 spi_read rxcan s)))) =
  length (rx_datalength rxcan).
Proof.
  unfold read_RXB0.
  destruct (selected (rxbuffernmbr rxcan) RXB0); [|now split].
  rewrite bind_run, Register_Read_run. cbn [fst snd].
  repeat match goal with
         | |- context [if ?b then _ else _] => destruct b
         end;
    rewrite ?bind_run, ?read_data_run; cbn [fst snd ret];
    rewrite ?store_rx_data_nmbr, ?store_rx_data_datalength;
    cbn [rxbuffernmbr rx_datalength set_rx_data set_rolloverstatus set_rxframetype
         set_rxid set_rx_datalength set_accfilter];
    now rewrite length_upd.
Qed.

Lemma land_DLC_BITS x : 0 <= Z.land x DLC_BITS <= 15.
Proof.
  change DLC_BITS with (Z.ones 4). rewrite Z.land_ones by lia.
  pose proof (Z.mod_pos_bound x (2 ^ 4) ltac:(lia)). lia.
Qed.

Lemma length_incoming s p n : length (incoming s p n) = n.
Proof. unfold incoming. now rewrite length_map, length_seq. Qed.

(* the RXB1 block alone, from any board *)
Lemma read_RXB1_trace spi_read rxcan s p :
  periph_of (hcan s) = Some p ->
  selected (rxbuffernmbr rxcan) RXB1 = true ->
  length (rx_datalength rxcan) = 2%nat ->
  let hdr := incoming s p 6 in
  let dlc := Z.land (nth 5 hdr 0) 0x0F in
  let payload := incoming (consume s p 6) p (Z.to_nat dlc) in
  trace (snd (read_RXB1 spi_read rxcan s)) =
  trace s ++ read_frame (Some p) RXB1CTRL_REG hdr ++
  (if selected (nth 2 hdr 0) IDE_RECEIVED_EXTENDED_FRAME
   then if selected (nth 5 hdr 0) RTR_RECEIVED_REMOTE_FRAME_REQUEST
        then [] else read_frame (Some p) RXB1D0_REG payload
   else if selected (nth 2 hdr 0) SRR_RECEIVED_STANDARD_REMOTE_REQUEST
        then [] else read_frame (Some p) RXB1D1_REG payload).
Proof.
  intros Hp Hsel Hlen hdr dlc payload.
  assert (Hnth : forall k, (k < 6)%nat ->
            nth k (read_result s spi_read 6) 0 = nth k hdr 0).
  { intros k Hk. unfold read_result. rewrite Hp.
    change (Z.to_nat 6) with 6%nat. fold hdr.
    apply app_nth1. unfold hdr. now rewrite length_incoming. }
  assert (Hboard : read_board s RXB1CTRL_REG 6 =
                   log (consume s p 6) (read_frame (Some p) RXB1CTRL_REG hdr))
    by (unfold read_board; now rewrite Hp).
  unfold read_RXB1. rewrite Hsel.
  rewrite bind_run, Register_Read_run. cbn [fst snd].
  rewrite !Hnth by lia. rewrite Hboard.
  assert (Hdl : forall ft r,
            nth 1 (rx_datalength (set_rxframetype 1 ft (set_rxid 1 r
                     (set_rx_datalength 1 (Z.land (nth 5 hdr 0) DLC_BITS)
                        (set_accfilter 1 (Z.land (nth 0 hdr 0)
                           (lor3 FILHIT_BIT_2 FILHIT_BIT_1 FILHIT_BIT_0)) rxcan))))) 0 = dlc)
    by (intros; cbn [rx_datalength set_rxframetype set_rxid set_rx_datalength set_accfilter];
        rewrite nth_upd by lia; reflexivity).
  destruct (selected (nth 2 hdr 0) IDE_RECEIVED_EXTENDED_FRAME).
  - destruct (selected (nth 5 hdr 0) RTR_RECEIVED_REMOTE_FRAME_REQUEST).
    + cbn [ret snd]. now rewrite trace_log, app_nil_r.
    + rewrite bind_run, read_data_run. cbn [fst snd ret]. rewrite Hdl.
      rewrite (trace_read_board _ _ _ p) by exact Hp.
      rewrite incoming_log, trace_log. cbn [trace consume]. now rewrite app_assoc.
  - destruct (selected (nth 2 hdr 0) SRR_RECEIVED_STANDARD_REMOTE_REQUEST).
    + cbn [ret snd]. now rewrite trace_log, app_nil_r.
    + rewrite bind_run, read_data_run. cbn [fst snd ret]. rewrite Hdl.
      rewrite (trace_read_board _ _ _ p) by exact Hp.
      rewrite incoming_log, trace_log. cbn [trace consume]. now rewrite app_assoc.
Qed.

(** C4: when CAN_Control_Read_CAN_Frame processes RX buffer 1 it reads the six
    bytes RXB1CTRL .. RXB1DLC and then, for a data frame, the payload in one
    more READ frame: from RXB1D0 (0x76) when the frame is extended, from
    RXB1D1 (0x77) when it is standard.  Either way the number of bytes read is
    the DLC nibble just decoded, DLC[3:0] of RXB1DLC. *)
Theorem C4_RXB1_payload_registers s spi_read rxcan p :
  periph_of (hcan s) = Some p ->
  selected (rxbuffernmbr rxcan) RXB1 = true ->
  length (rx_datalength rxcan) = 2%nat ->
  let s0 := exec (read_RXB0 spi_read rxcan) s in
  let hdr := incoming s0 p 6 in
  let dlc := Z.land (nth 5 hdr 0) 0x0F in
  let payload := incoming (consume s0 p 6) p (Z.to_nat dlc) in
  let IDE := selected (nth 2 hdr 0) IDE_RECEIVED_EXTENDED_FRAME in
  let RTR := selected (nth 5 hdr 0) RTR_RECEIVED_REMOTE_FRAME_REQUEST in
  let SRR := selected (nth 2 hdr 0) SRR_RECEIVED_STANDARD_REMOTE_REQUEST in
  trace (exec (CAN_Control_Read_CAN_Frame spi_read rxcan) s) =
    trace s0 ++ read_frame (Some p) RXB1CTRL_REG hdr ++
    (if IDE then if RTR then [] else read_frame (Some p) RXB1D0_REG payload
     else if SRR then [] else read_frame (Some p) RXB1D1_REG payload) /\
  length payload = Z.to_nat dlc /\
  0 <= dlc <= 15 /\
  RXB1D0_REG = 0x76 /\ RXB1D1_REG = 0x77.
Proof.
  intros Hp Hsel Hlen s0 hdr dlc payload IDE RTR SRR.
  split; [|split; [apply length_incoming | split; [apply land_DLC_BITS | now split]]].
  unfold exec, CAN_Control_Read_CAN_Frame.
  rewrite bind_run, bind_run. cbn [ret snd].
  destruct (read_RXB0_shape spi_read rxcan s) as [Hnmbr Hshape].
  apply read_RXB1_trace.
  - unfold s0, exec in *. now rewrite keeps_read_RXB0.
  - now rewrite Hnmbr.
  - now rewrite Hshape.
Qed.

Lemma C4_witness :
  trace (exec (CAN_Control_Read_CAN_Frame [0; 0; 0; 0; 0; 0] CAN2_RX)
              (board_with two_standard_frames)) =
  trace (exec (read_RXB0 [0; 0; 0; 0; 0; 0] CAN2_RX) (board_with two_standard_frames)) ++
  read_frame (Some SPI1) 0x70 [0x00; 0x24; 0x60; 0x00; 0x00; 0x02] ++
  read_frame (Some SPI1) 0x77 [0xBB; 0xCC].
Proof.
  apply (proj1 (C4_RXB1_payload_registers (board_with two_standard_frames)
                  [0; 0; 0; 0; 0; 0] CAN2_RX SPI1 eq_refl eq_refl eq_refl)).
Defined.

(** * Further properties of the driver *)

(** ** Composition of trace properties *)

Section Emits.
Variable A : option spi_periph -> list event -> Prop.
Hypothesis A_nil : forall o, A o [].
Hypothesis A_app : forall o a b, A o a -> A o b -> A o (a ++ b).

Lemma emits_ret {T} (a : T) : emits A (ret a).
Proof.
  intros s. split; [reflexivity|]. exists []. split; [|apply A_nil].
  cbn. now rewrite app_nil_r.
Qed.

Lemma emits_get_hcan : emits A get_hcan.
Proof.
  intros s. split; [reflexivity|]. exists []. split; [|apply A_nil].
  cbn. now rewrite app_nil_r.
Qed.

Lemma emits_bind {T U} (m : M T) (f : T -> M U) :
  emits A m -> (forall a, emits A (f a)) -> emits A (bind m f).
Proof.
  intros Hm Hf s. rewrite bind_run.
  destruct (Hm s) as (Hh1 & e1 & Ht1 & HA1).
  destruct (Hf (fst (m s)) (snd (m s))) as (Hh2 & e2 & Ht2 & HA2).
  split; [congruence|].
  exists (e1 ++ e2). split.
  - now rewrite Ht2, Ht1, app_assoc.
  - apply A_app; [assumption|]. now rewrite Hh1 in HA2.
Qed.

Lemma emits_log {T} (m : M T) (evs : option spi_periph -> list event) :
  (forall s, snd (m s) = log s (evs (periph_of (hcan s)))) ->
  (forall o, A o (evs o)) -> emits A m.
Proof.
  intros Hrun HA s. rewrite Hrun. split; [reflexivity|].
  eexists. split; [reflexivity | apply HA].
Qed.

Lemma emits_calls (P : driver_call -> bool) :
  (forall c s, P c = true ->
     exists evs, trace (run_call c s) = trace s ++ evs /\ A (periph_of (hcan s)) evs) ->
  forall calls s, forallb P calls = true ->
    exists evs, trace (run_calls calls s) = trace s ++ evs /\ A (periph_of (hcan s)) evs.
Proof.
  intros Hone. induction calls as [|c cs IH]; intros s Hall.
  - exists []. split; [cbn; now rewrite app_nil_r | apply A_nil].
  - cbn [forallb] in Hall. apply andb_true_iff in Hall as [Hc Hcs].
    destruct (Hone c s Hc) as (e1 & Ht1 & HA1).
    destruct (IH (run_call c s) Hcs) as (e2 & Ht2 & HA2).
    exists (e1 ++ e2). split.
    + unfold run_calls in *. cbn [fold_left]. now rewrite Ht2, Ht1, app_assoc.
    + apply A_app; [assumption|]. now rewrite run_call_hcan in HA2.
Qed.
End Emits.

(* follow a driver function down to the register-access layer *)
Ltac emits_with Hnil Happ :=
  cbv zeta;
  repeat match goal with
  | |- emits _ (bind _ _) => apply (emits_bind _ Happ); [|intros]
  | |- emits _ (if ?b then _ else _) => destruct b
  | |- emits _ (ret _) => apply (emits_ret _ Hnil)
  | |- emits _ skip => apply (emits_ret _ Hnil)
  | |- emits _ get_hcan => apply (emits_get_hcan _ Hnil)
  | |- emits _ _ => solve [auto with emits]
  end.

(** ** Chip select, settling delay and the handle's own peripheral *)

Lemma well_framed_app o a b : well_framed o a -> well_framed o b -> well_framed o (a ++ b).
Proof.
  induction 1 as [|us rest _ IH|p rest Hp _ IH|p body rest Hp Hbody _ IH]; intros Hb;
    cbn [app]; [assumption | constructor; auto | constructor; auto |].
  replace ((body ++ EvCS_Disable p :: EvDelay 50 :: rest) ++ b)
    with (body ++ EvCS_Disable p :: EvDelay 50 :: rest ++ b)
    by (now rewrite <- app_assoc).
  constructor; auto.
Qed.

Lemma well_framed_framed o body :
  (forall p, Forall (transfer_on p) (body p)) -> well_framed o (framed o body).
Proof.
  intros Hbody. destruct o as [p|]; unfold framed.
  - apply (wf_frame (Some p) p (body p) []); [reflexivity | apply Hbody | constructor].
  - repeat constructor.
Qed.

Lemma emits_wf_Register_Write a d n : emits well_framed (CAN_Control_Register_Write a d n).
Proof.
  apply (emits_log _ _ (fun o => write_frame o a (firstn (Z.to_nat n) d))).
  - intros s. now rewrite Register_Write_run.
  - intros o. apply well_framed_framed. intros p. repeat constructor.
Qed.

Lemma emits_wf_Register_Bit a m d : emits well_framed (CAN_Control_Register_Bit a m d).
Proof.
  apply (emits_log _ _ (fun o => bit_frame o a m d)).
  - intros s. now rewrite Register_Bit_run.
  - intros o. apply well_framed_framed. intros p. repeat constructor.
Qed.

Lemma emits_wf_Register_Read a d n : emits well_framed (CAN_Control_Register_Read a d n).
Proof.
  intros s. rewrite Register_Read_run. cbn [snd]. split; [apply hcan_read_board|].
  unfold read_board. destruct (periph_of (hcan s)) as [p|].
  - eexists. split; [reflexivity|]. apply well_framed_framed. intros q. repeat constructor.
  - eexists. split; [reflexivity|]. repeat constructor.
Qed.

Lemma emits_wf_Reset : emits well_framed CAN_Control_Reset.
Proof.
  apply (emits_log _ _ (fun o => framed o (fun p => [EvWrite p [RESET_INS]]) ++ [EvDelay 16])).
  - intros s. now rewrite Reset_run.
  - intros o. apply well_framed_app; [|repeat constructor].
    apply well_framed_framed. intros p. repeat constructor.
Qed.

Lemma emits_wf_delay us : emits well_framed (TIM3_Delay_us us).
Proof.
  apply (emits_log _ _ (fun _ => [EvDelay us])); [reflexivity | repeat constructor].
Qed.

Create HintDb emits.
#[local] Hint Resolve emits_wf_Register_Write emits_wf_Register_Bit emits_wf_Register_Read
  emits_wf_Reset emits_wf_delay : emits.

Ltac emits_wf := emits_with wf_nil well_framed_app.

Lemma emits_wf_Set_Op_Mode m : emits well_framed (CAN_Control_Set_Op_Mode m).
Proof. unfold CAN_Control_Set_Op_Mode. emits_wf. Qed.

Lemma emits_wf_Set_Baud_Rate b : emits well_framed (CAN_Control_Set_Baud_Rate b).
Proof. unfold CAN_Control_Set_Baud_Rate. emits_wf. Qed.

Lemma emits_wf_Set_RX_Mask hmask : emits well_framed (CAN_Control_Set_RX_Mask hmask).
Proof. unfold CAN_Control_Set_RX_Mask. emits_wf. Qed.

Lemma emits_wf_set_filter hfilter n a b c : emits well_framed (set_filter hfilter n a b c).
Proof. unfold set_filter. emits_wf. Qed.

#[local] Hint Resolve emits_wf_Set_Op_Mode emits_wf_Set_Baud_Rate emits_wf_set_filter : emits.

Lemma emits_wf_Set_RX_Filter hfilter : emits well_framed (CAN_Control_Set_RX_Filter hfilter).
Proof. unfold CAN_Control_Set_RX_Filter. emits_wf. Qed.

Lemma emits_wf_send_TXBn txcan n a b c d : emits well_framed (send_TXBn txcan n a b c d).
Proof.
  unfold send_TXBn, WAIT_SEND_STANDARD_DATA_FRAME, WAIT_SEND_EXTENDED_DATA_FRAME,
         WAIT_SEND_STANDARD_REMOTE_FRAME, WAIT_SEND_EXTENDED_REMOTE_FRAME.
  emits_wf.
Qed.

#[local] Hint Resolve emits_wf_send_TXBn : emits.

Lemma emits_wf_Send txcan : emits well_framed (CAN_Control_Send_CAN_Frame txcan).
Proof. unfold CAN_Control_Send_CAN_Frame. emits_wf. Qed.

Lemma emits_wf_read_data a n rxcan : emits well_framed (read_data a n rxcan).
Proof. unfold read_data. emits_wf. Qed.

#[local] Hint Resolve emits_wf_read_data : emits.

Lemma emits_wf_read_RXB0 j rxcan : emits well_framed (read_RXB0 j rxcan).
Proof. unfold read_RXB0. emits_wf. Qed.

Lemma emits_wf_read_RXB1 j rxcan : emits well_framed (read_RXB1 j rxcan).
Proof. unfold read_RXB1. emits_wf. Qed.

#[local] Hint Resolve emits_wf_read_RXB0 emits_wf_read_RXB1 : emits.

Lemma emits_wf_Read j rxcan : emits well_framed (CAN_Control_Read_CAN_Frame j rxcan).
Proof. unfold CAN_Control_Read_CAN_Frame. emits_wf. Qed.

Lemma emits_wf_TX_Status j b : emits well_framed (CAN_Control_TX_CAN_Status j b).
Proof. unfold CAN_Control_TX_CAN_Status. emits_wf. Qed.

Lemma emits_wf_TX_Abort b : emits well_framed (CAN_Control_TX_CAN_Abort b).
Proof. unfold CAN_Control_TX_CAN_Abort. emits_wf. Qed.

Lemma emits_wf_TX_Abort_All : emits well_framed CAN_Control_TX_CAN_Abort_All.
Proof. unfold CAN_Control_TX_CAN_Abort_All. emits_wf. Qed.

Lemma emits_wf_Enable_INT i : emits well_framed (CAN_Control_Enable_INT i).
Proof. unfold CAN_Control_Enable_INT. emits_wf. Qed.

Lemma emits_wf_INT_Status j : emits well_framed (CAN_Control_INT_Status j).
Proof. unfold CAN_Control_INT_Status. emits_wf. Qed.

Lemma emits_wf_Clear_INT_Status i : emits well_framed (CAN_Control_Clear_INT_Status i).
Proof. unfold CAN_Control_Clear_INT_Status. emits_wf. Qed.

Lemma emits_wf_ERR_Status j : emits well_framed (CAN_Control_ERR_Status j).
Proof. unfold CAN_Control_ERR_Status. emits_wf. Qed.

Lemma emits_wf_Clear_ERR_Status e : emits well_framed (CAN_Control_Clear_ERR_Status e).
Proof. unfold CAN_Control_Clear_ERR_Status. emits_wf. Qed.

(* CAN_Control_Init brings up SPI1 only for a handle on SPI1, SPI2 only for
   one on SPI2, so its branches are followed with the handle in hand *)
Lemma emits_wf_Init : emits well_framed CAN_Control_Init.
Proof.
  intros s. unfold CAN_Control_Init. rewrite bind_run. cbn [get_hcan fst snd].
  assert (Hrest : forall m : M unit, emits well_framed m ->
            forall p, periph_of (hcan s) = Some p ->
            hcan (snd (bind (emit (EvInit p)) (fun _ => m) s)) = hcan s /\
            exists evs, trace (snd (bind (emit (EvInit p)) (fun _ => m) s)) = trace s ++ evs /\
                        well_framed (periph_of (hcan s)) evs).
  { intros m Hm p Hp. rewrite bind_run, emit_run. cbn [fst snd].
    destruct (Hm (log s [EvInit p])) as (Hh & evs & Ht & Hwf).
    split; [exact Hh|]. exists (EvInit p :: evs). split.
    - rewrite Ht. cbn [trace log]. now rewrite <- app_assoc.
    - apply wf_init; [exact Hp | exact Hwf]. }
  destruct (periph_of_cases (hcan s)) as [[H1 Hp] | [[H1 [H2 Hp]] | [H1 [H2 Hp]]]].
  - apply Z.eqb_eq in H1. rewrite H1. cbn [orb]. unfold SPI1_Init.
    apply Hrest; [|exact Hp]. emits_wf.
  - apply Z.eqb_neq in H1. apply Z.eqb_eq in H2. rewrite H1, H2. cbn [orb]. unfold SPI2_Init.
    apply Hrest; [|exact Hp]. emits_wf.
  - apply Z.eqb_neq in H1, H2. rewrite H1, H2. cbn [orb].
    apply (emits_ret _ wf_nil).
Qed.

Lemma run_call_well_framed c s :
  exists evs, trace (run_call c s) = trace s ++ evs /\ well_framed (periph_of (hcan s)) evs.
Proof.
  destruct c; cbn [run_call]; unfold exec.
  - exact (proj2 (emits_wf_Init s)).
  - exact (proj2 (emits_wf_Reset s)).
  - exact (proj2 (emits_wf_Set_Op_Mode _ s)).
  - exact (proj2 (emits_wf_Set_Baud_Rate _ s)).
  - exact (proj2 (emits_wf_Set_RX_Mask _ s)).
  - exact (proj2 (emits_wf_Set_RX_Filter _ s)).
  - exact (proj2 (emits_wf_Register_Write _ _ _ s)).
  - exact (proj2 (emits_wf_Register_Read _ _ _ s)).
  - exact (proj2 (emits_wf_Register_Bit _ _ _ s)).
  - exact (proj2 (emits_wf_Send _ s)).
  - exact (proj2 (emits_wf_Read _ _ s)).
  - exact (proj2 (emits_wf_TX_Status _ _ s)).
  - exact (proj2 (emits_wf_TX_Abort _ s)).
  - exact (proj2 (emits_wf_TX_Abort_All s)).
  - exact (proj2 (emits_wf_Enable_INT _ s)).
  - exact (proj2 (emits_wf_INT_Status _ s)).
  - exact (proj2 (emits_wf_Clear_INT_Status _ s)).
  - exact (proj2 (emits_wf_ERR_Status _ s)).
  - exact (proj2 (emits_wf_Clear_ERR_Status _ s)).
Qed.

Lemma run_calls_well_framed (calls : list driver_call) (s : board) :
  exists evs,
    trace (run_calls calls s) = trace s ++ evs /\
    well_framed (periph_of (hcan s)) evs.
Proof.
  apply (emits_calls well_framed wf_nil well_framed_app (fun _ => true)).
  - intros c s0 _. apply run_call_well_framed.
  - now induction calls.
Qed.

(** X1: whatever calls of the driver are made, in whatever order and with
    whatever arguments, the bus sees only complete chip-select frames on the
    handle's own peripheral: chip select is asserted, bytes are transferred,
    chip select is released and 50 us pass before anything else happens.
    Nothing is transferred outside a frame, no frame is left open or opened
    twice, and the other SPI peripheral is never touched. *)
Theorem X1_chip_select_discipline (calls : list driver_call) (s : board) :
  exists evs,
    trace (run_calls calls s) = trace s ++ evs /\
    well_framed (periph_of (hcan s)) evs.
Proof. apply run_calls_well_framed. Qed.

Lemma well_framed_None evs : well_framed None evs -> Forall is_delay evs.
Proof.
  induction 1 as [|us rest _ IH|p rest Hp _ _|p body rest Hp _ _ _];
    [constructor | constructor; [now exists us | exact IH] | discriminate | discriminate].
Qed.

(** X2: with a handle whose transport selector is neither CAN_SPI1 nor
    CAN_SPI2 no driver call produces any SPI activity at all; the calls still
    spend their delays. *)
Theorem X2_no_transport_no_traffic (calls : list driver_call) (s : board) :
  periph_of (hcan s) = None ->
  exists evs,
    trace (run_calls calls s) = trace s ++ evs /\ Forall is_delay evs.
Proof.
  intros Hnone. destruct (run_calls_well_framed calls s) as (evs & Ht & Hwf).
  exists evs. split; [exact Ht|]. rewrite Hnone in Hwf. now apply well_framed_None.
Qed.

(* initialising, sending and asking for the status without a transport: six
   pauses and the wait for the three frames, nothing else *)
Lemma X2_witness :
  exists evs,
    trace (run_calls [Init; Send_CAN_Frame CAN1_TX; TX_CAN_Status 0 TXB0] no_transport)
    = [] ++ evs /\ Forall is_delay evs.
Proof.
  apply (X2_no_transport_no_traffic
           [Init; Send_CAN_Frame CAN1_TX; TX_CAN_Status 0 TXB0] no_transport eq_refl).
Defined.

(** ** Calls that only read *)

Lemma reads_only_app o a b : reads_only o a -> reads_only o b -> reads_only o (a ++ b).
Proof.
  induction 1 as [|reg_addr bytes rest _ IH]; intros Hb; [assumption|].
  rewrite <- app_assoc. constructor. auto.
Qed.

Lemma emits_ro_Register_Read a d n : emits reads_only (CAN_Control_Register_Read a d n).
Proof.
  intros s. rewrite Register_Read_run. cbn [snd]. split; [apply hcan_read_board|].
  unfold read_board. destruct (periph_of (hcan s)) as [p|];
    (eexists; split; [reflexivity|]);
    rewrite <- (app_nil_r (read_frame _ _ _)); constructor; constructor.
Qed.

#[local] Hint Resolve emits_ro_Register_Read : emits.

Ltac emits_ro := emits_with ro_nil reads_only_app.

Lemma emits_ro_read_data a n rxcan : emits reads_only (read_data a n rxcan).
Proof. unfold read_data. emits_ro. Qed.

#[local] Hint Resolve emits_ro_read_data : emits.

Lemma emits_ro_read_RXB0 j rxcan : emits reads_only (read_RXB0 j rxcan).
Proof. unfold read_RXB0. emits_ro. Qed.

Lemma emits_ro_read_RXB1 j rxcan : emits reads_only (read_RXB1 j rxcan).
Proof. unfold read_RXB1. emits_ro. Qed.

#[local] Hint Resolve emits_ro_read_RXB0 emits_ro_read_RXB1 : emits.

Lemma emits_ro_Read j rxcan : emits reads_only (CAN_Control_Read_CAN_Frame j rxcan).
Proof. unfold CAN_Control_Read_CAN_Frame. emits_ro. Qed.

Lemma emits_ro_TX_Status j b : emits reads_only (CAN_Control_TX_CAN_Status j b).
Proof. unfold CAN_Control_TX_CAN_Status. emits_ro. Qed.

Lemma emits_ro_INT_Status j : emits reads_only (CAN_Control_INT_Status j).
Proof. unfold CAN_Control_INT_Status. emits_ro. Qed.

Lemma emits_ro_ERR_Status j : emits reads_only (CAN_Control_ERR_Status j).
Proof. unfold CAN_Control_ERR_Status. emits_ro. Qed.

Lemma mosi_frames_read_frame p o reg_addr bytes rest :
  mosi_frames p (read_frame o reg_addr bytes ++ rest) =
  (if match o with Some q => periph_eqb p q | None => false end
   then [[READ_INS; reg_addr]] else []) ++ mosi_frames p rest.
Proof. destruct o as [[|]|], p; reflexivity. Qed.

(* READ frames leave the registers of the controller alone *)
Lemma reads_only_registers o evs :
  reads_only o evs ->
  forall p,
    (forall f, In f (mosi_frames p evs) -> exists reg_addr, f = [READ_INS; reg_addr]) /\
    (forall regs, mcp2515_frames (mosi_frames p evs) regs = regs).
Proof.
  induction 1 as [|reg_addr bytes rest _ IH]; intros p.
  - split; [intros f [] | reflexivity].
  - destruct (IH p) as [IHf IHr]. rewrite mosi_frames_read_frame.
    destruct (match o with Some q => periph_eqb p q | None => false end); cbn [app].
    + split.
      * intros f [<- | Hf]; [now exists reg_addr | now apply IHf].
      * intros regs. unfold mcp2515_frames in *. cbn [fold_left]. apply IHr.
    + split; assumption.
Qed.

(** X3: the calls that return something read from the controller -- register
    read, frame read, transmit status, interrupt status, error status -- send
    nothing but READ commands, each just the opcode 0x03 and an address.  No
    register of the controller is written by them; in particular reading a
    received frame does not clear the receive-buffer-full flags. *)
Theorem X3_queries_only_read (calls : list driver_call) (s : board) :
  forallb is_query calls = true ->
  exists evs,
    trace (run_calls calls s) = trace s ++ evs /\
    forall p,
      (forall f, In f (mosi_frames p evs) -> exists reg_addr, f = [READ_INS; reg_addr]) /\
      (forall regs, mcp2515_frames (mosi_frames p evs) regs = regs).
Proof.
  intros Hq.
  destruct (emits_calls reads_only ro_nil reads_only_app is_query) with (calls := calls) (s := s)
    as (evs & Ht & Hro); [|exact Hq|].
  - intros c s0 Hc. destruct c; try discriminate; cbn [run_call]; unfold exec.
    + exact (proj2 (emits_ro_Register_Read _ _ _ s0)).
    + exact (proj2 (emits_ro_Read _ _ s0)).
    + exact (proj2 (emits_ro_TX_Status _ _ s0)).
    + exact (proj2 (emits_ro_INT_Status _ s0)).
    + exact (proj2 (emits_ro_ERR_Status _ s0)).
  - exists evs. split; [exact Ht|]. intros p. exact (reads_only_registers _ evs Hro p).
Qed.

(* reading both receive buffers, then the interrupt flags *)
Lemma X3_witness :
  exists evs,
    trace (run_calls [Read_CAN_Frame [0; 0; 0; 0; 0; 0] CAN2_RX; INT_Status 0]
                     (board_with two_standard_frames)) = [] ++ evs /\
    forall p regs, mcp2515_frames (mosi_frames p evs) regs = regs.
Proof.
  destruct (X3_queries_only_read [Read_CAN_Frame [0; 0; 0; 0; 0; 0] CAN2_RX; INT_Status 0]
              (board_with two_standard_frames) eq_refl) as (evs & Ht & H).
  exists evs. split; [exact Ht|]. intros p regs. apply (proj2 (H p)).
Defined.

(** ** Operation mode and initialisation *)

Lemma Set_Op_Mode_run mode s :
  CAN_Control_Set_Op_Mode mode s =
  (tt, log s (op_mode_events (periph_of (hcan s)) (hcan s) mode)).
Proof.
  unfold CAN_Control_Set_Op_Mode, op_mode_events.
  rewrite bind_run; cbn [get_hcan fst snd].
  destruct (Z.eqb_spec mode NORMAL_OP_MODE) as [->|H0];
    [now rewrite Register_Write_run|].
  destruct (Z.eqb_spec mode SLEEP_OP_MODE) as [->|H1];
    [now rewrite Register_Write_run|].
  destruct (Z.eqb_spec mode LOOPBACK_OP_MODE) as [->|H2];
    [now rewrite Register_Write_run|].
  destruct (Z.eqb_spec mode LISTEN_ONLY_OP_MODE) as [->|H3];
    [now rewrite Register_Write_run|].
  destruct (Z.eqb_spec mode CONFIGURATION_OP_MODE) as [->|H4];
    [now rewrite Register_Write_run|].
  replace ((0 <=? mode) && (mode <=? 4)) with false; [now rewrite log_nil|].
  symmetry. apply andb_false_iff.
  unfold NORMAL_OP_MODE, SLEEP_OP_MODE, LOOPBACK_OP_MODE, LISTEN_ONLY_OP_MODE,
         CONFIGURATION_OP_MODE in *.
  destruct (Z.leb_spec 0 mode); [right; apply Z.leb_gt; lia | now left].
Qed.

Lemma Set_Baud_Rate_run baud s :
  CAN_Control_Set_Baud_Rate baud s =
  (tt, log s (baud_rate_events (periph_of (hcan s)) (hcan s) baud)).
Proof.
  unfold CAN_Control_Set_Baud_Rate, baud_rate_events, planner.
  rewrite bind_run; cbn [get_hcan fst snd].
  change CAN_BAUD_500_KBPS with 500000. change CAN_BAUD_250_KBPS with 250000.
  change CAN_BAUD_125_KBPS with 125000. change CAN_BAUD_100_KBPS with 100000.
  change CAN_BAUD_50_KBPS with 50000.
  destruct (baud =? 500000); [now rewrite Register_Write_run|].
  destruct (baud =? 250000); [now rewrite Register_Write_run|].
  destruct (baud =? 125000); [now rewrite Register_Write_run|].
  destruct (baud =? 100000); [now rewrite Register_Write_run|].
  destruct (baud =? 50000); [now rewrite Register_Write_run|].
  now rewrite log_nil.
Qed.

(** X4: for each of the five modes CAN_Control_Set_Op_Mode writes the whole of
    CANCTRL in one byte: the mode number in REQOP (bits 7:5) and the handle's
    one-shot selector.  With a one-shot selector of OSM_DISABLED or
    OSM_ENABLED the byte is 32 * mode + oneshot, so ABAT, CLKEN and CLKPRE
    (bits 4, 2, 1:0) are written as zero whatever they were before. *)
Theorem X4_op_mode_register s mode :
  0 <= mode <= 4 ->
  let byte := u8 (Z.lor (oneshot (hcan s)) (Z.shiftl mode 5)) in
  exec (CAN_Control_Set_Op_Mode mode) s =
    log s (write_frame (periph_of (hcan s)) CANCTRL_REG [byte]) /\
  (forall regs, mcp2515_frame [WRITE_INS; CANCTRL_REG; byte] regs CANCTRL_REG = byte) /\
  (oneshot (hcan s) = OSM_DISABLED \/ oneshot (hcan s) = OSM_ENABLED ->
   byte = 32 * mode + oneshot (hcan s) /\ Z.land byte 0x17 = 0).
Proof.
  intros Hm byte. split; [|split].
  - unfold exec. rewrite Set_Op_Mode_run. unfold op_mode_events.
    replace ((0 <=? mode) && (mode <=? 4)) with true; [reflexivity|].
    symmetry. apply andb_true_iff. split; apply Z.leb_le; lia.
  - intros regs. reflexivity.
  - assert (Hc : mode = 0 \/ mode = 1 \/ mode = 2 \/ mode = 3 \/ mode = 4) by lia.
    unfold byte. intros [-> | ->];
      destruct Hc as [-> | [-> | [-> | [-> | ->]]]]; split; reflexivity.
Qed.

(* loopback, one-shot disabled: CANCTRL = 0x40 *)
Lemma X4_witness :
  exec (CAN_Control_Set_Op_Mode LOOPBACK_OP_MODE) (board_with []) =
  log (board_with []) (write_frame (Some SPI1) CANCTRL_REG [0x40]).
Proof.
  apply (proj1 (X4_op_mode_register (board_with []) LOOPBACK_OP_MODE
                  ltac:(cbv - [Z.le]; lia))).
Defined.

Lemma Init_run s p :
  periph_of (hcan s) = Some p ->
  CAN_Control_Init s = (tt, log s (init_events p (hcan s))).
Proof.
  intros Hp. unfold CAN_Control_Init, init_events, rxb0ctrl_of.
  rewrite bind_run; cbn [get_hcan fst snd].
  assert (Hsel : (spi (hcan s) =? CAN_SPI1) || (spi (hcan s) =? CAN_SPI2) = true /\
                 (if spi (hcan s) =? CAN_SPI1 then SPI1_Init else SPI2_Init) = emit (EvInit p)).
  { unfold periph_of in Hp.
    destruct (spi (hcan s) =? CAN_SPI1); [injection Hp as <-; now split|].
    destruct (spi (hcan s) =? CAN_SPI2); [injection Hp as <-; now split|discriminate]. }
  destruct Hsel as [-> ->]. cbv zeta.
  rewrite bind_run, emit_run. cbn [fst snd].
  rewrite bind_run, Reset_run. cbn [fst snd]. rewrite log_log.
  rewrite bind_run, Set_Baud_Rate_run. cbn [fst snd]. rewrite log_log.
  cbn [hcan log]. rewrite Hp.
  change (Z.lor 0 RXM_RECEIVE_ANY_MESSAGE) with RXM_RECEIVE_ANY_MESSAGE.
  destruct (selected (rxbufferopmode (hcan s)) RXB0_TURN_MASKS_FILTERS_OFF);
    destruct (selected (rxbuffer0rollover (hcan s)) RXB0_ROLLOVER_ENABLED);
    cbn [Z.lor Z.eqb negb RXM_RECEIVE_ANY_MESSAGE BUKT_RXB0_ROLLOVER_ENABLED Pos.lor
         Pos.eqb Pos.succ];
    destruct (selected (rxbufferopmode (hcan s)) RXB1_TURN_MASKS_FILTERS_OFF);
    repeat first
      [ rewrite bind_run | rewrite Register_Write_run | rewrite Set_Op_Mode_run
      | rewrite hcan_log | rewrite log_log | rewrite firstn_one | rewrite Hp
      | progress cbn [skip ret fst snd] ];
    cbn [app]; repeat rewrite <- app_assoc; reflexivity.
Qed.

(** X5: on a handle with a valid transport CAN_Control_Init does, in this
    order: bring up the SPI peripheral, reset the controller (RESET frame,
    50 us, 16 us), write the bit timing of the handle's baud rate, write
    RXB0CTRL if RXB0 is to accept any message or to roll over (0x60, 0x04 or
    0x64), write 0x60 to RXB1CTRL if RXB1 is to accept any message, and
    request the handle's operation mode last.  An unsupported baud rate or
    mode in the handle only drops its own write: the rest is still done. *)
Theorem X5_init_sequence s p :
  periph_of (hcan s) = Some p ->
  exec CAN_Control_Init s = log s (init_events p (hcan s)) /\
  (planner (baudrate (hcan s)) = None ->
   baud_rate_events (Some p) (hcan s) (baudrate (hcan s)) = []) /\
  (~ 0 <= opmode (hcan s) <= 4 -> op_mode_events (Some p) (hcan s) (opmode (hcan s)) = []) /\
  (rxb0ctrl_of (hcan s) = 0 \/ rxb0ctrl_of (hcan s) = 0x04 \/
   rxb0ctrl_of (hcan s) = 0x60 \/ rxb0ctrl_of (hcan s) = 0x64).
Proof.
  intros Hp. split; [|split; [|split]].
  - unfold exec. now rewrite (Init_run s p Hp).
  - intros Hnone. unfold baud_rate_events. now rewrite Hnone.
  - intros Hm. unfold op_mode_events.
    replace ((0 <=? opmode (hcan s)) && (opmode (hcan s) <=? 4)) with false; [reflexivity|].
    symmetry. apply andb_false_iff.
    destruct (Z.leb_spec 0 (opmode (hcan s))); [right; apply Z.leb_gt; lia | now left].
  - unfold rxb0ctrl_of.
    destruct (selected (rxbufferopmode (hcan s)) RXB0_TURN_MASKS_FILTERS_OFF);
      destruct (selected (rxbuffer0rollover (hcan s)) RXB0_ROLLOVER_ENABLED); cbn; auto.
Qed.

(* CAN1_Handler of main.c: RXB1 accepts any message, RXB0CTRL is not written *)
Lemma X5_witness :
  trace (exec CAN_Control_Init (board_with [])) =
  [ EvInit SPI1;
    EvCS_Enable SPI1; EvWrite SPI1 [0xC0]; EvCS_Disable SPI1; EvDelay 50; EvDelay 16;
    EvCS_Enable SPI1; EvWrite SPI1 [0x02]; EvWrite SPI1 [0x28];
    EvWrite SPI1 [0x05; 0xAA; 0x01]; EvCS_Disable SPI1; EvDelay 50;
    EvCS_Enable SPI1; EvWrite SPI1 [0x02]; EvWrite SPI1 [0x70];
    EvWrite SPI1 [0x60]; EvCS_Disable SPI1; EvDelay 50;
    EvCS_Enable SPI1; EvWrite SPI1 [0x02]; EvWrite SPI1 [0x0F];
    EvWrite SPI1 [0x00]; EvCS_Disable SPI1; EvDelay 50 ].
Proof.
  exact (f_equal trace (proj1 (X5_init_sequence (board_with []) SPI1 eq_refl))).
Defined.

(** ** The identifier registers, bit by bit *)

Lemma land_bit x k :
  0 <= k -> Z.land x (2 ^ k) = if Z.testbit x k then 2 ^ k else 0.
Proof.
  intros Hk. apply Z.bits_inj'. intros n Hn.
  rewrite Z.land_spec, Z.pow2_bits_eqb by lia.
  destruct (Z.eqb_spec k n) as [<-|Hne].
  - destruct (Z.testbit x k); [now rewrite Z.pow2_bits_true | now rewrite Z.bits_0].
  - rewrite andb_false_r.
    destruct (Z.testbit x k); [|now rewrite Z.bits_0].
    rewrite Z.pow2_bits_eqb by lia. symmetry. now apply Z.eqb_neq.
Qed.

(* testing a one-bit flag the way the driver does is testing that bit *)
Lemma selected_bit x k : 0 <= k -> selected x (2 ^ k) = Z.testbit x k.
Proof.
  intros Hk. unfold selected. rewrite land_bit by exact Hk.
  destruct (Z.testbit x k); [apply Z.eqb_refl|].
  apply Z.eqb_neq. pose proof (Z.pow_pos_nonneg 2 k ltac:(lia) Hk). lia.
Qed.

Lemma testbit_u8 x i : Z.testbit (u8 x) i = (i <? 8) && Z.testbit x i.
Proof. unfold u8. change 256 with (2 ^ 8). apply Z.testbit_mod_pow2. lia. Qed.

Lemma u8_shiftr_mod v n k :
  0 <= k -> k + 8 <= n -> u8 (Z.shiftr (v mod 2 ^ n) k) = u8 (Z.shiftr v k).
Proof.
  intros Hk Hn. apply Z.bits_inj'. intros i Hi.
  rewrite !testbit_u8, !Z.shiftr_spec, Z.testbit_mod_pow2 by lia.
  destruct (Z.ltb_spec i 8) as [Hlt|Hge]; [|reflexivity].
  replace (i + k <? n) with true by (symmetry; apply Z.ltb_lt; lia). reflexivity.
Qed.

Lemma land_u8 a m : 0 <= m < 256 -> Z.land a m = Z.land (u8 a) m.
Proof.
  intros Hm. apply Z.bits_inj'. intros i Hi.
  rewrite !Z.land_spec, testbit_u8.
  destruct (Z.ltb_spec i 8) as [Hlt|Hge]; [reflexivity|].
  rewrite <- (Z.mod_small m (2 ^ 8)) by (change (2 ^ 8) with 256; lia).
  rewrite Z.mod_pow2_bits_high by lia. now rewrite !andb_false_r.
Qed.

Lemma land_shiftr_mod v n k m :
  0 <= k -> k + 8 <= n -> 0 <= m < 256 ->
  Z.land (Z.shiftr (v mod 2 ^ n) k) m = Z.land (Z.shiftr v k) m.
Proof.
  intros Hk Hn Hm.
  rewrite (land_u8 (Z.shiftr (v mod 2 ^ n) k)), (land_u8 (Z.shiftr v k)) by exact Hm.
  now rewrite u8_shiftr_mod.
Qed.

(* only the 29 low bits of a value reach the registers *)
Lemma id_registers_mod v : id_registers (v mod 2 ^ 29) = id_registers v.
Proof.
  unfold id_registers.
  rewrite (u8_shiftr_mod v 29 21), (u8_shiftr_mod v 29 8) by lia.
  rewrite (land_shiftr_mod v 29 13), (land_shiftr_mod v 29 16) by lia.
  rewrite <- (Z.shiftr_0_r (v mod 2 ^ 29)), (u8_shiftr_mod v 29 0) by lia.
  now rewrite Z.shiftr_0_r.
Qed.

Ltac bit_cmp :=
  repeat first
    [ rewrite Z.testbit_mod_pow2 by lia
    | rewrite (proj2 (Z.ltb_lt _ _)) by lia
    | rewrite (proj2 (Z.ltb_ge _ _)) by lia ].

(* and those 29 bits can be read back from the registers, with or without the
   EXIDE bit a filter may carry *)
Lemma id_of_filter_registers v extended :
  id_of_registers (filter_registers v extended) = v mod 2 ^ 29.
Proof.
  unfold filter_registers, id_registers, id_of_registers,
         EXIDE_FILTER_APPLY_ONLY_EXTENDED_FRAMES.
  apply Z.bits_inj'. intros n Hn.
  destruct (Z_lt_le_dec n 32) as [Hlt | Hge].
  - revert n Hn Hlt.
    match goal with
    | |- forall n, _ -> _ -> @?P n =>
        intros n Hn Hlt; apply (each_below_spec 32 P); [|lia]
    end.
    cbn [each_below Z.of_nat Pos.of_succ_nat Pos.succ]. cbv beta.
    destruct extended; cbn [upd nth];
      repeat split;
      bit_cmp; repeat bit_step; bit_norm;
      cbn [orb andb];
      repeat first [ rewrite orb_false_r | rewrite orb_false_l | rewrite andb_true_r
                   | rewrite andb_false_r ];
      reflexivity.
  - rewrite Z.testbit_mod_pow2 by lia.
    replace (n <? 29) with false by (symmetry; apply Z.ltb_ge; lia).
    destruct extended; cbn [upd nth andb];
      rewrite !Z.lor_spec, !Z.shiftl_spec, Z.land_spec, Z.shiftr_spec by lia;
      rewrite !testbit_u8;
      repeat match goal with
             | |- context [?a <? 8] =>
                 replace (a <? 8) with false by (symmetry; apply Z.ltb_ge; lia)
             end;
      reflexivity.
Qed.

Lemma id_of_id_registers v : id_of_registers (id_registers v) = v mod 2 ^ 29.
Proof. exact (id_of_filter_registers v false). Qed.

(** X6: the four identifier bytes the driver computes for a mask, a filter or
    an extended transmit identifier hold exactly the 29 low bits of the value,
    as SID[10:3], SID[2:0] with EID[17:16], EID[15:8] and EID[7:0]: the value
    is read back from them modulo 2^29, each byte fits eight bits, and two
    values get the same bytes exactly when they agree modulo 2^29. *)
Theorem X6_identifier_bytes (v w : Z) :
  id_of_registers (id_registers v) = v mod 2 ^ 29 /\
  Forall (fun b => 0 <= b < 256) (id_registers v) /\
  (id_registers v = id_registers w <-> v mod 2 ^ 29 = w mod 2 ^ 29).
Proof.
  split; [apply id_of_id_registers|]. split.
  - unfold id_registers. repeat constructor; apply u8_range.
  - split; intros H.
    + rewrite <- (id_of_id_registers v), <- (id_of_id_registers w). now rewrite H.
    + rewrite <- (id_registers_mod v), <- (id_registers_mod w). now rewrite H.
Qed.

(** ** Identifiers on the transmit side *)

Lemma u8_u32 x : u8 (u32 x) = u8 x.
Proof.
  apply Z.bits_inj'. intros i Hi. rewrite !testbit_u8.
  destruct (Z.ltb_spec i 8) as [Hlt|Hge]; [|reflexivity].
  now rewrite testbit_u32 by lia.
Qed.

Lemma tx_standard_registers ft id :
  ft = TX_STANDARD_DATA_FRAME \/ ft = TX_STANDARD_REMOTE_FRAME ->
  tx_id_registers ft id = [ u8 (Z.shiftr id 3); u8 (u32 (Z.shiftl id 5)); 0; 0 ].
Proof. intros [-> | ->]; reflexivity. Qed.

Lemma tx_standard_registers_mod ft id :
  ft = TX_STANDARD_DATA_FRAME \/ ft = TX_STANDARD_REMOTE_FRAME ->
  tx_id_registers ft (id mod 2 ^ 11) = tx_id_registers ft id.
Proof.
  intros Hft. rewrite !(tx_standard_registers ft) by exact Hft.
  rewrite (u8_shiftr_mod id 11 3), !u8_u32 by lia.
  f_equal. f_equal.
  apply Z.bits_inj'. intros i Hi.
  rewrite !testbit_u8, !Z.shiftl_spec, Z.testbit_mod_pow2 by lia.
  destruct (Z.ltb_spec i 8) as [Hlt|Hge]; [|reflexivity].
  replace (i - 5 <? 11) with true by (symmetry; apply Z.ltb_lt; lia).
  reflexivity.
Qed.

(** X7: a standard frame carries the 11 low bits of the identifier given to
    CAN_Control_Send_CAN_Frame, whatever its 21 upper bits are: the ID
    registers loaded into the TX buffer are read back by the receive path as
    a standard frame with identifier [id mod 2^11]. *)
Theorem X7_standard_id_11_bits (ft id : Z) :
  ft = TX_STANDARD_DATA_FRAME \/ ft = TX_STANDARD_REMOTE_FRAME ->
  rx_id_of_registers (tx_id_registers ft id) = (false, id mod 2 ^ 11).
Proof.
  intros Hft. rewrite <- (tx_standard_registers_mod ft id Hft).
  assert (Hr : 0 <= id mod 2 ^ 11 < 2048) by (apply Z.mod_pos_bound; reflexivity).
  destruct (standard_id_round_trip _ Hr) as [Hd Hrem].
  destruct Hft as [-> | ->]; assumption.
Qed.

(* 0x12345 has 0x345 as its 11 low bits *)
Lemma X7_witness :
  rx_id_of_registers (tx_id_registers TX_STANDARD_DATA_FRAME 0x12345) = (false, 0x345).
Proof. exact (X7_standard_id_11_bits TX_STANDARD_DATA_FRAME 0x12345 (or_introl eq_refl)). Defined.

Lemma tx_extended_registers ft id :
  ft = TX_EXTENDED_DATA_FRAME \/ ft = TX_EXTENDED_REMOTE_FRAME ->
  tx_id_registers ft id = filter_registers id true.
Proof. intros [-> | ->]; reflexivity. Qed.

Lemma filter_registers_mod v extended :
  filter_registers (v mod 2 ^ 29) extended = filter_registers v extended.
Proof. unfold filter_registers. now rewrite id_registers_mod. Qed.

Lemma filter_registers_EXIDE v extended :
  Z.testbit (nth 1 (filter_registers v extended) 0) 3 = extended.
Proof.
  unfold filter_registers, id_registers, EXIDE_FILTER_APPLY_ONLY_EXTENDED_FRAMES.
  destruct extended; cbn [upd nth]; repeat bit_step; bit_norm;
    cbn [orb andb]; repeat first [rewrite orb_false_r | rewrite andb_false_r]; reflexivity.
Qed.

(** X8: the transmit side of an extended frame is sound.  The ID registers
    loaded into the TX buffer have EXIDE set and hold the 29 low bits of the
    identifier in the layout of can.h, so that two identifiers load the same
    registers exactly when they agree modulo 2^29. *)
Theorem X8_extended_id_29_bits (ft id : Z) :
  ft = TX_EXTENDED_DATA_FRAME \/ ft = TX_EXTENDED_REMOTE_FRAME ->
  id_of_registers (tx_id_registers ft id) = id mod 2 ^ 29 /\
  Z.testbit (nth 1 (tx_id_registers ft id) 0) 3 = true /\
  (forall id', tx_id_registers ft id = tx_id_registers ft id' <->
               id mod 2 ^ 29 = id' mod 2 ^ 29).
Proof.
  intros Hft. rewrite (tx_extended_registers ft id Hft).
  split; [apply id_of_filter_registers|]. split; [apply filter_registers_EXIDE|].
  intros id'. rewrite (tx_extended_registers ft id' Hft). split; intros H.
  - rewrite <- (id_of_filter_registers id true), <- (id_of_filter_registers id' true).
    now rewrite H.
  - rewrite <- (filter_registers_mod id), <- (filter_registers_mod id'). now rewrite H.
Qed.

(* the extended identifier of CAN1_TX in main.c *)
Lemma X8_witness :
  tx_id_registers TX_EXTENDED_DATA_FRAME 0x1D0CAFC8 = [0xE8; 0x68; 0xAF; 0xC8] /\
  id_of_registers [0xE8; 0x68; 0xAF; 0xC8] = 0x1D0CAFC8.
Proof.
  split; [reflexivity|].
  exact (proj1 (X8_extended_id_29_bits TX_EXTENDED_DATA_FRAME 0x1D0CAFC8 (or_introl eq_refl))).
Defined.

(** ** Masks and filters *)

Lemma filter_registers_firstn v extended :
  firstn (Z.to_nat 4) (filter_registers v extended) = filter_registers v extended.
Proof. destruct extended; reflexivity. Qed.

Lemma filter_registers_length v extended : length (filter_registers v extended) = 4%nat.
Proof. destruct extended; reflexivity. Qed.

Lemma mask_run hmask n RXMn reg s :
  (if selected (rxmasknmbr hmask) RXMn
   then CAN_Control_Register_Write reg (id_registers (nth n (rxmaskvalue hmask) 0)) 4
   else skip) s =
  (tt, log s (mask_events (periph_of (hcan s)) hmask n RXMn reg)).
Proof.
  unfold mask_events. destruct (selected (rxmasknmbr hmask) RXMn).
  - now rewrite Register_Write_run.
  - now rewrite log_nil.
Qed.

Lemma Set_RX_Mask_run hmask s :
  CAN_Control_Set_RX_Mask hmask s = (tt, log s (masks_events (periph_of (hcan s)) hmask)).
Proof.
  unfold CAN_Control_Set_RX_Mask, masks_events, mask_table.
  rewrite bind_run, !mask_run. cbn [fst snd flat_map].
  now rewrite hcan_log, log_log, app_nil_r.
Qed.

Lemma set_filter_run hfilter n RXFn ext reg s :
  set_filter hfilter n RXFn ext reg s =
  (tt, log s (filter_events (periph_of (hcan s)) hfilter n RXFn ext reg)).
Proof.
  unfold set_filter, filter_events. destruct (selected (rxfilternmbr hfilter) RXFn).
  - cbv zeta. rewrite Register_Write_run.
    now rewrite <- (filter_registers_firstn (nth n (rxfiltervalue hfilter) 0)
                      (selected (extendedidenable hfilter) ext)).
  - now rewrite log_nil.
Qed.

Lemma Set_RX_Filter_run hfilter s :
  CAN_Control_Set_RX_Filter hfilter s =
  (tt, log s (filters_events (periph_of (hcan s)) hfilter)).
Proof.
  unfold CAN_Control_Set_RX_Filter, filters_events, filter_table.
  repeat first [ rewrite bind_run | rewrite set_filter_run | rewrite hcan_log
               | rewrite log_log | progress cbn [fst snd] ].
  cbn [flat_map]. rewrite app_nil_r. now repeat rewrite <- app_assoc.
Qed.

(** ** What a sequence of WRITE frames leaves in the registers *)

Lemma store_bytes_spec bytes : forall addr regs a,
  store_bytes addr bytes regs a =
  if between addr (length bytes) a then nth (Z.to_nat (a - addr)) bytes 0 else regs a.
Proof.
  unfold between. induction bytes as [|b t IH]; intros addr regs a.
  - cbn [store_bytes length].
    destruct (Z.leb_spec addr a), (Z.ltb_spec a (addr + Z.of_nat 0)); cbn [andb];
      try reflexivity; lia.
  - cbn [store_bytes]. rewrite IH. cbn [length].
    destruct (Z.leb_spec (addr + 1) a), (Z.ltb_spec a (addr + 1 + Z.of_nat (length t)));
      destruct (Z.leb_spec addr a), (Z.ltb_spec a (addr + Z.of_nat (S (length t))));
      cbn [andb]; try lia;
      destruct (Z.eqb_spec a addr) as [Heq|Hne]; try lia; try reflexivity;
      try (subst a; rewrite Z.sub_diag; reflexivity);
      try (replace (Z.to_nat (a - addr)) with (S (Z.to_nat (a - (addr + 1)))) by lia;
           reflexivity).
Qed.

Lemma mcp2515_frames_app l1 l2 regs :
  mcp2515_frames (l1 ++ l2) regs = mcp2515_frames l2 (mcp2515_frames l1 regs).
Proof. apply fold_left_app. Qed.


Lemma mosi_frames_app_writes p evs1 frames1 evs2 frames2 :
  (forall rest, mosi_frames p (evs1 ++ rest) = frames1 ++ mosi_frames p rest) ->
  (forall rest, mosi_frames p (evs2 ++ rest) = frames2 ++ mosi_frames p rest) ->
  forall rest, mosi_frames p ((evs1 ++ evs2) ++ rest) = (frames1 ++ frames2) ++ mosi_frames p rest.
Proof. intros H1 H2 rest. now rewrite <- !app_assoc, H1, H2. Qed.

Lemma mosi_frames_mask_events p hmask n RXMn reg rest :
  mosi_frames p (mask_events (Some p) hmask n RXMn reg ++ rest) =
  opt_write (selected (rxmasknmbr hmask) RXMn) reg
            (id_registers (nth n (rxmaskvalue hmask) 0)) ++ mosi_frames p rest.
Proof.
  unfold mask_events, opt_write. destruct (selected (rxmasknmbr hmask) RXMn).
  - apply mosi_frames_write_frame.
  - reflexivity.
Qed.

Lemma mosi_frames_filter_events p hfilter n RXFn ext reg rest :
  mosi_frames p (filter_events (Some p) hfilter n RXFn ext reg ++ rest) =
  opt_write (selected (rxfilternmbr hfilter) RXFn) reg
            (filter_registers (nth n (rxfiltervalue hfilter) 0)
                              (selected (extendedidenable hfilter) ext)) ++ mosi_frames p rest.
Proof.
  unfold filter_events, opt_write. destruct (selected (rxfilternmbr hfilter) RXFn).
  - apply mosi_frames_write_frame.
  - reflexivity.
Qed.

(* evaluate the address tests of the nested writes at a concrete address *)
Ltac between_eval :=
  repeat match goal with
  | |- context [between ?r ?n ?a] =>
      let v := eval vm_compute in (between r n a) in
      lazymatch v with
      | true => change (between r n a) with true
      | false => change (between r n a) with false
      end
  end;
  repeat first [ rewrite andb_false_r | rewrite andb_true_r ].

Lemma between_false r n a : ~ r <= a < r + Z.of_nat n -> between r n a = false.
Proof.
  intros H. unfold between.
  destruct (Z.leb_spec r a), (Z.ltb_spec a (r + Z.of_nat n)); cbn [andb]; try reflexivity; lia.
Qed.

Lemma last_written_app l1 l2 a :
  last_written (l1 ++ l2) a =
  match last_written l2 a with Some v => Some v | None => last_written l1 a end.
Proof.
  induction l1 as [|[addr b] l1 IH]; cbn [app last_written].
  - now destruct (last_written l2 a).
  - rewrite IH. now destruct (last_written l2 a).
Qed.

Lemma last_written_addressed bytes : forall addr a,
  last_written (addressed addr bytes) a =
  if between addr (length bytes) a then Some (nth (Z.to_nat (a - addr)) bytes 0) else None.
Proof.
  unfold between. induction bytes as [|b t IH]; intros addr a.
  - cbn [addressed last_written length].
    destruct (Z.leb_spec addr a), (Z.ltb_spec a (addr + Z.of_nat 0)); cbn [andb];
      try reflexivity; lia.
  - cbn [addressed last_written]. rewrite IH. cbn [length].
    destruct (Z.leb_spec (addr + 1) a), (Z.ltb_spec a (addr + 1 + Z.of_nat (length t)));
      destruct (Z.leb_spec addr a), (Z.ltb_spec a (addr + Z.of_nat (S (length t))));
      cbn [andb]; try lia;
      destruct (Z.eqb_spec a addr) as [Heq|Hne]; try lia; try reflexivity;
      try (subst a; rewrite Z.sub_diag; reflexivity).
    replace (Z.to_nat (a - addr)) with (S (Z.to_nat (a - (addr + 1)))) by lia.
    reflexivity.
Qed.

(* one more WRITE frame, sent or not, at the end of the traffic *)
Lemma writes_snoc l b r bytes a :
  last_written (flat_map frame_writes (l ++ opt_write b r bytes)) a =
  if b && between r (length bytes) a
  then Some (nth (Z.to_nat (a - r)) bytes 0)
  else last_written (flat_map frame_writes l) a.
Proof.
  rewrite flat_map_app, last_written_app.
  destruct b; cbn [opt_write flat_map frame_writes andb]; [|reflexivity].
  rewrite Z.eqb_refl, app_nil_r, last_written_addressed.
  now destruct (between r (length bytes) a).
Qed.

(* a BIT MODIFY frame carries no byte for a register *)
Lemma writes_snoc_bit l b r mask data a :
  last_written (flat_map frame_writes (l ++ opt_bit b r mask data)) a =
  last_written (flat_map frame_writes l) a.
Proof.
  rewrite flat_map_app, last_written_app. now destruct b.
Qed.

Lemma masks_frames p hmask :
  mosi_frames p (masks_events (Some p) hmask) =
  ([] ++ opt_write (selected (rxmasknmbr hmask) RXM0) RXM0SIDH_REG
                   (id_registers (nth 0 (rxmaskvalue hmask) 0)))
      ++ opt_write (selected (rxmasknmbr hmask) RXM1) RXM1SIDH_REG
                   (id_registers (nth 1 (rxmaskvalue hmask) 0)).
Proof.
  unfold masks_events, mask_table. cbn [flat_map].
  rewrite !mosi_frames_mask_events. cbn [mosi_frames mosi_frames_from app].
  now rewrite app_nil_r.
Qed.

Lemma filters_frames p hfilter :
  let w n RXFn ext reg :=
    opt_write (selected (rxfilternmbr hfilter) RXFn) reg
              (filter_registers (nth n (rxfiltervalue hfilter) 0)
                                (selected (extendedidenable hfilter) ext)) in
  mosi_frames p (filters_events (Some p) hfilter) =
  ((((([] ++ w 0%nat RXF0 RXF0_EXTENDED_ID_ENABLED RXF0SIDH_REG)
          ++ w 1%nat RXF1 RXF1_EXTENDED_ID_ENABLED RXF1SIDH_REG)
          ++ w 2%nat RXF2 RXF2_EXTENDED_ID_ENABLED RXF2SIDH_REG)
          ++ w 3%nat RXF3 RXF3_EXTENDED_ID_ENABLED RXF3SIDH_REG)
          ++ w 4%nat RXF4 RXF4_EXTENDED_ID_ENABLED RXF4SIDH_REG)
          ++ w 5%nat RXF5 RXF5_EXTENDED_ID_ENABLED RXF5SIDH_REG.
Proof.
  cbv zeta. unfold filters_events, filter_table. cbn [flat_map].
  rewrite !mosi_frames_filter_events. cbn [mosi_frames mosi_frames_from].
  rewrite app_nil_r. cbn [app]. now repeat rewrite <- app_assoc.
Qed.

Lemma id_registers_length v : length (id_registers v) = 4%nat.
Proof. reflexivity. Qed.

Ltac table_entry Hin :=
  cbn [In mask_table filter_table] in Hin;
  repeat (destruct Hin as [Hin | Hin]; [injection Hin as <- <- <- | ]);
  try contradiction.

(** X9: on a handle with a valid transport CAN_Control_Set_RX_Mask sends one
    four-byte WRITE per selected mask, mask 0 (from RXM0SIDH) before mask 1
    (from RXM1SIDH), and nothing else.  The four bytes sent for the registers
    of a selected mask stand for the 29 low bits of its rxmaskvalue entry,
    with SIDL bit 3 clear, and no byte is sent for any register outside the
    selected masks.  (The controller takes mask registers in configuration
    mode only; whether it is in that mode is not the driver's doing here and
    not part of the statement.) *)
Theorem X9_rx_masks (s : board) (p : spi_periph) (hmask : CAN_Control_RX_Mask) :
  periph_of (hcan s) = Some p ->
  let evs := masks_events (Some p) hmask in
  exec (CAN_Control_Set_RX_Mask hmask) s = log s evs /\
  mosi_frames p evs =
    flat_map (fun '(n, RXMn, reg) =>
                opt_write (selected (rxmasknmbr hmask) RXMn) reg
                          (id_registers (nth n (rxmaskvalue hmask) 0)))
             mask_table /\
  (forall n RXMn reg, In (n, RXMn, reg) mask_table ->
     selected (rxmasknmbr hmask) RXMn = true ->
     let bytes := id_registers (nth n (rxmaskvalue hmask) 0) in
     (forall i, (i < 4)%nat -> written p evs (reg + Z.of_nat i) = Some (nth i bytes 0)) /\
     id_of_registers bytes = nth n (rxmaskvalue hmask) 0 mod 2 ^ 29 /\
     Z.testbit (nth 1 bytes 0) 3 = false) /\
  (forall a,
     (forall n RXMn reg, In (n, RXMn, reg) mask_table ->
        selected (rxmasknmbr hmask) RXMn = true -> ~ reg <= a < reg + 4) ->
     written p evs a = None).
Proof.
  intros Hp evs. split; [|split; [|split]].
  - unfold exec. now rewrite Set_RX_Mask_run, Hp.
  - unfold evs. rewrite masks_frames. cbn [flat_map mask_table app].
    now rewrite app_nil_r.
  - intros n RXMn reg Hin Hsel bytes. split; [|split].
    + intros i Hi. unfold written, bus_writes, evs. rewrite masks_frames.
      rewrite !writes_snoc, !id_registers_length.
      table_entry Hin; rewrite ?Hsel;
        destruct i as [|[|[|[|i]]]]; try lia;
        between_eval; cbn [andb]; reflexivity.
    + exact (id_of_filter_registers (nth n (rxmaskvalue hmask) 0) false).
    + exact (filter_registers_EXIDE (nth n (rxmaskvalue hmask) 0) false).
  - intros a Hout.
    assert (Hno : forall n RXMn reg, In (n, RXMn, reg) mask_table ->
              selected (rxmasknmbr hmask) RXMn && between reg 4 a = false).
    { intros n RXMn reg Hin.
      destruct (selected (rxmasknmbr hmask) RXMn) eqn:Hsel; [|reflexivity].
      apply between_false. exact (Hout n RXMn reg Hin Hsel). }
    unfold written, bus_writes, evs. rewrite masks_frames.
    rewrite !writes_snoc, !id_registers_length.
    rewrite (Hno 0%nat RXM0 RXM0SIDH_REG), (Hno 1%nat RXM1 RXM1SIDH_REG)
      by (cbn [In mask_table]; auto).
    reflexivity.
Qed.

(* CAN2_Masks of main.c: both masks, 0x1FFC0000 and 0x1FFFFFFF *)
Lemma X9_witness :
  trace (exec (CAN_Control_Set_RX_Mask CAN2_Masks) (board_with [])) =
  [ EvCS_Enable SPI1; EvWrite SPI1 [0x02]; EvWrite SPI1 [0x20];
    EvWrite SPI1 [0xFF; 0xE0; 0x00; 0x00]; EvCS_Disable SPI1; EvDelay 50;
    EvCS_Enable SPI1; EvWrite SPI1 [0x02]; EvWrite SPI1 [0x24];
    EvWrite SPI1 [0xFF; 0xE3; 0xFF; 0xFF]; EvCS_Disable SPI1; EvDelay 50 ].
Proof.
  exact (f_equal trace (proj1 (X9_rx_masks (board_with []) SPI1 CAN2_Masks eq_refl))).
Defined.

(** X10: on a handle with a valid transport CAN_Control_Set_RX_Filter sends
    one four-byte WRITE per selected filter, in the order RXF0 .. RXF5 (from
    0x00, 0x04, 0x08, 0x10, 0x14 and 0x18), and nothing else.  The four bytes
    sent for the registers of a selected filter stand for the 29 low bits of
    its rxfiltervalue entry, EXIDE (SIDL bit 3) is set in them exactly when
    the filter's flag is set in extendedidenable, and no byte is sent for
    any register outside the selected filters.  (The controller takes filter
    registers in configuration mode only; whether it is in that mode is not
    part of the statement.) *)
Theorem X10_rx_filters (s : board) (p : spi_periph) (hfilter : CAN_Control_RX_Filter) :
  periph_of (hcan s) = Some p ->
  let evs := filters_events (Some p) hfilter in
  exec (CAN_Control_Set_RX_Filter hfilter) s = log s evs /\
  mosi_frames p evs =
    flat_map (fun '(n, RXFn, ext, reg) =>
                opt_write (selected (rxfilternmbr hfilter) RXFn) reg
                          (filter_registers (nth n (rxfiltervalue hfilter) 0)
                                            (selected (extendedidenable hfilter) ext)))
             filter_table /\
  (forall n RXFn ext reg, In (n, RXFn, ext, reg) filter_table ->
     selected (rxfilternmbr hfilter) RXFn = true ->
     let bytes := filter_registers (nth n (rxfiltervalue hfilter) 0)
                                   (selected (extendedidenable hfilter) ext) in
     (forall i, (i < 4)%nat -> written p evs (reg + Z.of_nat i) = Some (nth i bytes 0)) /\
     id_of_registers bytes = nth n (rxfiltervalue hfilter) 0 mod 2 ^ 29 /\
     Z.testbit (nth 1 bytes 0) 3 = selected (extendedidenable hfilter) ext) /\
  (forall a,
     (forall n RXFn ext reg, In (n, RXFn, ext, reg) filter_table ->
        selected (rxfilternmbr hfilter) RXFn = true -> ~ reg <= a < reg + 4) ->
     written p evs a = None).
Proof.
  intros Hp evs. split; [|split; [|split]].
  - unfold exec. now rewrite Set_RX_Filter_run, Hp.
  - unfold evs. rewrite filters_frames. cbn [flat_map filter_table app].
    now rewrite app_nil_r, <- !app_assoc.
  - intros n RXFn ext reg Hin Hsel bytes. split; [|split].
    + intros i Hi. unfold written, bus_writes, evs. rewrite filters_frames.
      rewrite !writes_snoc, !filter_registers_length.
      cbn [In filter_table] in Hin;
        repeat (destruct Hin as [Hin | Hin]; [injection Hin as <- <- <- <- | ]);
        try contradiction;
        rewrite ?Hsel;
        destruct i as [|[|[|[|i]]]]; try lia;
        between_eval; cbn [andb]; reflexivity.
    + apply id_of_filter_registers.
    + apply filter_registers_EXIDE.
  - intros a Hout.
    assert (Hno : forall n RXFn ext reg, In (n, RXFn, ext, reg) filter_table ->
              selected (rxfilternmbr hfilter) RXFn && between reg 4 a = false).
    { intros n RXFn ext reg Hin.
      destruct (selected (rxfilternmbr hfilter) RXFn) eqn:Hsel; [|reflexivity].
      apply between_false. exact (Hout n RXFn ext reg Hin Hsel). }
    unfold written, bus_writes, evs. rewrite filters_frames.
    rewrite !writes_snoc, !filter_registers_length.
    rewrite (Hno 0%nat RXF0 RXF0_EXTENDED_ID_ENABLED RXF0SIDH_REG),
            (Hno 1%nat RXF1 RXF1_EXTENDED_ID_ENABLED RXF1SIDH_REG),
            (Hno 2%nat RXF2 RXF2_EXTENDED_ID_ENABLED RXF2SIDH_REG),
            (Hno 3%nat RXF3 RXF3_EXTENDED_ID_ENABLED RXF3SIDH_REG),
            (Hno 4%nat RXF4 RXF4_EXTENDED_ID_ENABLED RXF4SIDH_REG),
            (Hno 5%nat RXF5 RXF5_EXTENDED_ID_ENABLED RXF5SIDH_REG)
      by (cbn [In filter_table]; auto 10).
    reflexivity.
Qed.

(* CAN2_Filters of main.c: RXF0 = 0x15540000 for standard frames and
   RXF2 = 0x1D0CAFC8 for extended frames only *)
Lemma X10_witness :
  trace (exec (CAN_Control_Set_RX_Filter CAN2_Filters) (board_with [])) =
  [ EvCS_Enable SPI1; EvWrite SPI1 [0x02]; EvWrite SPI1 [0x00];
    EvWrite SPI1 [0xAA; 0xA0; 0x00; 0x00]; EvCS_Disable SPI1; EvDelay 50;
    EvCS_Enable SPI1; EvWrite SPI1 [0x02]; EvWrite SPI1 [0x08];
    EvWrite SPI1 [0xE8; 0x68; 0xAF; 0xC8]; EvCS_Disable SPI1; EvDelay 50 ].
Proof.
  exact (f_equal trace (proj1 (X10_rx_filters (board_with []) SPI1 CAN2_Filters eq_refl))).
Defined.

(** ** Decoding a received frame *)

Lemma rollover_test ctrl :
  (ROLLOVER_ACCEPTANCE_FILTER_0 <=?
   Z.land ctrl (lor3 BUKT_RXB0_ROLLOVER_ENABLED BUKT1_RXB0_ROLLOVER_ENABLED FILHIT_BIT_0)) =
  rollover_bits ctrl.
Proof.
  change (lor3 BUKT_RXB0_ROLLOVER_ENABLED BUKT1_RXB0_ROLLOVER_ENABLED FILHIT_BIT_0)
    with (Z.ones 3).
  rewrite Z.land_ones by lia. unfold rollover_bits.
  rewrite <- (Z.mod_pow2_bits_low ctrl 3 2), <- (Z.mod_pow2_bits_low ctrl 3 1) by lia.
  pose proof (Z.mod_pos_bound ctrl (2 ^ 3) ltac:(lia)) as Hr.
  revert Hr. generalize (ctrl mod 2 ^ 3). intros r Hr.
  pose (P := fun r => Bool.eqb (ROLLOVER_ACCEPTANCE_FILTER_0 <=? r)
                               (Z.testbit r 2 && Z.testbit r 1)).
  assert (HP : P r = true)
    by (apply (all_below_spec 8); [vm_compute; reflexivity | exact Hr]).
  now apply Bool.eqb_prop.
Qed.

Lemma upd_other {A} n m (v d : A) l : n <> m -> nth m (upd n v l) d = nth m l d.
Proof.
  revert n m; induction l as [|x l IH]; intros [|n] [|m] Hne; cbn [upd nth];
    try reflexivity; try contradiction.
  apply IH. congruence.
Qed.

Ltac rx_fields :=
  cbn [rxbuffernmbr rxframetype rx_datalength accfilter rolloverstatus rx_data rxid
       set_rx_data set_rolloverstatus set_rxframetype set_rxid set_rx_datalength
       set_accfilter rx_entry].

Lemma read_result_some s p data size :
  periph_of (hcan s) = Some p ->
  read_result s data size = incoming s p (Z.to_nat size) ++ skipn (Z.to_nat size) data.
Proof. intros Hp. unfold read_result. now rewrite Hp. Qed.

Lemma read_board_some s p reg_addr size :
  periph_of (hcan s) = Some p ->
  read_board s reg_addr size =
  log (consume s p (Z.to_nat size))
      (read_frame (Some p) reg_addr (incoming s p (Z.to_nat size))).
Proof. intros Hp. unfold read_board. now rewrite Hp. Qed.

Lemma header_nth s p spi_read k :
  (k < 6)%nat ->
  nth k (incoming s p 6 ++ skipn 6 spi_read) 0 = nth k (incoming s p 6) 0.
Proof. intros Hk. apply app_nth1. now rewrite length_incoming. Qed.

(* the RXB0 block on a valid transport *)
Lemma read_RXB0_run spi_read rxcan s p :
  periph_of (hcan s) = Some p ->
  selected (rxbuffernmbr rxcan) RXB0 = true ->
  rx_shaped rxcan ->
  let hdr := incoming s p 6 in
  let dlc := Z.land (nth 5 hdr 0) 0x0F in
  let payload := incoming (consume s p 6) p (Z.to_nat dlc) in
  let from := if rollover_bits (nth 0 hdr 0) then RXB1D0_REG else RXB0D0_REG in
  fst (read_RXB0 spi_read rxcan s) = (hdr ++ skipn 6 spi_read, RXB0_stored hdr payload rxcan) /\
  trace (snd (read_RXB0 spi_read rxcan s)) =
    trace s ++ read_frame (Some p) RXB0CTRL_REG hdr ++
    (if rx_is_data hdr then read_frame (Some p) from payload else []).
Proof.
  intros Hp Hsel (Hft & Hdl & _) hdr dlc payload from.
  subst from. unfold read_RXB0. rewrite Hsel.
  rewrite bind_run, Register_Read_run. cbn [fst snd].
  rewrite (read_result_some s p), (read_board_some s p) by exact Hp.
  change (Z.to_nat 6) with 6%nat. fold hdr.
  unfold RXB0_stored, rx_header_stored, rx_frametype_of, rx_is_data, rx_id_of.
  unfold rx_extended_id, rx_standard_id.
  rewrite !(header_nth s p spi_read) by lia. fold hdr.
  rewrite rollover_test.
  change (Z.land (nth 5 hdr 0) DLC_BITS) with dlc.
  change (Z.land (nth 5 hdr 0) 15) with dlc.
  assert (Hlen : length payload = Z.to_nat dlc) by apply length_incoming.
  rewrite Hlen.
  destruct (selected (nth 2 hdr 0) IDE_RECEIVED_EXTENDED_FRAME);
    [destruct (selected (nth 5 hdr 0) RTR_RECEIVED_REMOTE_FRAME_REQUEST)
    |destruct (selected (nth 2 hdr 0) SRR_RECEIVED_STANDARD_REMOTE_REQUEST)];
    cbn [negb]; try destruct (rollover_bits (nth 0 hdr 0));
    rewrite ?bind_run, ?read_data_run; cbn [fst snd ret]; rx_fields.
  all: rewrite ?nth_upd by lia.
  all: rewrite ?(read_result_some _ p) by (rewrite hcan_log; exact Hp).
  all: rewrite ?(trace_read_board _ _ _ p) by (rewrite hcan_log; exact Hp).
  all: rewrite ?incoming_log, ?trace_log.
  all: cbn [trace consume].
  all: rewrite ?app_nil_r, <- ?app_assoc.
  all: split; reflexivity.
Qed.

(* the RXB1 block on a valid transport *)
Lemma read_RXB1_run spi_read rxcan s p :
  periph_of (hcan s) = Some p ->
  selected (rxbuffernmbr rxcan) RXB1 = true ->
  rx_shaped rxcan ->
  let hdr := incoming s p 6 in
  let dlc := Z.land (nth 5 hdr 0) 0x0F in
  let payload := incoming (consume s p 6) p (Z.to_nat dlc) in
  snd (fst (read_RXB1 spi_read rxcan s)) = RXB1_stored hdr payload rxcan.
Proof.
  intros Hp Hsel (Hft & Hdl & _) hdr dlc payload.
  unfold read_RXB1. rewrite Hsel.
  rewrite bind_run, Register_Read_run. cbn [fst snd].
  rewrite (read_result_some s p), (read_board_some s p) by exact Hp.
  change (Z.to_nat 6) with 6%nat. fold hdr.
  unfold RXB1_stored, rx_header_stored, rx_frametype_of, rx_is_data, rx_id_of.
  unfold rx_extended_id, rx_standard_id.
  rewrite !(header_nth s p spi_read) by lia. fold hdr.
  change (Z.land (nth 5 hdr 0) DLC_BITS) with dlc.
  change (Z.land (nth 5 hdr 0) 15) with dlc.
  change (lor3 FILHIT_BIT_2 FILHIT_BIT_1 FILHIT_BIT_0) with 7.
  assert (Hlen : length payload = Z.to_nat dlc) by apply length_incoming.
  rewrite Hlen.
  destruct (selected (nth 2 hdr 0) IDE_RECEIVED_EXTENDED_FRAME);
    [destruct (selected (nth 5 hdr 0) RTR_RECEIVED_REMOTE_FRAME_REQUEST)
    |destruct (selected (nth 2 hdr 0) SRR_RECEIVED_STANDARD_REMOTE_REQUEST)];
    cbn [negb];
    rewrite ?bind_run, ?read_data_run; cbn [fst snd ret]; rx_fields.
  all: rewrite ?nth_upd by lia.
  all: rewrite ?(read_result_some _ p) by (rewrite hcan_log; exact Hp).
  all: rewrite ?incoming_log.
  all: reflexivity.
Qed.


Lemma rx_header_stored_shaped n filhit hdr r :
  rx_shaped r -> rx_shaped (rx_header_stored n filhit hdr r).
Proof.
  intros (Hf & Hl & Ha & Hd & Hi & H0 & H1). unfold rx_header_stored, rx_shaped.
  rx_fields. rewrite !length_upd. repeat split; assumption.
Qed.

Lemma set_rolloverstatus_shaped v r : rx_shaped r -> rx_shaped (set_rolloverstatus v r).
Proof. intros H. exact H. Qed.

Lemma map_u8_incoming s p n : map u8 (incoming s p n) = incoming s p n.
Proof.
  unfold incoming. rewrite map_map. apply map_ext. intros i.
  unfold u8. apply Z.mod_mod. lia.
Qed.

(* the fields the payload never reaches *)
Lemma RXB0_stored_fields hdr payload rxcan :
  let rx := RXB0_stored hdr payload rxcan in
  rxbuffernmbr rx = rxbuffernmbr rxcan /\
  rxframetype rx = upd 0 (rx_frametype_of hdr) (rxframetype rxcan) /\
  rx_datalength rx = upd 0 (Z.land (nth 5 hdr 0) 0x0F) (rx_datalength rxcan) /\
  accfilter rx = upd 0 (Z.land (nth 0 hdr 0) FILHIT_BIT_0) (accfilter rxcan) /\
  rolloverstatus rx =
    (if rx_is_data hdr
     then if rollover_bits (nth 0 hdr 0) then ROLLOVER_OCCURRED else ROLLOVER_NOT_OCCURRED
     else rolloverstatus rxcan) /\
  (rx_shaped rxcan -> rx_shaped rx).
Proof.
  cbv zeta. unfold RXB0_stored. destruct (rx_is_data hdr).
  - rewrite store_rx_data_nmbr, store_rx_data_frametype, store_rx_data_datalength,
            store_rx_data_accfilter, store_rx_data_rollover.
    repeat (split; [reflexivity|]). intros H. apply store_rx_data_shaped.
    now apply rx_header_stored_shaped.
  - repeat (split; [reflexivity|]). apply rx_header_stored_shaped.
Qed.

Lemma RXB1_stored_fields hdr payload rxcan :
  let rx := RXB1_stored hdr payload rxcan in
  rxbuffernmbr rx = rxbuffernmbr rxcan /\
  rxframetype rx = upd 1 (rx_frametype_of hdr) (rxframetype rxcan) /\
  rx_datalength rx = upd 1 (Z.land (nth 5 hdr 0) 0x0F) (rx_datalength rxcan) /\
  accfilter rx = upd 1 (Z.land (nth 0 hdr 0) 0x07) (accfilter rxcan) /\
  rolloverstatus rx = rolloverstatus rxcan /\
  (rx_shaped rxcan -> rx_shaped rx).
Proof.
  cbv zeta. unfold RXB1_stored. destruct (rx_is_data hdr).
  - rewrite store_rx_data_nmbr, store_rx_data_frametype, store_rx_data_datalength,
            store_rx_data_accfilter, store_rx_data_rollover.
    repeat (split; [reflexivity|]). intros H. apply store_rx_data_shaped.
    now apply rx_header_stored_shaped.
  - repeat (split; [reflexivity|]). apply rx_header_stored_shaped.
Qed.

(* the memory a transfer of [payload] through a row of eight bytes leaves
   from the start of that row on *)
Lemma transfer_length (payload row : list Z) :
  length row = 8%nat -> (length payload <= 15)%nat ->
  (8 <= length (payload ++ skipn (length payload) row) <= 16)%nat.
Proof. intros Hr Hp. rewrite length_app, length_skipn. lia. Qed.

(* data[][] and rxid[] after the RXB0 block: a payload of up to 15 bytes
   stays inside data[][] *)
Lemma RXB0_stored_data hdr payload rxcan :
  rx_shaped rxcan -> (length payload <= 15)%nat ->
  let bytes := payload ++ skipn (length payload) (nth 0 (rx_data rxcan) []) in
  rx_data (RXB0_stored hdr payload rxcan) =
    (if rx_is_data hdr
     then upd 1 (skipn 8 bytes ++ skipn (length bytes - 8) (nth 1 (rx_data rxcan) []))
                (upd 0 (firstn 8 bytes) (rx_data rxcan))
     else rx_data rxcan) /\
  rxid (RXB0_stored hdr payload rxcan) = upd 0 (rx_id_of hdr) (rxid rxcan).
Proof.
  intros Hsh Hlen bytes. unfold RXB0_stored.
  destruct (rx_is_data hdr); [|split; reflexivity].
  rewrite store_rx_data_0.
  - split; reflexivity.
  - apply set_rolloverstatus_shaped. now apply rx_header_stored_shaped.
  - apply transfer_length; [apply Hsh | exact Hlen].
Qed.

(* data[][] and rxid[] after the RXB1 block: what runs past data[1][7]
   replaces the bytes of rxid[0] and rxid[1] in memory order *)
Lemma RXB1_stored_data hdr payload rxcan :
  rx_shaped rxcan -> (length payload <= 15)%nat ->
  let bytes := payload ++ skipn (length payload) (nth 1 (rx_data rxcan) []) in
  rx_data (RXB1_stored hdr payload rxcan) =
    (if rx_is_data hdr then upd 1 (firstn 8 bytes) (rx_data rxcan) else rx_data rxcan) /\
  flat_map le32 (rxid (RXB1_stored hdr payload rxcan)) =
    (if rx_is_data hdr
     then map u8 (skipn 8 bytes) ++
          skipn (length bytes - 8) (flat_map le32 (upd 1 (rx_id_of hdr) (rxid rxcan)))
     else flat_map le32 (upd 1 (rx_id_of hdr) (rxid rxcan))) /\
  (rx_fits hdr = true -> length payload = Z.to_nat (Z.land (nth 5 hdr 0) 0x0F) ->
   rxid (RXB1_stored hdr payload rxcan) = upd 1 (rx_id_of hdr) (rxid rxcan)).
Proof.
  intros Hsh Hlen bytes. unfold RXB1_stored, rx_fits.
  pose proof (rx_header_stored_shaped 1 7 hdr rxcan Hsh) as Hsh1.
  pose proof (transfer_length payload (nth 1 (rx_data rxcan) []) ltac:(apply Hsh) Hlen) as Hb.
  destruct (rx_is_data hdr); [|repeat split; reflexivity].
  destruct (store_rx_data_1 bytes (rx_header_stored 1 7 hdr rxcan) Hsh1 Hb) as [Hd Hi].
  split; [exact Hd|]. split; [exact Hi|].
  cbn [negb orb]. intros Hfit Hdlc. apply Z.leb_le in Hfit.
  rewrite store_rx_data_fits; [reflexivity | exact Hsh1 | lia |].
  rewrite length_app, length_skipn.
  destruct Hsh as (_ & _ & _ & _ & _ & _ & H1). rewrite H1. lia.
Qed.

Lemma set_rxframetype_shaped n v r : rx_shaped r -> rx_shaped (set_rxframetype n v r).
Proof.
  intros (Hf & Hl & Ha & Hd & Hi & H0 & H1). unfold rx_shaped. rx_fields.
  rewrite ?length_upd. repeat split; assumption.
Qed.

Lemma set_rxid_shaped n v r : rx_shaped r -> rx_shaped (set_rxid n v r).
Proof.
  intros (Hf & Hl & Ha & Hd & Hi & H0 & H1). unfold rx_shaped. rx_fields.
  rewrite ?length_upd. repeat split; assumption.
Qed.

Lemma set_rx_datalength_shaped n v r : rx_shaped r -> rx_shaped (set_rx_datalength n v r).
Proof.
  intros (Hf & Hl & Ha & Hd & Hi & H0 & H1). unfold rx_shaped. rx_fields.
  rewrite ?length_upd. repeat split; assumption.
Qed.

Lemma set_accfilter_shaped n v r : rx_shaped r -> rx_shaped (set_accfilter n v r).
Proof.
  intros (Hf & Hl & Ha & Hd & Hi & H0 & H1). unfold rx_shaped. rx_fields.
  rewrite ?length_upd. repeat split; assumption.
Qed.

Ltac shaped :=
  repeat first
    [ assumption
    | apply store_rx_data_shaped | apply set_rolloverstatus_shaped
    | apply set_rxframetype_shaped | apply set_rxid_shaped
    | apply set_rx_datalength_shaped | apply set_accfilter_shaped ].

(* the RXB0 block keeps the selection and the shape of the structure, with or
   without a transport *)
Lemma read_RXB0_shaped spi_read rxcan s :
  rx_shaped rxcan ->
  rx_shaped (snd (fst (read_RXB0 spi_read rxcan s))) /\
  rxbuffernmbr (snd (fst (read_RXB0 spi_read rxcan s))) = rxbuffernmbr rxcan.
Proof.
  intros Hsh. split; [|apply read_RXB0_shape].
  unfold read_RXB0.
  destruct (selected (rxbuffernmbr rxcan) RXB0); [|exact Hsh].
  rewrite bind_run, Register_Read_run. cbn [fst snd].
  repeat match goal with
         | |- context [if ?b then _ else _] => destruct b
         end;
    rewrite ?bind_run, ?read_data_run; cbn [fst snd ret]; shaped.
Qed.

(* CAN_Control_Read_CAN_Frame is the RXB1 block run on what the RXB0 block
   left *)
Lemma Read_CAN_Frame_result spi_read rxcan s p :
  periph_of (hcan s) = Some p ->
  rx_shaped rxcan ->
  let r0 := read_RXB0 spi_read rxcan s in
  let hdr := incoming (snd r0) p 6 in
  let payload := incoming (consume (snd r0) p 6) p (Z.to_nat (Z.land (nth 5 hdr 0) 0x0F)) in
  result (CAN_Control_Read_CAN_Frame spi_read rxcan) s =
  if selected (rxbuffernmbr rxcan) RXB1
  then RXB1_stored hdr payload (snd (fst r0)) else snd (fst r0).
Proof.
  intros Hp Hsh r0 hdr payload.
  destruct (read_RXB0_shaped spi_read rxcan s Hsh) as [Hsh0 Hnmbr]. fold r0 in Hsh0, Hnmbr.
  unfold result, CAN_Control_Read_CAN_Frame. rewrite !bind_run. cbn [ret fst snd]. fold r0.
  destruct (selected (rxbuffernmbr rxcan) RXB1) eqn:Hsel.
  - apply read_RXB1_run; [|now rewrite Hnmbr | exact Hsh0].
    unfold r0. now rewrite keeps_read_RXB0.
  - unfold read_RXB1. now rewrite Hnmbr, Hsel.
Qed.

Lemma firstn_transfer (payload row : list Z) :
  length row = 8%nat -> (length payload <= 8)%nat ->
  let bytes := payload ++ skipn (length payload) row in
  firstn 8 bytes = bytes /\ skipn 8 bytes = [] /\ (length bytes - 8 = 0)%nat.
Proof.
  intros Hr Hp bytes.
  assert (Hb : length bytes = 8%nat)
    by (unfold bytes; rewrite length_app, length_skipn; lia).
  split; [|split].
  - rewrite <- Hb. apply firstn_all.
  - rewrite <- Hb. apply skipn_all.
  - lia.
Qed.

Lemma land_0F_range x : 0 <= Z.land x 0x0F <= 15.
Proof. exact (land_DLC_BITS x). Qed.

(** X11: what CAN_Control_Read_CAN_Frame stores for RX buffer 0 on a valid
    transport, for a frame whose payload fits data[0] (a remote frame, or a
    data frame with a DLC nibble of at most 8), when the RXB1 block that
    follows is not selected or receives such a frame too.  From the six
    bytes read at RXB0CTRL it takes the frame type, the DLC nibble, the
    filter hit (bit 0) and the identifier; a data frame's payload replaces
    the first DLC bytes of data[0] and is asked from RXB1D0 when BUKT and
    BUKT1 are both set, from RXB0D0 otherwise, and rolloverstatus says
    which; a remote frame reads no payload and leaves data[0] and
    rolloverstatus as they were.  The trace starts with these one or two
    READ frames, and ends there when RXB1 is not selected. *)
Theorem X11_RXB0_frame (s : board) (spi_read : list Z) (rxcan : CAN_Control_RX)
    (p : spi_periph) :
  periph_of (hcan s) = Some p ->
  selected (rxbuffernmbr rxcan) RXB0 = true ->
  rx_shaped rxcan ->
  let hdr := incoming s p 6 in
  let dlc := Z.land (nth 5 hdr 0) 0x0F in
  let payload := incoming (consume s p 6) p (Z.to_nat dlc) in
  let from := if rollover_bits (nth 0 hdr 0) then RXB1D0_REG else RXB0D0_REG in
  let s0 := exec (read_RXB0 spi_read rxcan) s in
  let rx := result (CAN_Control_Read_CAN_Frame spi_read rxcan) s in
  rx_fits hdr = true ->
  selected (rxbuffernmbr rxcan) RXB1 = false \/ rx_fits (incoming s0 p 6) = true ->
  rx_entry 0 rx =
    (rx_frametype_of hdr, dlc, Z.land (nth 0 hdr 0) FILHIT_BIT_0,
     (if rx_is_data hdr then payload ++ skipn (Z.to_nat dlc) (nth 0 (rx_data rxcan) [])
      else nth 0 (rx_data rxcan) []),
     rx_id_of hdr) /\
  rolloverstatus rx =
    (if rx_is_data hdr
     then if rollover_bits (nth 0 hdr 0) then ROLLOVER_OCCURRED else ROLLOVER_NOT_OCCURRED
     else rolloverstatus rxcan) /\
  exists rest,
    trace (exec (CAN_Control_Read_CAN_Frame spi_read rxcan) s) =
      trace s ++ read_frame (Some p) RXB0CTRL_REG hdr ++
      (if rx_is_data hdr then read_frame (Some p) from payload else []) ++ rest /\
    (selected (rxbuffernmbr rxcan) RXB1 = false -> rest = []).
Proof.
  intros Hp Hsel Hsh hdr dlc payload from s0 rx Hfit Hfit1.
  destruct (read_RXB0_run spi_read rxcan s p Hp Hsel Hsh) as [Hr0 Htr].
  fold hdr dlc payload from in Hr0, Htr.
  pose proof (Read_CAN_Frame_result spi_read rxcan s p Hp Hsh) as Hres.
  cbv zeta in Hres. fold rx in Hres. rewrite Hr0 in Hres. cbn [snd] in Hres.
  assert (Hlen : length payload = Z.to_nat dlc) by apply length_incoming.
  pose proof (land_0F_range (nth 5 hdr 0)) as Hdlc. fold dlc in Hdlc.
  assert (Hlen15 : (length payload <= 15)%nat) by lia.
  destruct (RXB0_stored_fields hdr payload rxcan) as (N0 & F0 & L0 & A0 & R0 & S0).
  destruct (RXB0_stored_data hdr payload rxcan Hsh Hlen15) as [D0 I0].
  fold dlc in L0. specialize (S0 Hsh).
  destruct Hsh as (Hf & Hl & Ha & Hd & Hi & Hrow0 & Hrow1).
  (* entry 0 of what the RXB0 block left *)
  assert (E0 : rx_entry 0 (RXB0_stored hdr payload rxcan) =
               (rx_frametype_of hdr, dlc, Z.land (nth 0 hdr 0) FILHIT_BIT_0,
                (if rx_is_data hdr
                 then payload ++ skipn (Z.to_nat dlc) (nth 0 (rx_data rxcan) [])
                 else nth 0 (rx_data rxcan) []),
                rx_id_of hdr)).
  { unfold rx_entry. rewrite F0, L0, A0, D0, I0. rewrite !nth_upd by lia.
    unfold rx_fits in Hfit. destruct (rx_is_data hdr); [|reflexivity].
    cbn [negb orb] in Hfit. apply Z.leb_le in Hfit. fold dlc in Hfit.
    destruct (firstn_transfer payload (nth 0 (rx_data rxcan) []) Hrow0 ltac:(lia))
      as (H8 & _ & _).
    rewrite upd_other by lia. rewrite nth_upd by lia. rewrite H8, Hlen. reflexivity. }
  split; [|split].
  - destruct (selected (rxbuffernmbr rxcan) RXB1) eqn:Hsel1; rewrite Hres; [|exact E0].
    destruct Hfit1 as [Hno | Hfit1]; [discriminate|].
    rewrite <- E0. unfold rx_entry.
    match goal with
    | |- context [RXB1_stored ?h ?q ?r] =>
        destruct (RXB1_stored_fields h q r) as (N1 & F1 & L1 & A1 & R1 & _);
        destruct (RXB1_stored_data h q r S0) as (D1 & _ & I1);
          [rewrite length_incoming;
           pose proof (land_0F_range (nth 5 h 0)); lia|]
    end.
    rewrite F1, L1, A1, D1, I1;
      [| unfold s0, exec in Hfit1; exact Hfit1 | apply length_incoming].
    rewrite !upd_other by lia.
    destruct (rx_is_data (incoming (snd (read_RXB0 spi_read rxcan s)) p 6));
      [rewrite upd_other by lia|]; reflexivity.
  - destruct (selected (rxbuffernmbr rxcan) RXB1) eqn:Hsel1; rewrite Hres; [|exact R0].
    rewrite <- R0.
    match goal with
    | |- context [RXB1_stored ?h ?q ?r] =>
        destruct (RXB1_stored_fields h q r) as (_ & _ & _ & _ & R1 & _)
    end.
    exact R1.
  - unfold exec, CAN_Control_Read_CAN_Frame.
    rewrite !bind_run. cbn [ret fst snd].
    set (r0 := read_RXB0 spi_read rxcan s) in *.
    destruct (selected (rxbuffernmbr rxcan) RXB1) eqn:Hsel1.
    + destruct (emits_wf_read_RXB1 (fst (fst r0)) (snd (fst r0)) (snd r0))
        as (_ & rest & Hrest & _).
      exists rest. split; [|discriminate].
      rewrite Hrest, Htr. now rewrite <- !app_assoc.
    + exists []. split; [|reflexivity].
      unfold read_RXB1. rewrite Hr0. cbn [snd]. rewrite N0, Hsel1. cbn [ret snd].
      now rewrite Htr, app_nil_r.
Qed.

(* the extended data frame of [rollover_frame]: BUKT and BUKT1 are set, the
   three payload bytes are asked from RXB1D0 (0x76); the identifier sent as
   0x1D0CAFC8 is decoded as 0x1D80AFC8, as the identifier codec shows *)
Lemma X11_witness :
  rx_entry 0 (result (CAN_Control_Read_CAN_Frame [0; 0; 0; 0; 0; 0] RXB0_only)
                     (board_with rollover_frame)) =
  (RX_EXTENDED_DATA_FRAME, 3, 0, [0x11; 0x22; 0x33; 0; 0; 0; 0; 0], 0x1D80AFC8).
Proof.
  exact (proj1 (X11_RXB0_frame (board_with rollover_frame) [0; 0; 0; 0; 0; 0] RXB0_only SPI1
                  eq_refl eq_refl ltac:(repeat split) eq_refl (or_introl eq_refl))).
Defined.

(* a payload that fills its row and more replaces the whole row *)
Lemma transfer_long (payload row : list Z) :
  length row = 8%nat -> (8 <= length payload)%nat ->
  payload ++ skipn (length payload) row = payload.
Proof.
  intros Hr Hp. rewrite skipn_all2 by lia. apply app_nil_r.
Qed.

(** X12: what CAN_Control_Read_CAN_Frame stores for RX buffer 1 on a valid
    transport, after the RXB0 block has run, for a frame whose payload fits
    data[1] (a remote frame, or a data frame with a DLC nibble of at most
    8).  From the six bytes read at RXB1CTRL it takes the frame type, the
    DLC nibble, the filter hit (bits 2:0) and the identifier; a data frame's
    payload replaces the first DLC bytes of what the RXB0 block left in
    data[1], a remote frame leaves data[1] as it was.  The entries of
    buffer 0 and rolloverstatus are those the RXB0 block left. *)
Theorem X12_RXB1_frame (s : board) (spi_read : list Z) (rxcan : CAN_Control_RX)
    (p : spi_periph) :
  periph_of (hcan s) = Some p ->
  selected (rxbuffernmbr rxcan) RXB1 = true ->
  rx_shaped rxcan ->
  let r0 := read_RXB0 spi_read rxcan s in
  let rx0 := snd (fst r0) in
  let hdr := incoming (snd r0) p 6 in
  let dlc := Z.land (nth 5 hdr 0) 0x0F in
  let payload := incoming (consume (snd r0) p 6) p (Z.to_nat dlc) in
  let rx := result (CAN_Control_Read_CAN_Frame spi_read rxcan) s in
  rx_fits hdr = true ->
  rx_entry 1 rx =
    (rx_frametype_of hdr, dlc, Z.land (nth 0 hdr 0) 0x07,
     (if rx_is_data hdr then payload ++ skipn (Z.to_nat dlc) (nth 1 (rx_data rx0) [])
      else nth 1 (rx_data rx0) []),
     rx_id_of hdr) /\
  rx_entry 0 rx = rx_entry 0 rx0 /\
  rolloverstatus rx = rolloverstatus rx0.
Proof.
  intros Hp Hsel Hsh r0 rx0 hdr dlc payload rx Hfit.
  pose proof (Read_CAN_Frame_result spi_read rxcan s p Hp Hsh) as Hres.
  cbv zeta in Hres. fold r0 rx0 hdr dlc payload rx in Hres. rewrite Hsel in Hres.
  destruct (read_RXB0_shaped spi_read rxcan s Hsh) as [Hsh0 _]. fold r0 rx0 in Hsh0.
  assert (Hlen : length payload = Z.to_nat dlc) by apply length_incoming.
  pose proof (land_0F_range (nth 5 hdr 0)) as Hdlc. fold dlc in Hdlc.
  destruct (RXB1_stored_fields hdr payload rx0) as (N1 & F1 & L1 & A1 & R1 & _).
  destruct (RXB1_stored_data hdr payload rx0 Hsh0 ltac:(lia)) as (D1 & _ & I1).
  specialize (I1 Hfit Hlen). fold dlc in L1.
  destruct Hsh0 as (Hf & Hl & Ha & Hd & Hi & Hrow0 & Hrow1).
  rewrite Hres. unfold rx_entry. rewrite F1, L1, A1, D1, I1, R1.
  rewrite !nth_upd, !upd_other by lia.
  unfold rx_fits in Hfit.
  destruct (rx_is_data hdr); [|repeat split; reflexivity].
  cbn [negb orb] in Hfit. apply Z.leb_le in Hfit. fold dlc in Hfit.
  destruct (firstn_transfer payload (nth 1 (rx_data rx0) []) Hrow1 ltac:(lia))
    as (H8 & _ & _).
  rewrite nth_upd, upd_other by lia. rewrite H8, Hlen. repeat split; reflexivity.
Qed.

(* a standard remote frame in RXB1: the DLC of 5 is stored, no payload is
   read and data[1] keeps its eight bytes *)
Lemma X12_witness :
  rx_entry 1 (result (CAN_Control_Read_CAN_Frame [0; 0; 0; 0; 0; 0] RXB1_only)
                     (board_with remote_frame)) =
  (RX_STANDARD_REMOTE_FRAME, 5, 3, [1; 2; 3; 4; 5; 6; 7; 8], 0x123).
Proof.
  exact (proj1 (X12_RXB1_frame (board_with remote_frame) [0; 0; 0; 0; 0; 0] RXB1_only SPI1
                  eq_refl eq_refl ltac:(repeat split) eq_refl)).
Defined.

(** X21: CAN_Control_Read_CAN_Frame does not clamp the received length.  The
    DLC nibbles of RXB0DLC and RXB1DLC can be anything from 0 to 15, and for
    a data frame that many bytes are read and stored from the first byte of
    the buffer's row on.  With a nibble above 8 the bytes run past the
    eight of the row into what follows it in the structure: for RXB0,
    data[0] holds the first eight bytes and the others replace the
    beginning of data[1]; for RXB1, data[1] holds the first eight bytes and
    the others replace, byte by byte in little-endian order, the beginning
    of rxid[0] and rxid[1], the identifier just decoded included. *)
Theorem X21_rx_length_unclamped (s : board) (spi_read : list Z) (rxcan : CAN_Control_RX)
    (p : spi_periph) :
  periph_of (hcan s) = Some p ->
  rx_shaped rxcan ->
  let r0 := read_RXB0 spi_read rxcan s in
  let rx0 := snd (fst r0) in
  let hdr0 := incoming s p 6 in
  let dlc0 := Z.land (nth 5 hdr0 0) 0x0F in
  let payload0 := incoming (consume s p 6) p (Z.to_nat dlc0) in
  let hdr1 := incoming (snd r0) p 6 in
  let dlc1 := Z.land (nth 5 hdr1 0) 0x0F in
  let payload1 := incoming (consume (snd r0) p 6) p (Z.to_nat dlc1) in
  let rx := result (CAN_Control_Read_CAN_Frame spi_read rxcan) s in
  (0 <= dlc0 <= 15 /\ 0 <= dlc1 <= 15) /\
  (selected (rxbuffernmbr rxcan) RXB0 = true -> rx_is_data hdr0 = true -> 8 < dlc0 ->
   nth 0 (rx_datalength rx0) 0 = dlc0 /\
   nth 0 (rx_data rx0) [] = firstn 8 payload0 /\
   nth 1 (rx_data rx0) [] =
     skipn 8 payload0 ++ skipn (Z.to_nat dlc0 - 8) (nth 1 (rx_data rxcan) []) /\
   rxid rx0 = upd 0 (rx_id_of hdr0) (rxid rxcan)) /\
  (selected (rxbuffernmbr rxcan) RXB1 = true -> rx_is_data hdr1 = true -> 8 < dlc1 ->
   nth 1 (rx_datalength rx) 0 = dlc1 /\
   nth 1 (rx_data rx) [] = firstn 8 payload1 /\
   nth 0 (rx_data rx) [] = nth 0 (rx_data rx0) [] /\
   flat_map le32 (rxid rx) =
     skipn 8 payload1 ++
     skipn (Z.to_nat dlc1 - 8) (flat_map le32 (upd 1 (rx_id_of hdr1) (rxid rx0)))).
Proof.
  intros Hp Hsh r0 rx0 hdr0 dlc0 payload0 hdr1 dlc1 payload1 rx.
  pose proof (land_0F_range (nth 5 hdr0 0)) as Hd0. fold dlc0 in Hd0.
  pose proof (land_0F_range (nth 5 hdr1 0)) as Hd1. fold dlc1 in Hd1.
  split; [split; assumption|].
  destruct (read_RXB0_shaped spi_read rxcan s Hsh) as [Hsh0 _]. fold r0 rx0 in Hsh0.
  split.
  - intros Hsel Hdata Hlong.
    destruct (read_RXB0_run spi_read rxcan s p Hp Hsel Hsh) as [Hr0 _].
    fold hdr0 dlc0 payload0 r0 in Hr0.
    assert (Hrx0 : rx0 = RXB0_stored hdr0 payload0 rxcan) by (unfold rx0; now rewrite Hr0).
    assert (Hlen : length payload0 = Z.to_nat dlc0) by apply length_incoming.
    destruct (RXB0_stored_fields hdr0 payload0 rxcan) as (_ & _ & L0 & _).
    destruct (RXB0_stored_data hdr0 payload0 rxcan Hsh ltac:(lia)) as [D0 I0].
    fold dlc0 in L0. rewrite Hdata in D0.
    destruct Hsh as (Hf & Hl & Ha & Hd & Hi & Hrow0 & Hrow1).
    rewrite transfer_long in D0 by (assumption || lia).
    rewrite Hrx0, L0, D0, I0. rewrite !nth_upd by (rewrite ?length_upd; lia).
    rewrite upd_other, nth_upd by (rewrite ?length_upd; lia).
    rewrite Hlen. repeat split; reflexivity.
  - intros Hsel Hdata Hlong.
    pose proof (Read_CAN_Frame_result spi_read rxcan s p Hp Hsh) as Hres.
    cbv zeta in Hres. fold r0 rx0 hdr1 dlc1 payload1 rx in Hres. rewrite Hsel in Hres.
    assert (Hlen : length payload1 = Z.to_nat dlc1) by apply length_incoming.
    destruct (RXB1_stored_fields hdr1 payload1 rx0) as (_ & _ & L1 & _).
    destruct (RXB1_stored_data hdr1 payload1 rx0 Hsh0 ltac:(lia)) as (D1 & I1 & _).
    fold dlc1 in L1. rewrite Hdata in D1, I1.
    destruct Hsh0 as (Hf & Hl & Ha & Hd & Hi & Hrow0 & Hrow1).
    rewrite transfer_long in D1, I1 by (assumption || lia).
    rewrite Hres, L1, D1, I1. rewrite !nth_upd by lia. rewrite upd_other by lia.
    assert (Hu : map u8 (skipn 8 payload1) = skipn 8 payload1)
      by (rewrite <- skipn_map; unfold payload1; now rewrite map_u8_incoming).
    rewrite Hlen, Hu. repeat split; reflexivity.
Qed.

(* a DLC nibble of 15: from RXB0, bytes 9 to 15 land in data[1]; from RXB1,
   they overwrite rxid[0] and the three low bytes of rxid[1] *)
Lemma X21_witness :
  nth 0 (rx_data (snd (fst (read_RXB0 [0; 0; 0; 0; 0; 0] RXB0_only (board_with long_frame)))))
      [] = [1; 2; 3; 4; 5; 6; 7; 8] /\
  nth 1 (rx_data (snd (fst (read_RXB0 [0; 0; 0; 0; 0; 0] RXB0_only (board_with long_frame)))))
      [] = [9; 10; 11; 12; 13; 14; 15; 0] /\
  rxid (result (CAN_Control_Read_CAN_Frame [0; 0; 0; 0; 0; 0] RXB1_only)
               (board_with long_frame_RXB1)) = [0x0C0B0A09; 0x000F0E0D] /\
  flat_map le32 (rxid (result (CAN_Control_Read_CAN_Frame [0; 0; 0; 0; 0; 0] RXB1_only)
                              (board_with long_frame_RXB1))) =
    [9; 10; 11; 12; 13; 14; 15; 0].
Proof.
  pose proof (X21_rx_length_unclamped (board_with long_frame) [0; 0; 0; 0; 0; 0]
                RXB0_only SPI1 eq_refl ltac:(repeat split)) as (_ & HA & _).
  pose proof (X21_rx_length_unclamped (board_with long_frame_RXB1) [0; 0; 0; 0; 0; 0]
                RXB1_only SPI1 eq_refl ltac:(repeat split)) as (_ & _ & HB).
  destruct (HA eq_refl eq_refl eq_refl) as (_ & H0 & H1 & _).
  destruct (HB eq_refl eq_refl eq_refl) as (_ & _ & _ & Hid).
  split; [exact H0|]. split; [exact H1|]. split; [reflexivity|]. exact Hid.
Defined.

(** ** BIT MODIFY: aborts and flags *)

Lemma mosi_frames_bit_frame p reg_addr mask data rest :
  mosi_frames p (bit_frame (Some p) reg_addr mask data ++ rest) =
  [BIT_MODIFY_INS; reg_addr; mask; data] :: mosi_frames p rest.
Proof. destruct p; reflexivity. Qed.

Lemma frames_snoc_bit l b r mask data regs a :
  mcp2515_frames (l ++ opt_bit b r mask data) regs a =
  if b && (a =? r)
  then Z.lor (Z.ldiff (mcp2515_frames l regs a) mask) (Z.land data mask)
  else mcp2515_frames l regs a.
Proof.
  rewrite mcp2515_frames_app. destruct b; cbn [opt_bit andb]; reflexivity.
Qed.

Lemma bit_clear x mask : Z.lor (Z.ldiff x mask) (Z.land 0 mask) = Z.ldiff x mask.
Proof. now rewrite Z.land_0_l, Z.lor_0_r. Qed.

Lemma bit_set_then_clear x mask :
  Z.lor (Z.ldiff (Z.lor (Z.ldiff x mask) (Z.land mask mask)) mask) (Z.land 0 mask) =
  Z.ldiff x mask.
Proof.
  rewrite bit_clear. apply Z.bits_inj'. intros n Hn.
  rewrite !Z.ldiff_spec, Z.lor_spec, Z.land_spec, Z.ldiff_spec.
  destruct (Z.testbit x n), (Z.testbit mask n); reflexivity.
Qed.

Lemma bit_set x mask : Z.lor (Z.ldiff x mask) (Z.land mask mask) = Z.lor x mask.
Proof.
  apply Z.bits_inj'. intros n Hn.
  rewrite !Z.lor_spec, Z.land_spec, Z.ldiff_spec.
  destruct (Z.testbit x n), (Z.testbit mask n); reflexivity.
Qed.

Lemma abort_run tx_buffer TXBn reg s :
  (if selected tx_buffer TXBn
   then CAN_Control_Register_Bit reg TXREQ_PENDING TXREQ_NO_PENDING else skip) s =
  (tt, log s (if selected tx_buffer TXBn
              then bit_frame (periph_of (hcan s)) reg TXREQ_PENDING TXREQ_NO_PENDING
              else [])).
Proof.
  destruct (selected tx_buffer TXBn).
  - apply Register_Bit_run.
  - now rewrite log_nil.
Qed.

Lemma TX_CAN_Abort_run tx_buffer s :
  CAN_Control_TX_CAN_Abort tx_buffer s =
  (tt, log s (abort_events (periph_of (hcan s)) tx_buffer)).
Proof.
  unfold CAN_Control_TX_CAN_Abort, abort_events, abort_table.
  repeat first [ rewrite bind_run | rewrite abort_run | rewrite hcan_log
               | rewrite log_log | progress cbn [fst snd] ].
  cbn [flat_map]. rewrite app_nil_r. now repeat rewrite <- app_assoc.
Qed.

Lemma abort_frames p tx_buffer :
  mosi_frames p (abort_events (Some p) tx_buffer) =
  (([] ++ opt_bit (selected tx_buffer TXB0) TXB0CTRL_REG TXREQ_PENDING TXREQ_NO_PENDING)
       ++ opt_bit (selected tx_buffer TXB1) TXB1CTRL_REG TXREQ_PENDING TXREQ_NO_PENDING)
       ++ opt_bit (selected tx_buffer TXB2) TXB2CTRL_REG TXREQ_PENDING TXREQ_NO_PENDING.
Proof.
  unfold abort_events, abort_table, opt_bit. cbn [flat_map].
  destruct (selected tx_buffer TXB0), (selected tx_buffer TXB1), (selected tx_buffer TXB2);
    destruct p; reflexivity.
Qed.

(** X13: on a valid transport CAN_Control_TX_CAN_Abort sends one BIT MODIFY
    frame per selected buffer, TXB0 first, with mask TXREQ and data 0.  In the
    controller this clears TXREQ in the TXBnCTRL of each selected buffer and
    changes nothing else: the other bits of those registers, the priority
    among them, and all other registers are as before.  A [tx_buffer] that
    selects no buffer sends nothing. *)
Theorem X13_tx_abort (s : board) (p : spi_periph) (tx_buffer : Z) :
  periph_of (hcan s) = Some p ->
  exec (CAN_Control_TX_CAN_Abort tx_buffer) s = log s (abort_events (Some p) tx_buffer) /\
  (forall regs a,
     registers_after p (abort_events (Some p) tx_buffer) regs a =
     if aborted tx_buffer a then Z.ldiff (regs a) TXREQ_PENDING else regs a) /\
  (Z.land tx_buffer 0x07 = 0 -> abort_events (Some p) tx_buffer = []).
Proof.
  intros Hp. split; [|split].
  - unfold exec. now rewrite TX_CAN_Abort_run, Hp.
  - intros regs a. unfold registers_after, aborted, abort_table.
    rewrite abort_frames, !frames_snoc_bit. cbn [existsb].
    change (mcp2515_frames [] regs a) with (regs a).
    rewrite !bit_clear.
    destruct (Z.eqb_spec a TXB0CTRL_REG) as [->|H0];
      destruct (selected tx_buffer TXB0), (selected tx_buffer TXB1),
               (selected tx_buffer TXB2); try reflexivity;
      destruct (Z.eqb_spec a TXB1CTRL_REG) as [->|H1]; try reflexivity;
      destruct (Z.eqb_spec a TXB2CTRL_REG) as [->|H2]; reflexivity.
  - intros Hnone. unfold abort_events, abort_table. cbn [flat_map].
    assert (Hsel : forall k, 0 <= k < 3 -> selected tx_buffer (2 ^ k) = false).
    { intros k Hk. rewrite selected_bit by lia.
      apply (f_equal (fun x => Z.testbit x k)) in Hnone.
      rewrite Z.land_spec, Z.bits_0 in Hnone.
      change 7 with (Z.ones 3) in Hnone. rewrite Z.testbit_ones_nonneg in Hnone by lia.
      rewrite (proj2 (Z.ltb_lt k 3)) in Hnone by lia.
      now rewrite andb_true_r in Hnone. }
    change TXB0 with (2 ^ 0). change TXB1 with (2 ^ 1). change TXB2 with (2 ^ 2).
    now rewrite !Hsel by lia.
Qed.

(* TXB0 and TXB2: two BIT MODIFY frames, for 0x30 and 0x50 *)
Lemma X13_witness :
  trace (exec (CAN_Control_TX_CAN_Abort (Z.lor TXB0 TXB2)) (board_with [])) =
  [ EvCS_Enable SPI1; EvWrite SPI1 [0x05]; EvWrite SPI1 [0x30];
    EvWrite SPI1 [0x08]; EvWrite SPI1 [0x00]; EvCS_Disable SPI1; EvDelay 50;
    EvCS_Enable SPI1; EvWrite SPI1 [0x05]; EvWrite SPI1 [0x50];
    EvWrite SPI1 [0x08]; EvWrite SPI1 [0x00]; EvCS_Disable SPI1; EvDelay 50 ].
Proof.
  exact (f_equal trace
           (proj1 (X13_tx_abort (board_with []) SPI1 (Z.lor TXB0 TXB2) eq_refl))).
Defined.

Lemma TX_CAN_Abort_All_run s :
  CAN_Control_TX_CAN_Abort_All s =
  (tt, log s (bit_frame (periph_of (hcan s)) CANCTRL_REG ABAT_REQ_ABORT_TX ABAT_REQ_ABORT_TX ++
              bit_frame (periph_of (hcan s)) CANCTRL_REG ABAT_REQ_ABORT_TX
                        ABAT_TERMINATE_REQ_ABORT_TX)).
Proof.
  unfold CAN_Control_TX_CAN_Abort_All.
  rewrite bind_run, !Register_Bit_run. cbn [fst snd].
  now rewrite hcan_log, log_log.
Qed.

(** X14: on a valid transport CAN_Control_TX_CAN_Abort_All sends two BIT
    MODIFY frames for CANCTRL with mask ABAT, the first with ABAT set, the
    second with ABAT clear, and no WRITE.  In CANCTRL itself ABAT is set
    after the first frame and clear after the second, and the operation
    mode, one-shot and clock bits are as they were, since the mask is ABAT
    alone.  (What the controller does to the TX buffers while ABAT is set is
    its own reaction and not part of the statement.) *)
Theorem X14_tx_abort_all (s : board) (p : spi_periph) :
  periph_of (hcan s) = Some p ->
  let request := bit_frame (Some p) CANCTRL_REG ABAT_REQ_ABORT_TX ABAT_REQ_ABORT_TX in
  let release := bit_frame (Some p) CANCTRL_REG ABAT_REQ_ABORT_TX
                           ABAT_TERMINATE_REQ_ABORT_TX in
  exec CAN_Control_TX_CAN_Abort_All s = log s (request ++ release) /\
  mosi_frames p (request ++ release) =
    [ [BIT_MODIFY_INS; CANCTRL_REG; ABAT_REQ_ABORT_TX; ABAT_REQ_ABORT_TX];
      [BIT_MODIFY_INS; CANCTRL_REG; ABAT_REQ_ABORT_TX; ABAT_TERMINATE_REQ_ABORT_TX] ] /\
  bus_writes p (request ++ release) = [] /\
  forall regs,
    registers_after p request regs CANCTRL_REG =
      Z.lor (regs CANCTRL_REG) ABAT_REQ_ABORT_TX /\
    registers_after p (request ++ release) regs CANCTRL_REG =
      Z.ldiff (regs CANCTRL_REG) ABAT_REQ_ABORT_TX.
Proof.
  intros Hp request release.
  assert (Hframes : mosi_frames p (request ++ release) =
            [ [BIT_MODIFY_INS; CANCTRL_REG; ABAT_REQ_ABORT_TX; ABAT_REQ_ABORT_TX];
              [BIT_MODIFY_INS; CANCTRL_REG; ABAT_REQ_ABORT_TX;
               ABAT_TERMINATE_REQ_ABORT_TX] ]).
  { unfold request, release.
    rewrite <- (app_nil_r (bit_frame (Some p) CANCTRL_REG ABAT_REQ_ABORT_TX
                                     ABAT_TERMINATE_REQ_ABORT_TX)).
    now rewrite !mosi_frames_bit_frame. }
  split; [|split; [|split]].
  - unfold exec. now rewrite TX_CAN_Abort_All_run, Hp.
  - exact Hframes.
  - unfold bus_writes. rewrite Hframes. reflexivity.
  - intros regs. unfold registers_after. rewrite Hframes. unfold request.
    rewrite <- (app_nil_r (bit_frame (Some p) CANCTRL_REG ABAT_REQ_ABORT_TX
                                     ABAT_REQ_ABORT_TX)).
    rewrite mosi_frames_bit_frame.
    unfold mcp2515_frames. cbn [mosi_frames mosi_frames_from fold_left mcp2515_frame].
    change (BIT_MODIFY_INS =? WRITE_INS) with false.
    change (BIT_MODIFY_INS =? BIT_MODIFY_INS) with true. cbv beta iota.
    rewrite Z.eqb_refl.
    split; [apply bit_set | apply bit_set_then_clear].
Qed.

Lemma X14_witness :
  trace (exec CAN_Control_TX_CAN_Abort_All (board_with [])) =
  [ EvCS_Enable SPI1; EvWrite SPI1 [0x05]; EvWrite SPI1 [0x0F];
    EvWrite SPI1 [0x10]; EvWrite SPI1 [0x10]; EvCS_Disable SPI1; EvDelay 50;
    EvCS_Enable SPI1; EvWrite SPI1 [0x05]; EvWrite SPI1 [0x0F];
    EvWrite SPI1 [0x10]; EvWrite SPI1 [0x00]; EvCS_Disable SPI1; EvDelay 50 ].
Proof.
  exact (f_equal trace (proj1 (X14_tx_abort_all (board_with []) SPI1 eq_refl))).
Defined.

Lemma registers_after_write p reg_addr bytes regs a :
  registers_after p (write_frame (Some p) reg_addr bytes) regs a =
  if between reg_addr (length bytes) a
  then nth (Z.to_nat (a - reg_addr)) bytes 0 else regs a.
Proof.
  unfold registers_after.
  rewrite <- (app_nil_r (write_frame (Some p) reg_addr bytes)), mosi_frames_write_frame.
  unfold mcp2515_frames. cbn [mosi_frames mosi_frames_from fold_left mcp2515_frame].
  rewrite Z.eqb_refl. apply store_bytes_spec.
Qed.

Lemma registers_after_bit p reg_addr mask data regs a :
  registers_after p (bit_frame (Some p) reg_addr mask data) regs a =
  if a =? reg_addr then Z.lor (Z.ldiff (regs a) mask) (Z.land data mask) else regs a.
Proof.
  unfold registers_after.
  rewrite <- (app_nil_r (bit_frame (Some p) reg_addr mask data)), mosi_frames_bit_frame.
  reflexivity.
Qed.

Lemma between_one r a : between r 1 a = (a =? r).
Proof.
  unfold between.
  destruct (Z.leb_spec r a), (Z.ltb_spec a (r + Z.of_nat 1)), (Z.eqb_spec a r);
    cbn [andb]; try reflexivity; lia.
Qed.

(** X15: the interrupt and error flag setters on a valid transport.
    CAN_Control_Enable_INT writes its argument to CANINTE as a whole, so an
    interrupt that is not named is disabled.  CAN_Control_Clear_INT_Status
    and CAN_Control_Clear_ERR_Status send one BIT MODIFY each, for CANINTF,
    respectively EFLG, with the argument as mask and 0 as data: a flag can
    be asked to be cleared, none to be set.  In CANINTF exactly the named
    flags are cleared.  In EFLG only the overflow flags RX1OVR and RX0OVR
    can be written: for an argument that names no other flag, exactly the
    named ones are cleared. *)
Theorem X15_interrupt_flags (s : board) (p : spi_periph) (flags : Z) :
  periph_of (hcan s) = Some p ->
  let enable := write_frame (Some p) CANINTE_REG [flags] in
  let clear_int := bit_frame (Some p) CANINTF_REG flags 0 in
  let clear_err := bit_frame (Some p) EFLG_REG flags 0 in
  exec (CAN_Control_Enable_INT flags) s = log s enable /\
  exec (CAN_Control_Clear_INT_Status flags) s = log s clear_int /\
  exec (CAN_Control_Clear_ERR_Status flags) s = log s clear_err /\
  (mosi_frames p enable = [[WRITE_INS; CANINTE_REG; flags]] /\
   mosi_frames p clear_int = [[BIT_MODIFY_INS; CANINTF_REG; flags; 0]] /\
   mosi_frames p clear_err = [[BIT_MODIFY_INS; EFLG_REG; flags; 0]]) /\
  forall regs,
    registers_after p enable regs CANINTE_REG = flags /\
    registers_after p clear_int regs CANINTF_REG = Z.ldiff (regs CANINTF_REG) flags /\
    (Z.land flags (Z.lor RX1OVR_RXB1_OVERFLOW RX0OVR_RXB0_OVERFLOW) = flags ->
     registers_after p clear_err regs EFLG_REG = Z.ldiff (regs EFLG_REG) flags).
Proof.
  intros Hp enable clear_int clear_err. unfold exec.
  split; [|split; [|split; [|split]]].
  - unfold CAN_Control_Enable_INT. now rewrite Register_Write_run, Hp.
  - unfold CAN_Control_Clear_INT_Status. now rewrite Register_Bit_run, Hp.
  - unfold CAN_Control_Clear_ERR_Status. now rewrite Register_Bit_run, Hp.
  - unfold enable, clear_int, clear_err. destruct p; repeat split; reflexivity.
  - intros regs. unfold enable, clear_int, clear_err.
    rewrite registers_after_write, !registers_after_bit, !bit_clear.
    cbn [length]. rewrite between_one, !Z.eqb_refl, Z.sub_diag.
    split; [reflexivity|]. split; [reflexivity|]. intros _. reflexivity.
Qed.

(* clearing RX0IF and RX1IF in CANINTF; clearing RX0OVR in an EFLG of 0xFF *)
Lemma X15_witness :
  trace (exec (CAN_Control_Clear_INT_Status 0x03) (board_with [])) =
  [ EvCS_Enable SPI1; EvWrite SPI1 [0x05]; EvWrite SPI1 [0x2C];
    EvWrite SPI1 [0x03]; EvWrite SPI1 [0x00]; EvCS_Disable SPI1; EvDelay 50 ] /\
  registers_after SPI1 (bit_frame (Some SPI1) EFLG_REG 0x40 0) (fun _ => 0xFF) EFLG_REG = 0xBF.
Proof.
  split.
  - exact (f_equal trace
             (proj1 (proj2 (X15_interrupt_flags (board_with []) SPI1 0x03 eq_refl)))).
  - exact (proj2 (proj2 (proj2 (proj2 (proj2 (proj2
             (X15_interrupt_flags (board_with []) SPI1 0x40 eq_refl))))
             (fun _ => 0xFF))) eq_refl).
Defined.

Lemma status_read_run reg_addr spi_read s p :
  periph_of (hcan s) = Some p ->
  (r <- CAN_Control_Register_Read reg_addr [spi_read] 1 ;; ret (nth 0 r 0)) s =
  (u8 (miso s p (rxcount s p)),
   log (consume s p 1) (read_frame (Some p) reg_addr [u8 (miso s p (rxcount s p))])).
Proof.
  intros Hp. rewrite bind_run, Register_Read_run. cbn [ret fst snd].
  rewrite (read_result_some s p), (read_board_some s p) by exact Hp.
  change (Z.to_nat 1) with 1%nat. now rewrite incoming_one.
Qed.

(** X16: on a valid transport CAN_Control_INT_Status and
    CAN_Control_ERR_Status return the one byte the controller answers to a
    READ of CANINTF, respectively EFLG: a value below 256 that does not
    depend on what the local variable held before the read. *)
Theorem X16_status_bytes (s : board) (p : spi_periph) (spi_read : Z) :
  periph_of (hcan s) = Some p ->
  let byte := u8 (miso s p (rxcount s p)) in
  CAN_Control_INT_Status spi_read s =
    (byte, log (consume s p 1) (read_frame (Some p) CANINTF_REG [byte])) /\
  CAN_Control_ERR_Status spi_read s =
    (byte, log (consume s p 1) (read_frame (Some p) EFLG_REG [byte])) /\
  0 <= byte < 256.
Proof.
  intros Hp byte. unfold CAN_Control_INT_Status, CAN_Control_ERR_Status.
  rewrite !(status_read_run _ spi_read s p Hp).
  repeat split; apply u8_range.
Qed.

(* the controller answers 0x21: MERRF and RX0IF pending *)
Lemma X16_witness :
  result (CAN_Control_INT_Status 0xFF) (board_with [0x21]) = 0x21.
Proof.
  exact (f_equal fst (proj1 (X16_status_bytes (board_with [0x21]) SPI1 0xFF eq_refl))).
Defined.

Lemma read_result_none s data size :
  periph_of (hcan s) = None -> read_result s data size = data.
Proof. intros Hp. unfold read_result. now rewrite Hp. Qed.

(** X17: when the handle names no transport the query functions still
    return, and what they return is whatever their local buffer held on
    entry, which C leaves indeterminate: CAN_Control_Register_Read leaves the
    caller's buffer as it was, CAN_Control_INT_Status and
    CAN_Control_ERR_Status return the local byte, and
    CAN_Control_TX_CAN_Status decodes it as if it were TXBnCTRL. *)
Theorem X17_no_transport_results (s : board) (spi_read : Z) :
  periph_of (hcan s) = None ->
  (forall reg_addr data size,
     result (CAN_Control_Register_Read reg_addr data size) s = data) /\
  result (CAN_Control_INT_Status spi_read) s = spi_read /\
  result (CAN_Control_ERR_Status spi_read) s = spi_read /\
  (forall tx_buffer, tx_buffer = TXB0 \/ tx_buffer = TXB1 \/ tx_buffer = TXB2 ->
     result (CAN_Control_TX_CAN_Status spi_read tx_buffer) s = tx_state_of spi_read).
Proof.
  intros Hp. unfold result. split; [|split; [|split]].
  - intros reg_addr data size. rewrite Register_Read_run. now apply read_result_none.
  - unfold CAN_Control_INT_Status. rewrite bind_run, Register_Read_run. cbn [ret fst snd].
    now rewrite read_result_none.
  - unfold CAN_Control_ERR_Status. rewrite bind_run, Register_Read_run. cbn [ret fst snd].
    now rewrite read_result_none.
  - intros tx_buffer Hb. unfold CAN_Control_TX_CAN_Status.
    destruct Hb as [-> | [-> | ->]].
    + change (TXB0 <=? TXB2) with true. change (TXB0 =? TXB0) with true. cbv iota.
      repeat first [rewrite bind_run | rewrite Register_Read_run | progress cbn [ret fst snd]].
      now rewrite read_result_none.
    + change (TXB1 <=? TXB2) with true. change (TXB1 =? TXB0) with false.
      change (TXB1 =? TXB1) with true. cbv iota.
      repeat first [rewrite bind_run | rewrite Register_Read_run | progress cbn [ret fst snd]].
      now rewrite read_result_none.
    + change (TXB2 <=? TXB2) with true. change (TXB2 =? TXB0) with false.
      change (TXB2 =? TXB1) with false. change (TXB2 =? TXB2) with true. cbv iota.
      repeat first [rewrite bind_run | rewrite Register_Read_run | progress cbn [ret fst snd]].
      now rewrite read_result_none.
Qed.

Lemma X17_witness : result (CAN_Control_INT_Status 0xA5) no_transport = 0xA5.
Proof. exact (proj1 (proj2 (X17_no_transport_results no_transport 0xA5 eq_refl))). Defined.

(** ** What a transmission leaves in the TX buffers *)

Lemma tx_buffer_frames_opt txcan n TXBn SIDH D0 CTRL :
  tx_buffer_frames txcan n TXBn SIDH D0 CTRL =
  opt_write (selected (txbuffernmbr txcan) TXBn) SIDH (tx_header txcan n) ++
  opt_write (selected (txbuffernmbr txcan) TXBn &&
             negb (is_remote (nth n (txframetype txcan) 0))) D0 (tx_payload txcan n) ++
  opt_write (selected (txbuffernmbr txcan) TXBn) CTRL [TXREQ_PENDING].
Proof.
  unfold tx_buffer_frames, opt_write, tx_header, tx_payload.
  destruct (selected (txbuffernmbr txcan) TXBn); [|reflexivity].
  cbv zeta. destruct (is_remote (nth n (txframetype txcan) 0)); reflexivity.
Qed.

Lemma tx_header_length txcan n : length (tx_header txcan n) = 5%nat.
Proof.
  unfold tx_header, tx_id_registers. rewrite length_app.
  destruct ((nth n (txframetype txcan) 0 =? TX_EXTENDED_DATA_FRAME)
            || (nth n (txframetype txcan) 0 =? TX_EXTENDED_REMOTE_FRAME)); reflexivity.
Qed.

Lemma tx_payload_length txcan n :
  Z.of_nat (length (tx_payload txcan n)) <= Z.max 0 (nth n (tx_datalength txcan) 0).
Proof. unfold tx_payload. rewrite length_firstn. lia. Qed.

Lemma between_true r n a : r <= a < r + Z.of_nat n -> between r n a = true.
Proof.
  intros H. unfold between.
  destruct (Z.leb_spec r a), (Z.ltb_spec a (r + Z.of_nat n)); cbn [andb]; try reflexivity; lia.
Qed.

Ltac tx_regs :=
  unfold TXB0SIDH_REG, TXB0D0_REG, TXB0CTRL_REG, TXB1SIDH_REG, TXB1D0_REG, TXB1CTRL_REG,
         TXB2SIDH_REG, TXB2D0_REG, TXB2CTRL_REG in *.

(* decide each address test from the bounds at hand *)
Ltac settle_between :=
  repeat match goal with
  | |- context [between ?r ?n ?a] =>
      first [ rewrite (between_false r n a) by (cbn [length]; tx_regs; lia)
            | rewrite (between_true r n a) by (cbn [length]; tx_regs; lia) ]
  end;
  repeat first [ rewrite andb_false_r | rewrite andb_true_r ]; cbv beta iota.

Lemma send_frames p txcan baud :
  mosi_frames p (send_events (Some p) txcan baud) =
  let sel n := selected (txbuffernmbr txcan) n in
  let data n := negb (is_remote (nth n (txframetype txcan) 0)) in
  (((((((([] ++ opt_write (sel TXB0) TXB0SIDH_REG (tx_header txcan 0))
      ++ opt_write (sel TXB0 && data 0%nat) TXB0D0_REG (tx_payload txcan 0))
      ++ opt_write (sel TXB0) TXB0CTRL_REG [TXREQ_PENDING])
      ++ opt_write (sel TXB1) TXB1SIDH_REG (tx_header txcan 1))
      ++ opt_write (sel TXB1 && data 1%nat) TXB1D0_REG (tx_payload txcan 1))
      ++ opt_write (sel TXB1) TXB1CTRL_REG [TXREQ_PENDING])
      ++ opt_write (sel TXB2) TXB2SIDH_REG (tx_header txcan 2))
      ++ opt_write (sel TXB2 && data 2%nat) TXB2D0_REG (tx_payload txcan 2))
      ++ opt_write (sel TXB2) TXB2CTRL_REG [TXREQ_PENDING].
Proof.
  cbv zeta. rewrite mosi_frames_send, !tx_buffer_frames_opt.
  cbn [app]. now repeat rewrite <- app_assoc.
Qed.

(* the state of a proof about what a transmission sends for an address:
   lengths of what is written, the three selections decided, every address
   test settled *)
Ltac send_cases txcan Hfits :=
  pose proof (tx_payload_length txcan 0) as L0;
  pose proof (tx_payload_length txcan 1) as L1;
  pose proof (tx_payload_length txcan 2) as L2;
  rewrite !writes_snoc, !(tx_header_length txcan);
  change (last_written (flat_map frame_writes []) ?a) with (@None Z);
  unfold tx_fits, tx_table in Hfits; cbn [forallb] in Hfits;
  rewrite !andb_true_iff in Hfits;
  destruct Hfits as (F0 & F1 & F2 & _);
  destruct (selected (txbuffernmbr txcan) TXB0);
  destruct (selected (txbuffernmbr txcan) TXB1);
  destruct (selected (txbuffernmbr txcan) TXB2);
  cbn [negb orb andb] in *;
  try apply Z.leb_le in F0; try apply Z.leb_le in F1; try apply Z.leb_le in F2.

(** X18: what CAN_Control_Send_CAN_Frame sends to the controller's registers
    when every selected buffer has a length of at most 8.  For each selected
    buffer the bytes last sent for the five registers from TXBnSIDH are the
    identifier bytes and the DLC byte, those for the registers from TXBnD0
    are the payload of a data frame, and the byte sent for TXBnCTRL is TXREQ
    alone; nothing that a later buffer sends overlaps them.  No byte is sent
    for any register outside TXBnCTRL .. TXBnD7 of the selected buffers.
    (What the controller then does with TXREQ and its flags once the frame
    is on the bus is its own reaction and not part of the statement.) *)
Theorem X18_send_registers (s : board) (p : spi_periph) (txcan : CAN_Control_TX) :
  periph_of (hcan s) = Some p ->
  tx_ok txcan ->
  0 < baudrate (hcan s) ->
  tx_fits txcan = true ->
  let evs := send_events (Some p) txcan (baudrate (hcan s)) in
  exec (CAN_Control_Send_CAN_Frame txcan) s = log s evs /\
  (forall n TXBn SIDH D0 CTRL, In (n, TXBn, SIDH, D0, CTRL) tx_table ->
     selected (txbuffernmbr txcan) TXBn = true ->
     (forall i, (i < 5)%nat ->
        written p evs (SIDH + Z.of_nat i) = Some (nth i (tx_header txcan n) 0)) /\
     (is_remote (nth n (txframetype txcan) 0) = false ->
      forall i, (i < length (tx_payload txcan n))%nat ->
        written p evs (D0 + Z.of_nat i) = Some (nth i (tx_payload txcan n) 0)) /\
     written p evs CTRL = Some TXREQ_PENDING) /\
  (forall a,
     (forall n TXBn SIDH D0 CTRL, In (n, TXBn, SIDH, D0, CTRL) tx_table ->
        selected (txbuffernmbr txcan) TXBn = true -> ~ CTRL <= a <= CTRL + 13) ->
     written p evs a = None).
Proof.
  intros Hp Hok Hb Hfits evs. split; [|split].
  - unfold exec. rewrite Send_run by assumption. now rewrite Hp.
  - intros n TXBn SIDH D0 CTRL Hin Hsel.
    unfold written, bus_writes, evs. rewrite send_frames. cbv zeta.
    cbn [In tx_table] in Hin.
    repeat (destruct Hin as [Hin | Hin]; [injection Hin as <- <- <- <- <- | ]);
      try contradiction.
    all: (split; [intros i Hi | split; [intros Hrem i Hi|]]).
    all: send_cases txcan Hfits; try discriminate Hsel.
    all: settle_between.
    all: rewrite ?Hrem; cbn [negb].
    all: try reflexivity.
    all: match goal with
         | |- Some (nth ?k _ _) = Some (nth ?i _ _) => replace k with i by lia
         end; reflexivity.
  - intros a Hout.
    unfold written, bus_writes, evs. rewrite send_frames. cbv zeta.
    pose proof (Hout 0%nat TXB0 TXB0SIDH_REG TXB0D0_REG TXB0CTRL_REG
                  ltac:(cbn [In tx_table]; auto)) as O0.
    pose proof (Hout 1%nat TXB1 TXB1SIDH_REG TXB1D0_REG TXB1CTRL_REG
                  ltac:(cbn [In tx_table]; auto)) as O1.
    pose proof (Hout 2%nat TXB2 TXB2SIDH_REG TXB2D0_REG TXB2CTRL_REG
                  ltac:(cbn [In tx_table]; auto)) as O2.
    clear Hout.
    send_cases txcan Hfits.
    all: try specialize (O0 eq_refl); try specialize (O1 eq_refl);
         try specialize (O2 eq_refl).
    all: settle_between; reflexivity.
Qed.

(* CAN1_TX of main.c: for TXB1 the call sends the extended identifier
   0x1D0CAFC8 with a DLC of 5, 0x01 as first payload byte and TXREQ *)
Lemma X18_witness :
  let sent := written SPI1 (send_events (Some SPI1) CAN1_TX 125000) in
  sent 0x40 = Some 0x08 /\ sent 0x41 = Some 0xE8 /\ sent 0x45 = Some 0x05 /\
  sent 0x46 = Some 0x01.
Proof.
  pose proof (X18_send_registers (board_with []) SPI1 CAN1_TX eq_refl
                ltac:(cbv - [Z.le Z.lt]; lia) ltac:(reflexivity) eq_refl) as (_ & Hsel & _).
  destruct (Hsel 1%nat TXB1 TXB1SIDH_REG TXB1D0_REG TXB1CTRL_REG
              ltac:(cbn [In tx_table]; auto) eq_refl) as (Hh & Hd & Hc).
  cbv zeta. split; [exact Hc|]. split; [exact (Hh 0%nat ltac:(lia))|].
  split; [exact (Hh 4%nat ltac:(lia))|].
  exact (Hd eq_refl 0%nat ltac:(vm_compute; lia)).
Defined.



(** ** How long a transmission blocks *)

Lemma delay_total_app a b : delay_total (a ++ b) = delay_total a + delay_total b.
Proof.
  induction a as [|e a IH]; [reflexivity|].
  destruct e; cbn [app delay_total]; rewrite IH; lia.
Qed.

Lemma delay_total_write_frame p reg_addr bytes :
  delay_total (write_frame (Some p) reg_addr bytes) = 50.
Proof. reflexivity. Qed.

Lemma delay_total_tx_buffer p txcan baud n TXBn SIDH D0 CTRL :
  delay_total (tx_buffer_events (Some p) txcan baud n TXBn SIDH D0 CTRL) =
  tx_buffer_us txcan baud n TXBn.
Proof.
  unfold tx_buffer_events, tx_buffer_us.
  destruct (selected (txbuffernmbr txcan) TXBn); [|reflexivity].
  cbv zeta. destruct (is_remote (nth n (txframetype txcan) 0));
    rewrite !delay_total_app, !delay_total_write_frame; cbn [delay_total]; lia.
Qed.

Lemma planner_cases baud :
  planner baud <> None ->
  baud = 500000 \/ baud = 250000 \/ baud = 125000 \/ baud = 100000 \/ baud = 50000.
Proof.
  unfold planner. intros H.
  destruct (Z.eqb_spec baud 500000); [auto|].
  destruct (Z.eqb_spec baud 250000); [auto|].
  destruct (Z.eqb_spec baud 125000); [auto|].
  destruct (Z.eqb_spec baud 100000); [auto|].
  destruct (Z.eqb_spec baud 50000); [auto 6|].
  contradiction.
Qed.

Lemma tx_buffer_us_bound txcan baud n TXBn :
  planner baud <> None ->
  tx_buffer_ok txcan n TXBn ->
  (selected (txbuffernmbr txcan) TXBn = true -> nth n (tx_datalength txcan) 0 <= 8) ->
  0 <= tx_buffer_us txcan baud n TXBn <= 3290.
Proof.
  intros Hbaud Hok Hfit. unfold tx_buffer_us, tx_buffer_ok in *.
  destruct (selected (txbuffernmbr txcan) TXBn); [|lia].
  destruct (Hok eq_refl) as [Hft Hdlc]. specialize (Hfit eq_refl).
  generalize dependent (nth n (tx_datalength txcan) 0). intros d Hd Hd8.
  destruct (frametype_cases _ Hft) as [-> | [-> | [-> | ->]]];
    destruct (planner_cases baud Hbaud) as [-> | [-> | [-> | [-> | ->]]]];
    unfold on_bus_us, is_remote;
    cbn [Z.eqb Pos.eqb orb TX_STANDARD_DATA_FRAME TX_EXTENDED_DATA_FRAME
         TX_STANDARD_REMOTE_FRAME TX_EXTENDED_REMOTE_FRAME];
    repeat match goal with
           | |- context [1000000 / ?b] =>
               let v := eval vm_compute in (1000000 / b) in change (1000000 / b) with v
           end;
    Z.div_mod_to_equations; lia.
Qed.

(** X20: how long CAN_Control_Send_CAN_Frame keeps the caller busy.  With a
    supported baud rate and lengths of at most 8, the delays of one call add
    up, per selected buffer, to 50 us after each of its register writes (two
    for a remote frame, three for a data frame) plus the worst-case time of
    the frame on the bus, and to no more than 9870 us in all. *)
Theorem X20_send_blocking_time (s : board) (p : spi_periph) (txcan : CAN_Control_TX) :
  periph_of (hcan s) = Some p ->
  tx_ok txcan ->
  tx_fits txcan = true ->
  planner (baudrate (hcan s)) <> None ->
  let baud := baudrate (hcan s) in
  exists evs,
    trace (exec (CAN_Control_Send_CAN_Frame txcan) s) = trace s ++ evs /\
    delay_total evs =
      tx_buffer_us txcan baud 0 TXB0 + tx_buffer_us txcan baud 1 TXB1 +
      tx_buffer_us txcan baud 2 TXB2 /\
    0 <= delay_total evs <= 9870.
Proof.
  intros Hp Hok Hfits Hbaud baud.
  assert (Hb : 0 < baudrate (hcan s))
    by (destruct (planner_cases _ Hbaud) as [H | [H | [H | [H | H]]]]; rewrite H; lia).
  exists (send_events (Some p) txcan baud). split.
  - unfold exec. rewrite Send_run by assumption. now rewrite Hp.
  - assert (Hsum : delay_total (send_events (Some p) txcan baud) =
                   tx_buffer_us txcan baud 0 TXB0 + tx_buffer_us txcan baud 1 TXB1 +
                   tx_buffer_us txcan baud 2 TXB2).
    { unfold send_events. rewrite !delay_total_app, !delay_total_tx_buffer. lia. }
    split; [exact Hsum|]. rewrite Hsum.
    destruct Hok as (Hok0 & Hok1 & Hok2).
    unfold tx_fits, tx_table in Hfits. cbn [forallb] in Hfits.
    rewrite !andb_true_iff in Hfits. destruct Hfits as (F0 & F1 & F2 & _).
    assert (B0 := tx_buffer_us_bound txcan baud 0 TXB0 Hbaud Hok0).
    assert (B1 := tx_buffer_us_bound txcan baud 1 TXB1 Hbaud Hok1).
    assert (B2 := tx_buffer_us_bound txcan baud 2 TXB2 Hbaud Hok2).
    assert (forall b d, negb b || (d <=? 8) = true -> b = true -> d <= 8) as Hle
      by (intros b d H ->; now apply Z.leb_le).
    specialize (B0 (Hle _ _ F0)). specialize (B1 (Hle _ _ F1)).
    specialize (B2 (Hle _ _ F2)). lia.
Qed.

(* CAN1_TX of main.c at 125 kbit/s: 726 + 1166 + 684 us *)
Lemma X20_witness :
  exists evs,
    trace (exec (CAN_Control_Send_CAN_Frame CAN1_TX) (board_with [])) = evs /\
    delay_total evs = 2576 /\ 0 <= delay_total evs <= 9870.
Proof.
  destruct (X20_send_blocking_time (board_with []) SPI1 CAN1_TX eq_refl
              ltac:(cbv - [Z.le Z.lt]; lia) eq_refl ltac:(discriminate))
    as (evs & Htr & Hsum & Hb).
  exists evs. split; [exact Htr|]. split; [exact Hsum | exact Hb].
Defined.

(** ** The SPI instructions the driver uses *)

Lemma driver_frames_app o a b :
  driver_frames o a -> driver_frames o b -> driver_frames o (a ++ b).
Proof.
  induction 1; intros Hb; cbn [app]; rewrite <- ?app_assoc;
    try assumption; constructor; auto.
Qed.

Lemma driver_frames_one o evs : driver_frames o (evs ++ []) -> driver_frames o evs.
Proof. now rewrite app_nil_r. Qed.

Lemma emits_df_Register_Write a d n : emits driver_frames (CAN_Control_Register_Write a d n).
Proof.
  apply (emits_log _ _ (fun o => write_frame o a (firstn (Z.to_nat n) d))).
  - intros s. now rewrite Register_Write_run.
  - intros o. apply driver_frames_one. repeat constructor.
Qed.

Lemma emits_df_Register_Bit a m d : emits driver_frames (CAN_Control_Register_Bit a m d).
Proof.
  apply (emits_log _ _ (fun o => bit_frame o a m d)).
  - intros s. now rewrite Register_Bit_run.
  - intros o. apply driver_frames_one. repeat constructor.
Qed.

Lemma emits_df_Register_Read a d n : emits driver_frames (CAN_Control_Register_Read a d n).
Proof.
  intros s. rewrite Register_Read_run. cbn [snd]. split; [apply hcan_read_board|].
  unfold read_board. destruct (periph_of (hcan s)) as [p|];
    (eexists; split; [reflexivity|]); apply driver_frames_one; repeat constructor.
Qed.

Lemma emits_df_Reset : emits driver_frames CAN_Control_Reset.
Proof.
  apply (emits_log _ _ (fun o => framed o (fun p => [EvWrite p [RESET_INS]]) ++ [EvDelay 16])).
  - intros s. now rewrite Reset_run.
  - intros o. repeat constructor.
Qed.

Lemma emits_df_delay us : emits driver_frames (TIM3_Delay_us us).
Proof.
  apply (emits_log _ _ (fun _ => [EvDelay us])); [reflexivity | repeat constructor].
Qed.

#[local] Hint Resolve emits_df_Register_Write emits_df_Register_Bit emits_df_Register_Read
  emits_df_Reset emits_df_delay : emits.

Ltac emits_df := emits_with df_nil driver_frames_app.

Lemma emits_df_Set_Op_Mode m : emits driver_frames (CAN_Control_Set_Op_Mode m).
Proof. unfold CAN_Control_Set_Op_Mode. emits_df. Qed.

Lemma emits_df_Set_Baud_Rate b : emits driver_frames (CAN_Control_Set_Baud_Rate b).
Proof. unfold CAN_Control_Set_Baud_Rate. emits_df. Qed.

Lemma emits_df_Set_RX_Mask hmask : emits driver_frames (CAN_Control_Set_RX_Mask hmask).
Proof. unfold CAN_Control_Set_RX_Mask. emits_df. Qed.

Lemma emits_df_set_filter hfilter n a b c : emits driver_frames (set_filter hfilter n a b c).
Proof. unfold set_filter. emits_df. Qed.

#[local] Hint Resolve emits_df_Set_Op_Mode emits_df_Set_Baud_Rate emits_df_set_filter : emits.

Lemma emits_df_Set_RX_Filter hfilter : emits driver_frames (CAN_Control_Set_RX_Filter hfilter).
Proof. unfold CAN_Control_Set_RX_Filter. emits_df. Qed.

Lemma emits_df_send_TXBn txcan n a b c d : emits driver_frames (send_TXBn txcan n a b c d).
Proof.
  unfold send_TXBn, WAIT_SEND_STANDARD_DATA_FRAME, WAIT_SEND_EXTENDED_DATA_FRAME,
         WAIT_SEND_STANDARD_REMOTE_FRAME, WAIT_SEND_EXTENDED_REMOTE_FRAME.
  emits_df.
Qed.

#[local] Hint Resolve emits_df_send_TXBn : emits.

Lemma emits_df_Send txcan : emits driver_frames (CAN_Control_Send_CAN_Frame txcan).
Proof. unfold CAN_Control_Send_CAN_Frame. emits_df. Qed.

Lemma emits_df_read_data a n rxcan : emits driver_frames (read_data a n rxcan).
Proof. unfold read_data. emits_df. Qed.

#[local] Hint Resolve emits_df_read_data : emits.

Lemma emits_df_read_RXB0 j rxcan : emits driver_frames (read_RXB0 j rxcan).
Proof. unfold read_RXB0. emits_df. Qed.

Lemma emits_df_read_RXB1 j rxcan : emits driver_frames (read_RXB1 j rxcan).
Proof. unfold read_RXB1. emits_df. Qed.

#[local] Hint Resolve emits_df_read_RXB0 emits_df_read_RXB1 : emits.

Lemma emits_df_Read j rxcan : emits driver_frames (CAN_Control_Read_CAN_Frame j rxcan).
Proof. unfold CAN_Control_Read_CAN_Frame. emits_df. Qed.

Lemma emits_df_TX_Status j b : emits driver_frames (CAN_Control_TX_CAN_Status j b).
Proof. unfold CAN_Control_TX_CAN_Status. emits_df. Qed.

Lemma emits_df_TX_Abort b : emits driver_frames (CAN_Control_TX_CAN_Abort b).
Proof. unfold CAN_Control_TX_CAN_Abort. emits_df. Qed.

Lemma emits_df_TX_Abort_All : emits driver_frames CAN_Control_TX_CAN_Abort_All.
Proof. unfold CAN_Control_TX_CAN_Abort_All. emits_df. Qed.

Lemma emits_df_Enable_INT i : emits driver_frames (CAN_Control_Enable_INT i).
Proof. unfold CAN_Control_Enable_INT. emits_df. Qed.

Lemma emits_df_INT_Status j : emits driver_frames (CAN_Control_INT_Status j).
Proof. unfold CAN_Control_INT_Status. emits_df. Qed.

Lemma emits_df_Clear_INT_Status i : emits driver_frames (CAN_Control_Clear_INT_Status i).
Proof. unfold CAN_Control_Clear_INT_Status. emits_df. Qed.

Lemma emits_df_ERR_Status j : emits driver_frames (CAN_Control_ERR_Status j).
Proof. unfold CAN_Control_ERR_Status. emits_df. Qed.

Lemma emits_df_Clear_ERR_Status e : emits driver_frames (CAN_Control_Clear_ERR_Status e).
Proof. unfold CAN_Control_Clear_ERR_Status. emits_df. Qed.

Lemma emits_df_Init : emits driver_frames CAN_Control_Init.
Proof.
  intros s. unfold CAN_Control_Init. rewrite bind_run. cbn [get_hcan fst snd].
  assert (Hrest : forall m : M unit, emits driver_frames m ->
            forall p,
            hcan (snd (bind (emit (EvInit p)) (fun _ => m) s)) = hcan s /\
            exists evs, trace (snd (bind (emit (EvInit p)) (fun _ => m) s)) = trace s ++ evs /\
                        driver_frames (periph_of (hcan s)) evs).
  { intros m Hm p. rewrite bind_run, emit_run. cbn [fst snd].
    destruct (Hm (log s [EvInit p])) as (Hh & evs & Ht & Hdf).
    split; [exact Hh|]. exists (EvInit p :: evs). split.
    - rewrite Ht. cbn [trace log]. now rewrite <- app_assoc.
    - apply df_init. exact Hdf. }
  destruct ((spi (hcan s) =? CAN_SPI1) || (spi (hcan s) =? CAN_SPI2));
    [|apply (emits_ret _ df_nil)].
  destruct (spi (hcan s) =? CAN_SPI1); [unfold SPI1_Init | unfold SPI2_Init];
    apply Hrest; emits_df.
Qed.

Lemma run_call_driver_frames c s :
  exists evs, trace (run_call c s) = trace s ++ evs /\ driver_frames (periph_of (hcan s)) evs.
Proof.
  destruct c; cbn [run_call]; unfold exec.
  - exact (proj2 (emits_df_Init s)).
  - exact (proj2 (emits_df_Reset s)).
  - exact (proj2 (emits_df_Set_Op_Mode _ s)).
  - exact (proj2 (emits_df_Set_Baud_Rate _ s)).
  - exact (proj2 (emits_df_Set_RX_Mask _ s)).
  - exact (proj2 (emits_df_Set_RX_Filter _ s)).
  - exact (proj2 (emits_df_Register_Write _ _ _ s)).
  - exact (proj2 (emits_df_Register_Read _ _ _ s)).
  - exact (proj2 (emits_df_Register_Bit _ _ _ s)).
  - exact (proj2 (emits_df_Send _ s)).
  - exact (proj2 (emits_df_Read _ _ s)).
  - exact (proj2 (emits_df_TX_Status _ _ s)).
  - exact (proj2 (emits_df_TX_Abort _ s)).
  - exact (proj2 (emits_df_TX_Abort_All s)).
  - exact (proj2 (emits_df_Enable_INT _ s)).
  - exact (proj2 (emits_df_INT_Status _ s)).
  - exact (proj2 (emits_df_Clear_INT_Status _ s)).
  - exact (proj2 (emits_df_ERR_Status _ s)).
  - exact (proj2 (emits_df_Clear_ERR_Status _ s)).
Qed.

Lemma mosi_frames_reset_any p o rest :
  mosi_frames p (framed o (fun q => [EvWrite q [RESET_INS]]) ++ rest) =
  (if on_periph p o then [[RESET_INS]] else []) ++ mosi_frames p rest.
Proof. destruct o as [[|]|], p; reflexivity. Qed.

Lemma mosi_frames_write_any p o reg_addr bytes rest :
  mosi_frames p (write_frame o reg_addr bytes ++ rest) =
  (if on_periph p o then [WRITE_INS :: reg_addr :: bytes] else []) ++ mosi_frames p rest.
Proof. destruct o as [[|]|], p; reflexivity. Qed.

Lemma mosi_frames_read_any p o reg_addr bytes rest :
  mosi_frames p (read_frame o reg_addr bytes ++ rest) =
  (if on_periph p o then [[READ_INS; reg_addr]] else []) ++ mosi_frames p rest.
Proof. destruct o as [[|]|], p; reflexivity. Qed.

Lemma mosi_frames_bit_any p o reg_addr mask data rest :
  mosi_frames p (bit_frame o reg_addr mask data ++ rest) =
  (if on_periph p o then [[BIT_MODIFY_INS; reg_addr; mask; data]] else []) ++
  mosi_frames p rest.
Proof. destruct o as [[|]|], p; reflexivity. Qed.

Lemma driver_frames_instructions o evs :
  driver_frames o evs -> forall p f, In f (mosi_frames p evs) -> driver_instruction f.
Proof.
  unfold driver_instruction.
  induction 1 as [|us rest _ IH|q rest _ IH|rest _ IH|reg_addr bytes rest _ IH
                  |reg_addr bytes rest _ IH|reg_addr mask data rest _ IH]; intros p f Hin.
  - contradiction.
  - apply (IH p f Hin).
  - apply (IH p f Hin).
  - rewrite mosi_frames_reset_any in Hin. apply in_app_or in Hin as [Hin | Hin]; [|eauto].
    destruct (on_periph p o); [|contradiction].
    destruct Hin as [<- | []]. now left.
  - rewrite mosi_frames_write_any in Hin. apply in_app_or in Hin as [Hin | Hin]; [|eauto].
    destruct (on_periph p o); [|contradiction].
    destruct Hin as [<- | []]. right; right; left. now exists reg_addr, bytes.
  - rewrite mosi_frames_read_any in Hin. apply in_app_or in Hin as [Hin | Hin]; [|eauto].
    destruct (on_periph p o); [|contradiction].
    destruct Hin as [<- | []]. right; left. now exists reg_addr.
  - rewrite mosi_frames_bit_any in Hin. apply in_app_or in Hin as [Hin | Hin]; [|eauto].
    destruct (on_periph p o); [|contradiction].
    destruct Hin as [<- | []]. right; right; right. now exists reg_addr, mask, data.
Qed.

(** X22: of the SPI instructions of the MCP2515 the driver uses four.
    Whatever calls are made, every chip-select frame it sends is a RESET
    (0xC0 alone), a READ (0x03 and an address), a WRITE (0x02, an address and
    the data) or a BIT MODIFY (0x05, an address, a mask and a data byte).  It
    never sends RTS, LOAD TX BUFFER, READ RX BUFFER, READ STATUS or RX
    STATUS, so a transmission is only ever requested through TXBnCTRL. *)
Theorem X22_instruction_set (calls : list driver_call) (s : board) :
  exists evs,
    trace (run_calls calls s) = trace s ++ evs /\
    forall p f, In f (mosi_frames p evs) -> driver_instruction f.
Proof.
  destruct (emits_calls driver_frames df_nil driver_frames_app (fun _ => true)
              (fun c s0 _ => run_call_driver_frames c s0) calls s)
    as (evs & Htr & Hdf).
  - now induction calls.
  - exists evs. split; [exact Htr|].
    exact (driver_frames_instructions (periph_of (hcan s)) evs Hdf).
Qed.

(** ** Filters and the frames they are meant for *)

(** X23: a filter value and the identifier of the frame it is meant to
    accept end up as the same register bytes.  For a standard identifier
    [sid] the value [sid * 2^18], which is how main.c writes its filters,
    gives the SIDH and SIDL bytes that CAN_Control_Send_CAN_Frame loads for a
    standard frame with that identifier; for an extended frame a filter with
    its EXIDE flag holds the four bytes the transmit path loads for the same
    29-bit value. *)
Theorem X23_filter_matches_tx (sid : Z) :
  0 <= sid < 2048 ->
  (forall ft, ft = TX_STANDARD_DATA_FRAME \/ ft = TX_STANDARD_REMOTE_FRAME ->
     firstn 2 (filter_registers (sid * 2 ^ 18) false) = firstn 2 (tx_id_registers ft sid)) /\
  (forall ft id, ft = TX_EXTENDED_DATA_FRAME \/ ft = TX_EXTENDED_REMOTE_FRAME ->
     filter_registers id true = tx_id_registers ft id).
Proof.
  intros Hsid. split.
  - intros ft Hft. rewrite (tx_standard_registers ft sid Hft).
    pose (P := fun x =>
      match firstn 2 (filter_registers (x * 2 ^ 18) false) with
      | [a; b] => (a =? u8 (Z.shiftr x 3)) && (b =? u8 (u32 (Z.shiftl x 5)))
      | _ => false
      end).
    assert (HP : P sid = true)
      by (apply (all_below_spec 2048); [vm_compute; reflexivity | exact Hsid]).
    unfold P in HP. unfold filter_registers, id_registers in *. cbn [firstn] in *.
    apply andb_true_iff in HP as [Ha Hb].
    apply Z.eqb_eq in Ha, Hb. now rewrite Ha, Hb.
  - intros ft id Hft. symmetry. now apply tx_extended_registers.
Qed.

(* RXF0 of main.c, 0x15540000 = 0x555 * 2^18, against the standard frame 0x555 *)
Lemma X23_witness :
  firstn 2 (filter_registers 0x15540000 false) = [0xAA; 0xA0] /\
  firstn 2 (tx_id_registers TX_STANDARD_DATA_FRAME 0x555) = [0xAA; 0xA0].
Proof.
  split; [reflexivity|].
  rewrite <- (proj1 (X23_filter_matches_tx 0x555 ltac:(lia)) TX_STANDARD_DATA_FRAME
                (or_introl eq_refl)).
  reflexivity.
Defined.

(** ** Calls that select nothing *)

Lemma not_selected x m k :
  Z.land x (Z.ones m) = 0 -> 0 <= k < m -> selected x (2 ^ k) = false.
Proof.
  intros Hnone Hk. rewrite selected_bit by lia.
  apply (f_equal (fun y => Z.testbit y k)) in Hnone.
  rewrite Z.land_spec, Z.bits_0, Z.testbit_ones_nonneg in Hnone by lia.
  rewrite (proj2 (Z.ltb_lt k m)) in Hnone by lia.
  now rewrite andb_true_r in Hnone.
Qed.

(** X24: a call whose selector names none of its buffers, masks or filters
    does nothing at all, with or without a transport: no bus traffic, no
    delay, and CAN_Control_Read_CAN_Frame hands the structure back as it
    got it. *)
Theorem X24_nothing_selected (s : board) :
  (forall txcan, Z.land (txbuffernmbr txcan) 0x07 = 0 ->
     CAN_Control_Send_CAN_Frame txcan s = (tt, s)) /\
  (forall spi_read rxcan, Z.land (rxbuffernmbr rxcan) 0x03 = 0 ->
     CAN_Control_Read_CAN_Frame spi_read rxcan s = (rxcan, s)) /\
  (forall hmask, Z.land (rxmasknmbr hmask) 0x03 = 0 ->
     CAN_Control_Set_RX_Mask hmask s = (tt, s)) /\
  (forall hfilter, Z.land (rxfilternmbr hfilter) 0x3F = 0 ->
     CAN_Control_Set_RX_Filter hfilter s = (tt, s)) /\
  (forall tx_buffer, Z.land tx_buffer 0x07 = 0 ->
     CAN_Control_TX_CAN_Abort tx_buffer s = (tt, s)).
Proof.
  split; [|split; [|split; [|split]]].
  - intros txcan H. unfold CAN_Control_Send_CAN_Frame, send_TXBn.
    change TXB0 with (2 ^ 0). change TXB1 with (2 ^ 1). change TXB2 with (2 ^ 2).
    now rewrite !(not_selected _ 3) by (assumption || lia).
  - intros spi_read rxcan H. unfold CAN_Control_Read_CAN_Frame, read_RXB0.
    change RXB0 with (2 ^ 0).
    rewrite (not_selected _ 2) by (assumption || lia).
    rewrite bind_run. cbn [ret fst snd]. unfold read_RXB1. rewrite bind_run.
    change RXB1 with (2 ^ 1).
    now rewrite (not_selected _ 2) by (assumption || lia).
  - intros hmask H. unfold CAN_Control_Set_RX_Mask.
    change RXM0 with (2 ^ 0). change RXM1 with (2 ^ 1).
    now rewrite !(not_selected _ 2) by (assumption || lia).
  - intros hfilter H. unfold CAN_Control_Set_RX_Filter, set_filter.
    change RXF0 with (2 ^ 0). change RXF1 with (2 ^ 1). change RXF2 with (2 ^ 2).
    change RXF3 with (2 ^ 3). change RXF4 with (2 ^ 4). change RXF5 with (2 ^ 5).
    now rewrite !(not_selected _ 6) by (assumption || lia).
  - intros tx_buffer H. unfold CAN_Control_TX_CAN_Abort.
    change TXB0 with (2 ^ 0). change TXB1 with (2 ^ 1). change TXB2 with (2 ^ 2).
    now rewrite !(not_selected _ 3) by (assumption || lia).
Qed.

Lemma X24_witness :
  CAN_Control_Send_CAN_Frame TX_none (board_with []) = (tt, board_with []).
Proof. exact (proj1 (X24_nothing_selected (board_with [])) TX_none eq_refl). Defined.
